(** * seller-apis: stock and price reconciliation for Ozon and Yandex.Market

    A shallow embedding of [seller.py] (Ozon) and of the functions of
    [market.py] (Yandex.Market): [divide], [price_conversion],
    [create_stocks] and [create_prices], the clients and the orchestration
    around them, together with the handful of Python builtins they call
    ([str.split], [re.sub], [int], [range], slicing, [list.remove],
    [datetime.isoformat]).

    [seller.py] is the file that runs.  [market.py] does not compile as it
    is: the docstring of its first function is indented by seven columns
    and the statements after it by four, which the tokenizer refuses
    ([Source.indentation] on [Source.market_py]).  [Module Market] and
    [Module MarketSync] hold what the functions of [market.py] say; a
    statement about both files holds of [seller.py] as it runs and of
    [market.py] as it reads.

    Conventions.
    - A Python [str] is a [string] holding its UTF-8 encoding.  The
      characters [split] and [re.sub] look for are ASCII ('.', the
      digits); in UTF-8 every byte of a non-ASCII character is at least
      128, so splitting and filtering byte by byte agrees with doing so
      character by character.  [int] reads the characters themselves,
      decoded from the bytes.
    - A Python [int] is a [Z].
    - A supplier row is the dict pandas produces for one spreadsheet line;
      its three columns are taken as [str] values, as in the data model, so
      that [str(watch.get(..))] is the identity.
    - [offer_ids] is a Python list that [create_stocks] mutates in place: it
      lives in the [state] threaded through the monad [M], and it outlives
      an exception. *)

From Stdlib Require Import List String Ascii ZArith Bool Lia Permutation.
From Stdlib Require Import DecimalString.
Import ListNotations.
Local Open Scope string_scope.
Local Open Scope Z_scope.

(** ** Python builtins *)

Module Py.

(** The exceptions the modelled code can raise. *)
Inductive exn : Type :=
| ValueError
| IndexError.

Definition result (A : Type) : Type := (exn + A)%type.

(** *** str *)

Definition is_ascii_digit (c : ascii) : bool :=
  ((48 <=? nat_of_ascii c) && (nat_of_ascii c <=? 57))%nat.

(** [s.split(sep)] for a one-character separator: the pieces between the
    occurrences of [sep], never an empty list. *)
Fixpoint split (sep : ascii) (s : string) : list string :=
  match s with
  | EmptyString => [EmptyString]
  | String c s' =>
      if Ascii.eqb c sep then EmptyString :: split sep s'
      else match split sep s' with
           | [] => [String c EmptyString]
           | piece :: pieces => String c piece :: pieces
           end
  end.

(** [l[i]] for a non-negative index. *)
Definition index {A : Type} (l : list A) (i : nat) : result A :=
  match nth_error l i with
  | Some x => inr x
  | None => inl IndexError
  end.

(** [re.sub(pattern, repl, s)] where [pattern] is a one-character class,
    given as the predicate of the characters it matches: every match is
    replaced by [repl], the other characters are copied. *)
Fixpoint re_sub_class (matches : ascii -> bool) (repl : string) (s : string)
  : string :=
  match s with
  | EmptyString => EmptyString
  | String c s' =>
      if matches c then repl ++ re_sub_class matches repl s'
      else String c (re_sub_class matches repl s')
  end.

(** The class [[^0-9]]. *)
Definition not_0_9 (c : ascii) : bool := negb (is_ascii_digit c).

(** *** int(str)

    [int(s)] in base 10, as CPython's [PyLong_FromUnicodeObject] computes
    it.  First [_PyUnicode_TransformDecimalAndSpaceToASCII]: a str that is
    all ASCII is taken as it is; in any other str a character below 127
    is kept, a white-space character becomes a blank, a decimal digit of
    the Unicode database becomes the ASCII digit of its value, and the
    first character that is none of these ends the result with a '?'.
    Then [PyLong_FromString] reads the result: leading white space, an
    optional sign, digits with single underscores between them, trailing
    white space, and nothing else; more digits than [max_str_digits] are
    refused.  Every failure is a [ValueError].

    The two tables are those of Unicode 14.0.0, which CPython 3.11
    ships. *)

(** The payload of a continuation byte [10xxxxxx] of UTF-8. *)
Definition continuation (c : ascii) : option N :=
  let n := N_of_ascii c in
  if ((128 <=? n) && (n <=? 191))%N then Some (n - 128)%N else None.

(** The characters of a str, as code points, read from its UTF-8
    encoding; [None] for bytes that are the encoding of no str (a stray
    continuation byte, a sequence cut short, an overlong form, a
    surrogate, a value above U+10FFFF). *)
Fixpoint code_points (s : string) : option (list N) :=
  match s with
  | EmptyString => Some []
  | String b s1 =>
      let n := N_of_ascii b in
      if (n <? 128)%N then option_map (cons n) (code_points s1)
      else if (n <? 224)%N then
        match s1 with
        | String c1 s2 =>
            match continuation c1 with
            | Some x1 =>
                let ch := ((n - 192) * 64 + x1)%N in
                if ((192 <=? n) && (128 <=? ch))%N
                then option_map (cons ch) (code_points s2)
                else None
            | None => None
            end
        | EmptyString => None
        end
      else if (n <? 240)%N then
        match s1 with
        | String c1 (String c2 s3) =>
            match continuation c1, continuation c2 with
            | Some x1, Some x2 =>
                let ch := (((n - 224) * 64 + x1) * 64 + x2)%N in
                if ((2048 <=? ch) && negb ((55296 <=? ch) && (ch <=? 57343)))%N
                then option_map (cons ch) (code_points s3)
                else None
            | _, _ => None
            end
        | _ => None
        end
      else
        match s1 with
        | String c1 (String c2 (String c3 s4)) =>
            match continuation c1, continuation c2, continuation c3 with
            | Some x1, Some x2, Some x3 =>
                let ch := ((((n - 240) * 64 + x1) * 64 + x2) * 64 + x3)%N in
                if ((n <? 248) && (65536 <=? ch) && (ch <=? 1114111))%N
                then option_map (cons ch) (code_points s4)
                else None
            | _, _, _ => None
            end
        | _ => None
        end
  end.

(** [Py_UNICODE_ISSPACE]: the characters of bidirectional type WS, B or S
    and of category Zs. *)
Definition unicode_spaces : list N :=
  [9; 10; 11; 12; 13; 28; 29; 30; 31; 32; 133; 160; 5760;
   8192; 8193; 8194; 8195; 8196; 8197; 8198; 8199; 8200; 8201; 8202;
   8232; 8233; 8239; 8287; 12288]%N.

Definition unicode_isspace (ch : N) : bool := existsb (N.eqb ch) unicode_spaces.

(** The decimal digits of the Unicode database come in runs of ten
    consecutive characters of values 0 to 9; these are the zeros. *)
Definition unicode_zeros : list N :=
  [48; 1632; 1776; 1984; 2406; 2534; 2662; 2790; 2918; 3046; 3174; 3302;
   3430; 3558; 3664; 3792; 3872; 4160; 4240; 6112; 6160; 6470; 6608; 6784;
   6800; 6992; 7088; 7232; 7248; 42528; 43216; 43264; 43472; 43504; 43600;
   44016; 65296; 66720; 68912; 69734; 69872; 69942; 70096; 70384; 70736;
   70864; 71248; 71360; 71472; 71904; 72016; 72784; 73040; 73120; 92768;
   92864; 93008; 120782; 120792; 120802; 120812; 120822; 123200; 123632;
   125264; 130032]%N.

(** [Py_UNICODE_TODECIMAL]: the value of a decimal digit, [None] for any
    other character. *)
Definition unicode_todecimal (ch : N) : option N :=
  option_map (fun zero => (ch - zero)%N)
    (find (fun zero => ((zero <=? ch) && (ch <=? zero + 9))%N) unicode_zeros).

(** The rewriting of a str that is not ASCII. *)
Fixpoint decimal_and_space_to_ascii (chars : list N) : string :=
  match chars with
  | [] => EmptyString
  | ch :: rest =>
      if (ch <? 127)%N then
        String (ascii_of_N ch) (decimal_and_space_to_ascii rest)
      else if unicode_isspace ch then
        String " "%char (decimal_and_space_to_ascii rest)
      else
        match unicode_todecimal ch with
        | Some d =>
            String (ascii_of_N (48 + d)) (decimal_and_space_to_ascii rest)
        | None => String "?"%char EmptyString
        end
  end.

Fixpoint is_ascii (s : string) : bool :=
  match s with
  | EmptyString => true
  | String c s' => (N_of_ascii c <? 128)%N && is_ascii s'
  end.

(** What [PyLong_FromString] is given to read. *)
Definition transform_decimal_and_space (s : string) : option string :=
  if is_ascii s then Some s
  else option_map decimal_and_space_to_ascii (code_points s).

(** [Py_ISSPACE]. *)
Definition is_space (c : ascii) : bool :=
  let n := nat_of_ascii c in
  (((9 <=? n) && (n <=? 13)) || (n =? 32))%nat.

Fixpoint skip_spaces (s : string) : string :=
  match s with
  | EmptyString => EmptyString
  | String c s' => if is_space c then skip_spaces s' else s
  end.

Definition digit_value (c : ascii) : option Z :=
  if is_ascii_digit c then Some (Z.of_nat (nat_of_ascii c) - 48) else None.

Definition is_underscore (c : ascii) : bool := Ascii.eqb c "_"%char.

(** [sys.get_int_max_str_digits()], by default. *)
Definition max_str_digits : Z := 4300.

(** The digit scan: [acc] is the value read so far, [digits] the number
    of digits read, [prev_us] tells that the previous character was an
    underscore.  It stops at the first character that is neither a digit
    nor an underscore and returns the value and the number of its digits
    with the unread rest; two underscores in a row or an underscore at
    the end are errors. *)
Fixpoint scan_digits (acc digits : Z) (prev_us : bool) (s : string)
  : option (Z * Z * string) :=
  match s with
  | EmptyString => if prev_us then None else Some (acc, digits, EmptyString)
  | String c s' =>
      if is_underscore c then
        if prev_us then None else scan_digits acc digits true s'
      else
        match digit_value c with
        | Some d => scan_digits (10 * acc + d) (digits + 1) false s'
        | None => if prev_us then None else Some (acc, digits, s)
        end
  end.

(** The unsigned part: it may not start with an underscore and must hold a
    digit, and no more than [max_str_digits] of them; after it only
    white space may follow. *)
Definition int_unsigned (s : string) : option Z :=
  match s with
  | EmptyString => None
  | String c _ =>
      match digit_value c with
      | None => None
      | Some _ =>
          match scan_digits 0 0 false s with
          | Some (v, digits, rest) =>
              if max_str_digits <? digits then None
              else
                match skip_spaces rest with
                | EmptyString => Some v
                | String _ _ => None
                end
          | None => None
          end
      end
  end.

(** [PyLong_FromString] in base 10. *)
Definition int_of_str (s : string) : option Z :=
  match skip_spaces s with
  | EmptyString => None
  | String c u =>
      if Ascii.eqb c "+"%char then int_unsigned u
      else if Ascii.eqb c "-"%char then option_map Z.opp (int_unsigned u)
      else int_unsigned (String c u)
  end.

(** [int(s)]: [ValueError] for a string that is not an integer literal. *)
Definition int (s : string) : result Z :=
  match transform_decimal_and_space s with
  | Some t =>
      match int_of_str t with
      | Some z => inr z
      | None => inl ValueError
      end
  | None => inl ValueError
  end.

(** *** list *)

(** [x in l] on a list of strings. *)
Definition contains (x : string) (l : list string) : bool :=
  existsb (String.eqb x) l.

(** [l.remove(x)]: the list without the first item equal to [x];
    [ValueError] when there is none. *)
Fixpoint remove (x : string) (l : list string) : result (list string) :=
  match l with
  | [] => inl ValueError
  | y :: l' =>
      if String.eqb y x then inr l'
      else match remove x l' with
           | inr r => inr (y :: r)
           | inl e => inl e
           end
  end.

Definition len {A : Type} (l : list A) : Z := Z.of_nat (List.length l).

(** One bound of a slice, clipped to [0 .. len]: a negative bound counts
    from the end. *)
Definition clip (n i : Z) : Z :=
  if i <? 0 then Z.max (i + n) 0 else Z.min i n.

(** [l[i:j]]. *)
Definition slice {A : Type} (l : list A) (i j : Z) : list A :=
  let lo := clip (len l) i in
  let hi := clip (len l) j in
  firstn (Z.to_nat (hi - lo)) (skipn (Z.to_nat lo) l).

(** *** range *)

(** The number of items of [range(start, stop, step)] for [step <> 0]. *)
Definition range_length (start stop step : Z) : Z :=
  if 0 <? step then
    if start <? stop then (stop - start - 1) / step + 1 else 0
  else
    if stop <? start then (start - stop - 1) / (- step) + 1 else 0.

(** [range(start, stop, step)], as the list of its items; a zero step is a
    [ValueError]. *)
Definition range (start stop step : Z) : result (list Z) :=
  if step =? 0 then inl ValueError
  else inr (map (fun k => start + Z.of_nat k * step)
                (seq 0 (Z.to_nat (range_length start stop step)))).

(** *** datetime *)

Record datetime : Type := {
  year : nat; month : nat; day : nat;
  hour : nat; minute : nat; second : nat; microsecond : nat
}.

(** [d.replace(microsecond=us)]. *)
Definition replace_microsecond (d : datetime) (us : nat) : datetime :=
  {| year := year d; month := month d; day := day d;
     hour := hour d; minute := minute d; second := second d;
     microsecond := us |}.

Fixpoint zeros (n : nat) : string :=
  match n with
  | O => EmptyString
  | S n' => String "0"%char (zeros n')
  end.

(** [%0<width>d]. *)
Definition zero_padded (width n : nat) : string :=
  let digits := NilEmpty.string_of_uint (Nat.to_uint n) in
  zeros (width - String.length digits) ++ digits.

(** [d.isoformat()]: the microseconds are printed only when not zero. *)
Definition isoformat (d : datetime) : string :=
  zero_padded 4 (year d) ++ "-" ++ zero_padded 2 (month d) ++ "-"
  ++ zero_padded 2 (day d) ++ "T" ++ zero_padded 2 (hour d) ++ ":"
  ++ zero_padded 2 (minute d) ++ ":" ++ zero_padded 2 (second d)
  ++ (if Nat.eqb (microsecond d) 0 then ""
      else "." ++ zero_padded 6 (microsecond d)).

End Py.

(** ** The effects of a reconciliation call

    A call reads and mutates the list object [offer_ids] it was handed, and
    the Yandex.Market variant reads the system clock.  [clock st k] is what
    the [k]-th reading of the clock returns; [reads st] counts the readings
    made so far. *)

Record state : Type := {
  offer_ids : list string;
  clock : nat -> Py.datetime;
  reads : nat
}.

Definition with_offer_ids (st : state) (ids : list string) : state :=
  {| offer_ids := ids; clock := clock st; reads := reads st |}.

(** A computation returns a value or raises, and leaves a state behind in
    both cases. *)
Definition M (A : Type) : Type := state -> Py.result A * state.

Definition ret {A : Type} (a : A) : M A := fun st => (inr a, st).

Definition bind {A B : Type} (m : M A) (k : A -> M B) : M B :=
  fun st =>
    match m st with
    | (inr a, st') => k a st'
    | (inl e, st') => (inl e, st')
    end.

Notation "x <- m ;; k" := (bind m (fun x => k))
  (at level 61, m at next level, right associativity).

(** A pure builtin that may raise. *)
Definition lift {A : Type} (r : Py.result A) : M A := fun st => (r, st).

(** [x in offer_ids]. *)
Definition offer_ids_contains (x : string) : M bool :=
  fun st => (inr (Py.contains x (offer_ids st)), st).

(** [offer_ids.remove(x)]. *)
Definition offer_ids_remove (x : string) : M unit :=
  fun st =>
    match Py.remove x (offer_ids st) with
    | inr ids => (inr tt, with_offer_ids st ids)
    | inl e => (inl e, st)
    end.

(** The items of [offer_ids], as a [for] loop over it sees them. *)
Definition offer_ids_items : M (list string) :=
  fun st => (inr (offer_ids st), st).

(** [datetime.datetime.utcnow()]. *)
Definition utcnow : M Py.datetime :=
  fun st =>
    (inr (clock st (reads st)),
     {| offer_ids := offer_ids st; clock := clock st;
        reads := S (reads st) |}).

(** [for x in xs: body], where [acc] holds the local variables the body
    assigns. *)
Fixpoint for_each {A L : Type} (xs : list A) (body : A -> L -> M L) (acc : L)
  : M L :=
  match xs with
  | [] => ret acc
  | x :: xs' => acc' <- body x acc ;; for_each xs' body acc'
  end.

(** One line of the supplier's spreadsheet: the columns "Код" (the
    identifier), "Количество" (the quantity) and "Цена" (the price). *)
Record row : Type := {
  Kod : string;
  Kolichestvo : string;
  Tsena : string
}.

Local Open Scope list_scope.

(** ** Compiling a file

    Nothing of a file runs, and none of its functions exists, before the
    file is compiled.  The tokenizer keeps the stack of the indentation
    levels that are open, column 0 at its bottom, and checks every logical
    line against it: a line that starts to the right of the level on top
    opens a level there; any other line closes the levels to the right of
    its column, and must then start at the level on top, or the file is
    refused with [IndentationError: unindent does not match any outer
    indentation level].  Of the compiler only this check is modelled. *)

Module Source.

(** A logical line: the number of the line it starts on and the column of
    its first token.  Blank lines, comment lines and the lines that
    continue a bracket or a string literal are no logical lines. *)
Record line : Type := {
  number : nat;
  column : nat
}.








End Source.

(** ** seller.py (Ozon) *)

Module Seller.

(** An item of the stock update: [{"offer_id": .., "stock": ..}]. *)
Record StockItem : Type := {
  offer_id : string;
  stock : Z
}.

(** An item of the price update. *)
Record PriceItem : Type := {
  p_auto_action_enabled : string;
  p_currency_code : string;
  p_offer_id : string;
  p_old_price : string;
  p_price : string
}.

(** [re.sub("[^0-9]", "", price.split(".")[0])]. *)
Definition price_conversion (price : string) : Py.result string :=
  match Py.index (Py.split "."%char price) 0 with
  | inr head => inr (Py.re_sub_class Py.not_0_9 "" head)
  | inl e => inl e
  end.

(** [divide] is a generator; its callers exhaust it at once with
    [list(divide(lst, n))], and this is the list they get.  The only
    exception it can raise comes from [range], before the first chunk. *)
Definition divide {A : Type} (lst : list A) (n : Z)
  : Py.result (list (list A)) :=
  match Py.range 0 (Py.len lst) n with
  | inr starts => inr (map (fun i => Py.slice lst i (i + n)) starts)
  | inl e => inl e
  end.

(** [create_stocks(watch_remnants, offer_ids)], run on the state that holds
    [offer_ids]. *)
Definition create_stocks (watch_remnants : list row) : M (list StockItem) :=
  stocks <- for_each watch_remnants
    (fun watch stocks =>
       found <- offer_ids_contains (Kod watch) ;;
       if found : bool then
         let count := Kolichestvo watch in
         stock <- (if String.eqb count ">10" then ret 100
                   else if String.eqb count "1" then ret 0
                   else lift (Py.int (Kolichestvo watch))) ;;
         let stocks :=
           stocks ++ [{| offer_id := Kod watch; stock := stock |}] in
         _ <- offer_ids_remove (Kod watch) ;;
         ret stocks
       else ret stocks)
    [] ;;
  remaining <- offer_ids_items ;;
  for_each remaining
    (fun offer_id stocks =>
       ret (stocks ++ [{| offer_id := offer_id; stock := 0 |}]))
    stocks.

(** [create_prices(watch_remnants, offer_ids)]. *)
Definition create_prices (watch_remnants : list row) : M (list PriceItem) :=
  for_each watch_remnants
    (fun watch prices =>
       found <- offer_ids_contains (Kod watch) ;;
       if found : bool then
         converted <- lift (price_conversion (Tsena watch)) ;;
         let price :=
           {| p_auto_action_enabled := "UNKNOWN";
              p_currency_code := "RUB";
              p_offer_id := Kod watch;
              p_old_price := "0";
              p_price := converted |} in
         ret (prices ++ [price])
       else ret prices)
    [].

End Seller.

(** ** market.py (Yandex.Market)

    The functions of market.py, as their text defines them.  With the
    file refused by the compiler, none of them can be called as shipped:
    this is what each does once the docstring at line 14 starts in the
    column of the statements below it. *)

Module Market.

(** The one entry of ["items"]. *)
Record Item : Type := {
  count : Z;
  type_ : string;
  updatedAt : string
}.

(** An item of the stock update. *)
Record Sku : Type := {
  sku : string;
  warehouseId : string;
  items : list Item
}.

Record PriceValue : Type := {
  value : Z;
  currencyId : string
}.

(** An item of the price update. *)
Record Offer : Type := {
  id : string;
  price : PriceValue
}.

(** [create_stocks(watch_remnants, offer_ids, warehouse_id)]. *)
Definition create_stocks (watch_remnants : list row) (warehouse_id : string)
  : M (list Sku) :=
  now <- utcnow ;;
  let date := (Py.isoformat (Py.replace_microsecond now 0) ++ "Z")%string in
  stocks <- for_each watch_remnants
    (fun watch stocks =>
       found <- offer_ids_contains (Kod watch) ;;
       if found : bool then
         let count := Kolichestvo watch in
         stock <- (if String.eqb count ">10" then ret 100
                   else if String.eqb count "1" then ret 0
                   else lift (Py.int (Kolichestvo watch))) ;;
         let stocks :=
           stocks ++
           [{| sku := Kod watch;
               warehouseId := warehouse_id;
               items := [{| count := stock; type_ := "FIT";
                            updatedAt := date |}] |}] in
         _ <- offer_ids_remove (Kod watch) ;;
         ret stocks
       else ret stocks)
    [] ;;
  remaining <- offer_ids_items ;;
  for_each remaining
    (fun offer_id stocks =>
       ret (stocks ++
            [{| sku := offer_id;
                warehouseId := warehouse_id;
                items := [{| count := 0; type_ := "FIT";
                             updatedAt := date |}] |}]))
    stocks.

(** [create_prices(watch_remnants, offer_ids)]. *)
Definition create_prices (watch_remnants : list row) : M (list Offer) :=
  for_each watch_remnants
    (fun watch prices =>
       found <- offer_ids_contains (Kod watch) ;;
       if found : bool then
         converted <- lift (Seller.price_conversion (Tsena watch)) ;;
         v <- lift (Py.int converted) ;;
         let price :=
           {| id := Kod watch;
              price := {| value := v; currencyId := "RUR" |} |} in
         ret (prices ++ [price])
       else ret prices)
    [].

End Market.

(** ** The vocabulary of the specification *)

(** *** Chunker *)

(** The [k]-th run of [size] consecutive items of [l]. *)
Definition chunk_at {A : Type} (size : nat) (l : list A) (k : nat) : list A :=
  firstn size (skipn (k * size) l).

(** All chunks but the last one hold exactly [n] items. *)
Definition full_but_last {A : Type} (n : Z) (chunks : list (list A)) : Prop :=
  forall k c,
    nth_error chunks k = Some c -> (S k < List.length chunks)%nat ->
    Py.len c = n.

(** *** Price Normalizer *)

(** The string cut at its first decimal point. *)
Fixpoint before_first_point (s : string) : string :=
  match s with
  | EmptyString => EmptyString
  | String c s' =>
      if Ascii.eqb c "."%char then EmptyString
      else String c (before_first_point s')
  end.

(** The string without its characters that are not ASCII digits. *)
Fixpoint only_digits (s : string) : string :=
  match s with
  | EmptyString => EmptyString
  | String c s' =>
      if Py.is_ascii_digit c then String c (only_digits s')
      else only_digits s'
  end.

Definition normalized_price (price : string) : string :=
  only_digits (before_first_point price).

Fixpoint all_digits (s : string) : bool :=
  match s with
  | EmptyString => true
  | String c s' => Py.is_ascii_digit c && all_digits s'
  end.

(** The number a string of digits denotes in base 10, read after [acc]. *)
Fixpoint decimal_from (acc : Z) (s : string) : Z :=
  match s with
  | EmptyString => acc
  | String c s' => decimal_from (10 * acc + (Z.of_nat (nat_of_ascii c) - 48)) s'
  end.

Definition decimal_value (s : string) : Z := decimal_from 0 s.

Definition is_empty (s : string) : bool :=
  match s with
  | EmptyString => true
  | String _ _ => false
  end.

(** [c] occurs in [s]. *)
Fixpoint occurs (c : ascii) (s : string) : bool :=
  match s with
  | EmptyString => false
  | String d s' => Ascii.eqb d c || occurs c s'
  end.

(** *** Stock Reconciler *)

(** The quantity rule: the two sentinels, else a base-10 integer. *)
Definition resolve_quantity (count : string) : Py.result Z :=
  if String.eqb count ">10" then inr 100
  else if String.eqb count "1" then inr 0
  else Py.int count.

(** [count] resolves to [q]. *)
Definition resolves (count : string) (q : Z) : Prop :=
  (count = ">10" /\ q = 100) \/
  (count = "1" /\ q = 0) \/
  (count <> ">10" /\ count <> "1" /\ Py.int count = inr q).

(** [count] is a sentinel or an integer literal. *)
Definition readable_quantity (count : string) : Prop :=
  exists q, resolves count q.

(** [count] is neither a sentinel nor an integer literal. *)
Definition invalid_quantity (count : string) : Prop :=
  count <> ">10" /\ count <> "1" /\ Py.int count = inl Py.ValueError.

(** [l] after [l.remove(x)], for an [x] the list may not hold. *)
Definition without (x : string) (l : list string) : list string :=
  match Py.remove x l with
  | inr l' => l'
  | inl _ => l
  end.

(** The rows the matching pass takes when it starts from the working list
    [ids]: a row is taken when its identifier is still in the working
    list, and taking it removes one occurrence of the identifier. *)
Fixpoint matched_rows (rows : list row) (ids : list string) : list row :=
  match rows with
  | [] => []
  | r :: rs =>
      if Py.contains (Kod r) ids
      then r :: matched_rows rs (without (Kod r) ids)
      else matched_rows rs ids
  end.

(** The matching pass as a function: the matched rows with their resolved
    quantities, or the exception, and the working list it leaves. *)
Fixpoint match_rows (rows : list row) (ids : list string)
  : Py.result (list (row * Z)) * list string :=
  match rows with
  | [] => (inr [], ids)
  | r :: rs =>
      if Py.contains (Kod r) ids then
        match resolve_quantity (Kolichestvo r) with
        | inl e => (inl e, ids)
        | inr q =>
            match Py.remove (Kod r) ids with
            | inl e => (inl e, ids)
            | inr ids' =>
                match match_rows rs ids' with
                | (inr taken, rest) => (inr ((r, q) :: taken), rest)
                | (inl e, rest) => (inl e, rest)
                end
            end
        end
      else match_rows rs ids
  end.

(** The working list the matching pass leaves when no count stops it: one
    occurrence of the identifier of every row it takes is gone. *)
Fixpoint remaining (rows : list row) (ids : list string) : list string :=
  match rows with
  | [] => ids
  | r :: rs =>
      if Py.contains (Kod r) ids then remaining rs (without (Kod r) ids)
      else remaining rs ids
  end.

(** The rows of the feed whose identifier is in [ids] and is carried by no
    earlier row; [seen] holds the identifiers of the earlier rows. *)
Fixpoint first_matches (seen : list string) (rows : list row)
  (ids : list string) : list row :=
  match rows with
  | [] => []
  | r :: rs =>
      if Py.contains (Kod r) ids && negb (Py.contains (Kod r) seen)
      then r :: first_matches (Kod r :: seen) rs ids
      else first_matches (Kod r :: seen) rs ids
  end.

(** The identifiers of [ids] that no row of the feed carries, in the order
    of [ids]. *)
Definition unmatched (rows : list row) (ids : list string) : list string :=
  filter (fun i => negb (Py.contains i (map Kod rows))) ids.

(** Every identifier of [ids] names exactly one of the records whose
    identifiers are [out]. *)
Definition one_record_per_identifier (ids out : list string) : Prop :=
  forall i, In i ids -> count_occ string_dec out i = 1%nat.

(** The Ozon record of a matched row and of a defaulted identifier. *)
Definition ozon_matched (r : row) (s : Seller.StockItem) : Prop :=
  Seller.offer_id s = Kod r /\
  resolve_quantity (Kolichestvo r) = inr (Seller.stock s).

Definition ozon_defaulted (i : string) : Seller.StockItem :=
  {| Seller.offer_id := i; Seller.stock := 0 |}.

(** The Yandex.Market record for identifier [i], quantity [q], warehouse
    [w] and timestamp [date]. *)
Definition market_record (w date i : string) (q : Z) : Market.Sku :=
  {| Market.sku := i;
     Market.warehouseId := w;
     Market.items := [{| Market.count := q; Market.type_ := "FIT";
                         Market.updatedAt := date |}] |}.

Definition market_matched (w date : string) (r : row) (s : Market.Sku)
  : Prop :=
  exists q, s = market_record w date (Kod r) q /\
            resolve_quantity (Kolichestvo r) = inr q.

(** The timestamp of a call that starts in state [st]. *)
Definition timestamp (st : state) : string :=
  (Py.isoformat (Py.replace_microsecond (clock st (reads st)) 0) ++ "Z")%string.

(** The quantity a Yandex.Market record reports. *)
Definition market_quantities (s : Market.Sku) : list Z :=
  map Market.count (Market.items s).

(** *** Price Reconciler *)

(** The rows of the feed whose identifier is in [ids], in feed order. *)
Definition known_rows (rows : list row) (ids : list string) : list row :=
  filter (fun r => Py.contains (Kod r) ids) rows.

Definition ozon_price (r : row) : Seller.PriceItem :=
  {| Seller.p_auto_action_enabled := "UNKNOWN";
     Seller.p_currency_code := "RUB";
     Seller.p_offer_id := Kod r;
     Seller.p_old_price := "0";
     Seller.p_price := normalized_price (Tsena r) |}.

Definition market_price (r : row) : Market.Offer :=
  {| Market.id := Kod r;
     Market.price :=
       {| Market.value := decimal_value (normalized_price (Tsena r));
          Market.currencyId := "RUR" |} |}.

(** No character of [s] is an ASCII digit. *)
Fixpoint has_no_digit (s : string) : bool :=
  match s with
  | EmptyString => true
  | String c s' => negb (Py.is_ascii_digit c) && has_no_digit s'
  end.

(** The price of [r] has an ASCII digit before its first decimal point. *)
Definition has_price_digits (r : row) : bool :=
  negb (has_no_digit (before_first_point (Tsena r))).

(** The normalized price of [r] is a literal [int] reads: it has a digit,
    and no more digits than the limit. *)
Definition price_is_int (r : row) : bool :=
  has_price_digits r &&
  (Z.of_nat (String.length (normalized_price (Tsena r)))
   <=? Py.max_str_digits).

(** The records [emit] gives for [rows], up to the first row it rejects. *)
Fixpoint emit_all {R : Type} (emit : row -> Py.result R) (rows : list row)
  : Py.result (list R) :=
  match rows with
  | [] => inr []
  | r :: rs =>
      match emit r with
      | inl e => inl e
      | inr x =>
          match emit_all emit rs with
          | inl e => inl e
          | inr xs => inr (x :: xs)
          end
      end
  end.


(** *** Concrete inputs *)

Definition epoch : Py.datetime :=
  {| Py.year := 2024; Py.month := 1; Py.day := 15;
     Py.hour := 10; Py.minute := 30; Py.second := 0;
     Py.microsecond := 250 |}.

(** A state whose list object holds [ids]. *)
Definition state_of (ids : list string) : state :=
  {| offer_ids := ids; clock := fun _ => epoch; reads := 0 |}.

Definition feed_row (kod kolichestvo tsena : string) : row :=
  {| Kod := kod; Kolichestvo := kolichestvo; Tsena := tsena |}.

(** *** The claims that fail, as they are worded *)

(** The stock call on [rows] and [ids] returns records that name every
    identifier of [ids] exactly once. *)
Definition stocks_cover_once (rows : list row) (ids : list string) : Prop :=
  exists out st',
    Seller.create_stocks rows (state_of ids) = (inr out, st') /\
    one_record_per_identifier ids (map Seller.offer_id out).

(** No record reports a negative quantity. *)
Definition quantities_nonnegative (out : list Seller.StockItem) : Prop :=
  Forall (fun s => 0 <= Seller.stock s) out.

(** ** The outside world: requests, failures, output

    The remaining functions of both files talk to the marketplaces, read
    the configuration, download the feed and print.  What the outside
    answers is not in the program: it is the [remote] part of the world,
    which answers every request from the requests sent before it.  The
    program's own traces are the requests it has sent and the lines it has
    printed. *)

Module Net.

(** The exceptions that cross the functions, by the classes the handlers
    of [main] tell apart; all of them are subclasses of [Exception]. *)
Inductive exc : Type :=
| ReadTimeout                 (* requests.exceptions.ReadTimeout *)
| ConnectionError             (* requests.exceptions.ConnectionError *)
| HTTPError (status : Z)      (* from response.raise_for_status() *)
| EnvError (name : string)    (* environs: the variable is not set *)
| OtherError                  (* any other exception of a collaborator *)
| Builtin (e : Py.exn).       (* raised by the reconciliation itself *)

(** An argument of [print]. *)
Inductive printable : Type :=
| Text (s : string)
| Error (e : exc).

(** One product of an Ozon listing; only ["offer_id"] is read. *)
Record ozon_product : Type := {
  product_offer_id : string
}.

(** The ["result"] of an Ozon listing. *)
Record ozon_result : Type := {
  result_items : list ozon_product;
  result_total : Z;
  result_last_id : string
}.

(** One entry of a Yandex.Market listing; only ["offer"]["shopSku"] is
    read. *)
Record market_entry : Type := {
  entry_shopSku : string
}.

(** The ["result"] of a Yandex.Market listing; the token is [None] when
    ["nextPageToken"] is absent. *)
Record market_result : Type := {
  result_offerMappingEntries : list market_entry;
  result_nextPageToken : option string
}.

(** The requests, with the credentials and the payload they carry. *)
Inductive request : Type :=
| GetOstatki
| OzonProductList (client_id seller_token last_id : string)
| OzonImportPrices (client_id seller_token : string)
    (prices : list Seller.PriceItem)
| OzonImportStocks (client_id seller_token : string)
    (stocks : list Seller.StockItem)
| MarketOfferMappingEntries (campaign_id access_token page : string)
| MarketPutStocks (campaign_id access_token : string)
    (skus : list Market.Sku)
| MarketOfferPrices (campaign_id access_token : string)
    (offers : list Market.Offer).

(** What the outside does: the environment variables, and the answer to
    each kind of request given the requests sent so far.  An answer is the
    decoded body, or the exception the exchange ends with (a status that
    is not a success is an [HTTPError]). *)
Record remote : Type := {
  environ : string -> option string;
  ostatki : list request -> exc + list row;
  ozon_listing : list request -> request -> exc + ozon_result;
  market_listing : list request -> request -> exc + market_result;
  acknowledge : list request -> request -> exc + string
}.

Record world : Type := {
  outside : remote;
  sent : list request;
  printed : list (list printable);
  now : nat -> Py.datetime;
  ticks : nat
}.

Definition with_sent (w : world) (s : list request) : world :=
  {| outside := outside w; sent := s; printed := printed w;
     now := now w; ticks := ticks w |}.

Definition with_printed (w : world) (p : list (list printable)) : world :=
  {| outside := outside w; sent := sent w; printed := p;
     now := now w; ticks := ticks w |}.

Definition with_ticks (w : world) (n : nat) : world :=
  {| outside := outside w; sent := sent w; printed := printed w;
     now := now w; ticks := n |}.

(** A computation returns, raises, or runs out of the fuel given to its
    [while True] loops ([None]). *)
Definition IO (A : Type) : Type := world -> option ((exc + A) * world).

Definition ret {A : Type} (a : A) : IO A := fun w => Some (inr a, w).

Definition raise {A : Type} (e : exc) : IO A := fun w => Some (inl e, w).

Definition bind {A B : Type} (m : IO A) (k : A -> IO B) : IO B :=
  fun w =>
    match m w with
    | Some (inr a, w') => k a w'
    | Some (inl e, w') => Some (inl e, w')
    | None => None
    end.

(** A builtin that may raise. *)
Definition lift {A : Type} (r : Py.result A) : IO A :=
  fun w =>
    match r with
    | inr a => Some (inr a, w)
    | inl e => Some (inl (Builtin e), w)
    end.

(** [try: body except Exception as e: handler(e)]. *)
Definition try_except {A : Type} (body : IO A) (handler : exc -> IO A)
  : IO A :=
  fun w =>
    match body w with
    | Some (inl e, w') => handler e w'
    | other => other
    end.

(** [print(..)]. *)
Definition print (line : list printable) : IO unit :=
  fun w => Some (inr tt, with_printed w (printed w ++ [line])).

(** [Env().str(name)]. *)
Definition env_str (name : string) : IO string :=
  fun w =>
    match environ (outside w) name with
    | Some v => Some (inr v, w)
    | None => Some (inl (EnvError name), w)
    end.

(** One exchange: the request is recorded, then answered. *)
Definition exchange {A : Type}
  (answer : remote -> list request -> request -> exc + A) (q : request)
  : IO A :=
  fun w =>
    Some (answer (outside w) (sent w) q, with_sent w (sent w ++ [q])).

(** [for x in xs: body(x)]. *)
Fixpoint for_ {A : Type} (xs : list A) (body : A -> IO unit) : IO unit :=
  match xs with
  | [] => ret tt
  | x :: xs' => bind (body x) (fun _ => for_ xs' body)
  end.

(** A reconciler run on the list object that holds [ids]: its value with
    what the list holds afterwards.  It reads the clock of the world. *)
Definition reconcile {A : Type} (m : M A) (ids : list string)
  : IO (A * list string) :=
  fun w =>
    match m {| offer_ids := ids; clock := now w; reads := ticks w |} with
    | (inr a, st) => Some (inr (a, offer_ids st), with_ticks w (reads st))
    | (inl e, st) => Some (inl (Builtin e), with_ticks w (reads st))
    end.

(** [list(filter(p, xs))] for a predicate that may raise. *)
Fixpoint filter_raising {A : Type} (p : A -> Py.result bool) (xs : list A)
  : Py.result (list A) :=
  match xs with
  | [] => inr []
  | x :: xs' =>
      match p x with
      | inl e => inl e
      | inr keep =>
          match filter_raising p xs' with
          | inl e => inl e
          | inr kept => inr (if keep then x :: kept else kept)
          end
      end
  end.

End Net.

Notation "x <~ m ;; k" := (Net.bind m (fun x => k))
  (at level 61, m at next level, right associativity).

(** [download_stock()]: the download, the archive and the spreadsheet are
    the outside's; the temporary file it writes and removes is not
    modelled. *)
Definition download_stock : Net.IO (list row) :=
  fun w =>
    Some (Net.ostatki (Net.outside w) (Net.sent w),
          Net.with_sent w (Net.sent w ++ [Net.GetOstatki])).

(** The handlers of [main]. *)
Definition report (e : Net.exc) : Net.IO unit :=
  match e with
  | Net.ReadTimeout =>
      Net.print [Net.Text "Превышено время ожидания..."]
  | Net.ConnectionError =>
      Net.print [Net.Error e; Net.Text "Ошибка соединения"]
  | _ => Net.print [Net.Error e; Net.Text "ERROR_2"]
  end.

(** ** seller.py, the client and the orchestration *)

Module SellerSync.

Definition get_product_list (last_id client_id seller_token : string)
  : Net.IO Net.ozon_result :=
  Net.exchange Net.ozon_listing
    (Net.OzonProductList client_id seller_token last_id).

(** The [while True] loop of [get_offer_ids], for at most [fuel] rounds. *)
Fixpoint get_offer_ids_loop (fuel : nat) (client_id seller_token : string)
  (last_id : string) (product_list : list Net.ozon_product)
  : Net.IO (list Net.ozon_product) :=
  match fuel with
  | O => fun _ => None
  | S fuel' =>
      some_prod <~ get_product_list last_id client_id seller_token ;;
      let product_list := product_list ++ Net.result_items some_prod in
      let total := Net.result_total some_prod in
      let last_id := Net.result_last_id some_prod in
      if total =? Py.len product_list then Net.ret product_list
      else get_offer_ids_loop fuel' client_id seller_token last_id
             product_list
  end.

Definition get_offer_ids (fuel : nat) (client_id seller_token : string)
  : Net.IO (list string) :=
  product_list <~ get_offer_ids_loop fuel client_id seller_token "" [] ;;
  Net.ret (map Net.product_offer_id product_list).

Definition update_price (prices : list Seller.PriceItem)
  (client_id seller_token : string) : Net.IO string :=
  Net.exchange Net.acknowledge
    (Net.OzonImportPrices client_id seller_token prices).

Definition update_stocks (stocks : list Seller.StockItem)
  (client_id seller_token : string) : Net.IO string :=
  Net.exchange Net.acknowledge
    (Net.OzonImportStocks client_id seller_token stocks).

(** The body of the coroutine [upload_prices]. *)
Definition upload_prices (fuel : nat) (watch_remnants : list row)
  (client_id seller_token : string) : Net.IO (list Seller.PriceItem) :=
  offer_ids <~ get_offer_ids fuel client_id seller_token ;;
  reconciled <~ Net.reconcile (Seller.create_prices watch_remnants)
                              offer_ids ;;
  let prices := fst reconciled in
  chunks <~ Net.lift (Seller.divide prices 1000) ;;
  _ <~ Net.for_ chunks
         (fun some_price =>
            _ <~ update_price some_price client_id seller_token ;;
            Net.ret tt) ;;
  Net.ret prices.

(** The body of the coroutine [upload_stocks]. *)
Definition upload_stocks (fuel : nat) (watch_remnants : list row)
  (client_id seller_token : string)
  : Net.IO (list Seller.StockItem * list Seller.StockItem) :=
  offer_ids <~ get_offer_ids fuel client_id seller_token ;;
  reconciled <~ Net.reconcile (Seller.create_stocks watch_remnants)
                              offer_ids ;;
  let stocks := fst reconciled in
  chunks <~ Net.lift (Seller.divide stocks 100) ;;
  _ <~ Net.for_ chunks
         (fun some_stock =>
            _ <~ update_stocks some_stock client_id seller_token ;;
            Net.ret tt) ;;
  let not_empty :=
    filter (fun stock => negb (Seller.stock stock =? 0)) stocks in
  Net.ret (not_empty, stocks).

(** [main()]; the list [offer_ids] that [create_stocks] has consumed is
    the one [create_prices] is given. *)
Definition main (fuel : nat) : Net.IO unit :=
  seller_token <~ Net.env_str "SELLER_TOKEN" ;;
  client_id <~ Net.env_str "CLIENT_ID" ;;
  Net.try_except
    (offer_ids <~ get_offer_ids fuel client_id seller_token ;;
     watch_remnants <~ download_stock ;;
     reconciled <~ Net.reconcile (Seller.create_stocks watch_remnants)
                                 offer_ids ;;
     let stocks := fst reconciled in
     let offer_ids := snd reconciled in
     chunks <~ Net.lift (Seller.divide stocks 100) ;;
     _ <~ Net.for_ chunks
            (fun some_stock =>
               _ <~ update_stocks some_stock client_id seller_token ;;
               Net.ret tt) ;;
     reconciled <~ Net.reconcile (Seller.create_prices watch_remnants)
                                 offer_ids ;;
     let prices := fst reconciled in
     chunks <~ Net.lift (Seller.divide prices 900) ;;
     Net.for_ chunks
       (fun some_price =>
          _ <~ update_price some_price client_id seller_token ;;
          Net.ret tt))
    report.

End SellerSync.

(** ** market.py, the client and the coroutine of the stocks

    What [upload_stocks] of market.py runs, as the text has it. *)

Module MarketSync.

Definition get_product_list (page campaign_id access_token : string)
  : Net.IO Net.market_result :=
  Net.exchange Net.market_listing
    (Net.MarketOfferMappingEntries campaign_id access_token page).

Definition update_stocks (stocks : list Market.Sku)
  (campaign_id access_token : string) : Net.IO string :=
  Net.exchange Net.acknowledge
    (Net.MarketPutStocks campaign_id access_token stocks).

(** The [while True] loop of [get_offer_ids], for at most [fuel] rounds;
    [not page] holds of an absent and of an empty token. *)
Fixpoint get_offer_ids_loop (fuel : nat) (campaign_id market_token : string)
  (page : string) (product_list : list Net.market_entry)
  : Net.IO (list Net.market_entry) :=
  match fuel with
  | O => fun _ => None
  | S fuel' =>
      some_prod <~ get_product_list page campaign_id market_token ;;
      let product_list :=
        product_list ++ Net.result_offerMappingEntries some_prod in
      match Net.result_nextPageToken some_prod with
      | None => Net.ret product_list
      | Some page =>
          if is_empty page then Net.ret product_list
          else get_offer_ids_loop fuel' campaign_id market_token page
                 product_list
      end
  end.

Definition get_offer_ids (fuel : nat) (campaign_id market_token : string)
  : Net.IO (list string) :=
  product_list <~ get_offer_ids_loop fuel campaign_id market_token "" [] ;;
  Net.ret (map Net.entry_shopSku product_list).

(** [stock.get("items")[0].get("count") != 0]. *)
Definition count_not_zero (stock : Market.Sku) : Py.result bool :=
  match Py.index (Market.items stock) 0 with
  | inr item => inr (negb (Market.count item =? 0))
  | inl e => inl e
  end.

(** The body of the coroutine [upload_stocks]. *)
Definition upload_stocks (fuel : nat) (watch_remnants : list row)
  (campaign_id market_token warehouse_id : string)
  : Net.IO (list Market.Sku * list Market.Sku) :=
  offer_ids <~ get_offer_ids fuel campaign_id market_token ;;
  reconciled <~ Net.reconcile
                  (Market.create_stocks watch_remnants warehouse_id)
                  offer_ids ;;
  let stocks := fst reconciled in
  chunks <~ Net.lift (Seller.divide stocks 2000) ;;
  _ <~ Net.for_ chunks
         (fun some_stock =>
            _ <~ update_stocks some_stock campaign_id market_token ;;
            Net.ret tt) ;;
  not_empty <~ Net.lift (Net.filter_raising count_not_zero stocks) ;;
  Net.ret (not_empty, stocks).

End MarketSync.

(** ** The vocabulary of the orchestration *)

(** A computation that prints nothing and sends only requests that are
    [allowed], after those sent before it. *)
Definition sends_only {A : Type} (m : Net.IO A) (allowed : Net.request -> Prop)
  : Prop :=
  forall w r w',
    m w = Some (r, w') ->
    Net.outside w' = Net.outside w /\
    Net.printed w' = Net.printed w /\
    exists new, Net.sent w' = Net.sent w ++ new /\ Forall allowed new.

(** The line [report] prints for [e]. *)
Definition report_line (e : Net.exc) : list Net.printable :=
  match e with
  | Net.ReadTimeout => [Net.Text "Превышено время ожидания..."]
  | Net.ConnectionError => [Net.Error e; Net.Text "Ошибка соединения"]
  | _ => [Net.Error e; Net.Text "ERROR_2"]
  end.

(** The first [k] of the batches [chunks] are accepted when submitted one
    after the other from the world [w]. *)
Definition accepted {A : Type} (mk : A -> Net.request) (chunks : list A)
  (w : Net.world) (k : nat) : Prop :=
  forall i c,
    (i < k)%nat -> nth_error chunks i = Some c ->
    exists ack,
      Net.acknowledge (Net.outside w)
        (Net.sent w ++ map mk (firstn i chunks)) (mk c) = inr ack.

(** The batches [chunks] have been submitted from the world [w]: the
    first [k] of them were sent, in order, as the requests [mk] makes of
    them, and nothing else happened.  Either every batch was sent and
    accepted; or the batches before the last one sent were accepted and
    that one was answered with the exception [failure]. *)
Definition submitted {A : Type} (mk : A -> Net.request) (chunks : list A)
  (w : Net.world) (k : nat) (failure : option Net.exc) (w' : Net.world)
  : Prop :=
  (k <= List.length chunks)%nat /\
  w' = Net.with_sent w (Net.sent w ++ map mk (firstn k chunks)) /\
  match failure with
  | None => k = List.length chunks /\ accepted mk chunks w k
  | Some e =>
      (0 < k)%nat /\
      accepted mk chunks w (pred k) /\
      exists c,
        nth_error chunks (pred k) = Some c /\
        Net.acknowledge (Net.outside w)
          (Net.sent w ++ map mk (firstn (pred k) chunks)) (mk c) = inl e
  end.

(** What a submission returns or raises. *)
Definition outcome {A : Type} (failure : option Net.exc) (a : A)
  : Net.exc + A :=
  match failure with
  | None => inr a
  | Some e => inl e
  end.

Definition is_price_request (q : Net.request) : bool :=
  match q with
  | Net.OzonImportPrices _ _ _ | Net.MarketOfferPrices _ _ _ => true
  | _ => false
  end.

(** The outside serves the Ozon listing [pages], one after the other,
    when asked from the history [sent] with the token [last_id] and then
    with the token of each page. *)
Fixpoint ozon_serves (rm : Net.remote) (client_id seller_token : string)
  (sent : list Net.request) (last_id : string)
  (pages : list Net.ozon_result) : Prop :=
  match pages with
  | [] => True
  | p :: ps =>
      let q := Net.OzonProductList client_id seller_token last_id in
      Net.ozon_listing rm sent q = inr p /\
      ozon_serves rm client_id seller_token (sent ++ [q])
        (Net.result_last_id p) ps
  end.

(** The tokens of the requests that fetch [pages], from [last_id] on. *)
Fixpoint ozon_tokens (last_id : string) (pages : list Net.ozon_result)
  : list string :=
  match pages with
  | [] => []
  | p :: ps => last_id :: ozon_tokens (Net.result_last_id p) ps
  end.

Definition ozon_products (pages : list Net.ozon_result)
  : list Net.ozon_product :=
  List.concat (map Net.result_items pages).

(** The last of [pages] is the first whose total is the number of
    products gathered so far, [acc] being those gathered before. *)
Fixpoint ozon_complete (acc : list Net.ozon_product)
  (pages : list Net.ozon_result) : Prop :=
  match pages with
  | [] => False
  | p :: ps =>
      let acc' := acc ++ Net.result_items p in
      match ps with
      | [] => Net.result_total p = Py.len acc'
      | _ :: _ => Net.result_total p <> Py.len acc' /\ ozon_complete acc' ps
      end
  end.

(** None of [pages] reports a total equal to the number of products
    gathered so far, [acc] being those gathered before. *)
Fixpoint ozon_incomplete (acc : list Net.ozon_product)
  (pages : list Net.ozon_result) : Prop :=
  match pages with
  | [] => True
  | p :: ps =>
      let acc' := acc ++ Net.result_items p in
      Net.result_total p <> Py.len acc' /\ ozon_incomplete acc' ps
  end.

(** The token of the request that follows [pages]. *)
Fixpoint ozon_next (last_id : string) (pages : list Net.ozon_result)
  : string :=
  match pages with
  | [] => last_id
  | p :: ps => ozon_next (Net.result_last_id p) ps
  end.

(** A computation that comes to an end in every world: it returns or it
    raises. *)
Definition ends {A : Type} (m : Net.IO A) : Prop :=
  forall w, exists r w', m w = Some (r, w').

(** *** Concrete outsides *)

(** A shop of three products, listed in two pages by both marketplaces;
    every submission is accepted; the feed has two rows. *)
Definition shop : Net.remote :=
  {| Net.environ := fun name => Some name;
     Net.ostatki := fun _ =>
       inr [feed_row "a" "5" "5'990.00 руб."; feed_row "z" "1" "1.00 руб."];
     Net.ozon_listing := fun _ q =>
       match q with
       | Net.OzonProductList _ _ last_id =>
           if is_empty last_id
           then inr {| Net.result_items :=
                         [{| Net.product_offer_id := "a" |};
                          {| Net.product_offer_id := "b" |}];
                       Net.result_total := 3;
                       Net.result_last_id := "b" |}
           else inr {| Net.result_items :=
                         [{| Net.product_offer_id := "c" |}];
                       Net.result_total := 3;
                       Net.result_last_id := "" |}
       | _ => inl Net.OtherError
       end;
     Net.market_listing := fun _ q =>
       match q with
       | Net.MarketOfferMappingEntries _ _ page =>
           if is_empty page
           then inr {| Net.result_offerMappingEntries :=
                         [{| Net.entry_shopSku := "a" |};
                          {| Net.entry_shopSku := "b" |}];
                       Net.result_nextPageToken := Some "next" |}
           else inr {| Net.result_offerMappingEntries :=
                         [{| Net.entry_shopSku := "c" |}];
                       Net.result_nextPageToken := None |}
       | _ => inl Net.OtherError
       end;
     Net.acknowledge := fun _ _ => inr "{}" |}.

(** The same shop, whose listings never come to an end: Ozon reports a
    total of one product, Yandex.Market always gives a next token. *)
Definition endless_shop : Net.remote :=
  {| Net.environ := Net.environ shop;
     Net.ostatki := Net.ostatki shop;
     Net.ozon_listing := fun _ _ =>
       inr {| Net.result_items :=
                [{| Net.product_offer_id := "a" |};
                 {| Net.product_offer_id := "b" |}];
              Net.result_total := 1;
              Net.result_last_id := "b" |};
     Net.market_listing := fun _ _ =>
       inr {| Net.result_offerMappingEntries :=
                [{| Net.entry_shopSku := "a" |}];
              Net.result_nextPageToken := Some "next" |};
     Net.acknowledge := Net.acknowledge shop |}.

(** The same shop, when the second page of a listing times out. *)
Definition shop_losing_a_page : Net.remote :=
  {| Net.environ := Net.environ shop;
     Net.ostatki := Net.ostatki shop;
     Net.ozon_listing := fun sent q =>
       match sent with
       | [] => Net.ozon_listing shop sent q
       | _ :: _ => inl Net.ReadTimeout
       end;
     Net.market_listing := fun sent q =>
       match sent with
       | [] => Net.market_listing shop sent q
       | _ :: _ => inl Net.ReadTimeout
       end;
     Net.acknowledge := Net.acknowledge shop |}.

(** The same shop, when the feed cannot be downloaded. *)
Definition shop_without_feed : Net.remote :=
  {| Net.environ := Net.environ shop;
     Net.ostatki := fun _ => inl Net.ConnectionError;
     Net.ozon_listing := Net.ozon_listing shop;
     Net.market_listing := Net.market_listing shop;
     Net.acknowledge := Net.acknowledge shop |}.

(** The same shop, when every submission is refused. *)
Definition refusing_shop : Net.remote :=
  {| Net.environ := Net.environ shop;
     Net.ostatki := Net.ostatki shop;
     Net.ozon_listing := Net.ozon_listing shop;
     Net.market_listing := Net.market_listing shop;
     Net.acknowledge := fun _ _ => inl (Net.HTTPError 400) |}.

(** The same shop, when no environment variable is set, and when only
    [SELLER_TOKEN] is. *)
Definition shop_without_variables : Net.remote :=
  {| Net.environ := fun _ => None;
     Net.ostatki := Net.ostatki shop;
     Net.ozon_listing := Net.ozon_listing shop;
     Net.market_listing := Net.market_listing shop;
     Net.acknowledge := Net.acknowledge shop |}.

Definition shop_without_client_id : Net.remote :=
  {| Net.environ := fun name =>
       if String.eqb name "SELLER_TOKEN" then Some name else None;
     Net.ostatki := Net.ostatki shop;
     Net.ozon_listing := Net.ozon_listing shop;
     Net.market_listing := Net.market_listing shop;
     Net.acknowledge := Net.acknowledge shop |}.

(** A world with nothing sent and nothing printed. *)
Definition fresh_world (rm : Net.remote) : Net.world :=
  {| Net.outside := rm; Net.sent := []; Net.printed := [];
     Net.now := fun _ => epoch; Net.ticks := 0 |}.

(** ** Facts about the builtins *)

Lemma with_offer_ids_same (st : state) : with_offer_ids st (offer_ids st) = st.
Proof. destruct st; reflexivity. Qed.

(** The first piece of a split is the string up to the first separator. *)
Lemma split_first_piece (s : string) :
  exists pieces, Py.split "."%char s = before_first_point s :: pieces.
Proof.
  induction s as [|c s [pieces IH]]; simpl.
  - now exists [].
  - destruct (Ascii.eqb c "."%char).
    + now exists (Py.split "."%char s).
    + rewrite IH. now exists pieces.
Qed.

(** Replacing every non-digit by the empty string keeps the digits. *)
Lemma re_sub_keeps_digits (s : string) :
  Py.re_sub_class Py.not_0_9 "" s = only_digits s.
Proof.
  induction s as [|c s IH]; [reflexivity|].
  cbn [Py.re_sub_class only_digits]. unfold Py.not_0_9 at 1.
  destruct (Py.is_ascii_digit c); cbn [negb append]; now rewrite IH.
Qed.

Lemma price_conversion_normalizes (price : string) :
  Seller.price_conversion price = inr (normalized_price price).
Proof.
  unfold Seller.price_conversion, normalized_price, Py.index.
  destruct (split_first_piece price) as [pieces ->]. simpl.
  now rewrite re_sub_keeps_digits.
Qed.

Lemma only_digits_all_digits (s : string) : all_digits (only_digits s) = true.
Proof.
  induction s as [|c s IH]; simpl; [reflexivity|].
  destruct (Py.is_ascii_digit c) eqn:E; simpl; [rewrite E|]; exact IH.
Qed.

Lemma digit_not_special (c : ascii) :
  Py.is_ascii_digit c = true ->
  Py.is_space c = false /\ Py.is_underscore c = false /\
  c <> "+"%char /\ c <> "-"%char.
Proof.
  destruct c as [[] [] [] [] [] [] [] []]; cbv; intros H;
    try discriminate H; repeat split; discriminate.
Qed.

Lemma digit_value_nonneg (c : ascii) (d : Z) :
  Py.digit_value c = Some d -> 0 <= d <= 9.
Proof.
  unfold Py.digit_value, Py.is_ascii_digit.
  destruct (_ && _)%bool eqn:E; [|discriminate].
  intros [= <-]. apply andb_true_iff in E as [E1 E2].
  apply Nat.leb_le in E1, E2. lia.
Qed.

Lemma scan_all_digits (s : string) :
  forall acc digits, all_digits s = true ->
  Py.scan_digits acc digits false s
  = Some (decimal_from acc s, digits + Z.of_nat (String.length s),
          EmptyString).
Proof.
  induction s as [|c s IH]; intros acc digits H; simpl in *.
  - now rewrite Z.add_0_r.
  - apply andb_true_iff in H as [Hc Hs].
    destruct (digit_not_special c Hc) as (_ & -> & _).
    unfold Py.digit_value. rewrite Hc. rewrite (IH _ _ Hs).
    do 3 f_equal. lia.
Qed.

Lemma digit_is_ascii (c : ascii) :
  Py.is_ascii_digit c = true -> (N_of_ascii c <? 128)%N = true.
Proof.
  destruct c as [[] [] [] [] [] [] [] []]; cbv; intros H;
    try discriminate H; reflexivity.
Qed.

Lemma digits_are_ascii (s : string) :
  all_digits s = true -> Py.is_ascii s = true.
Proof.
  induction s as [|c s IH]; simpl; [reflexivity|].
  intros [Hc Hs]%andb_true_iff. now rewrite (digit_is_ascii c Hc), IH.
Qed.

(** [int] of a string of ASCII digits: its value, unless it is empty or
    longer than the limit. *)
Lemma int_of_digits (s : string) :
  all_digits s = true -> is_empty s = false ->
  Py.int s =
  if Py.max_str_digits <? Z.of_nat (String.length s) then inl Py.ValueError
  else inr (decimal_value s).
Proof.
  destruct s as [|c s]; [discriminate|]. intros H _.
  pose proof H as H'. simpl in H'. apply andb_true_iff in H' as [Hc _].
  destruct (digit_not_special c Hc) as (Hsp & _ & Hplus & Hminus).
  unfold Py.int, Py.transform_decimal_and_space.
  rewrite (digits_are_ascii _ H).
  unfold Py.int_of_str. cbn [Py.skip_spaces]. rewrite Hsp.
  destruct (Ascii.eqb_spec c "+"%char); [contradiction|].
  destruct (Ascii.eqb_spec c "-"%char); [contradiction|].
  unfold Py.int_unsigned. unfold Py.digit_value at 1. rewrite Hc.
  rewrite (scan_all_digits _ 0 0 H). rewrite Z.add_0_l.
  now destruct (Py.max_str_digits <? _).
Qed.


Lemma int_raises_value_error (s : string) (e : Py.exn) :
  Py.int s = inl e -> e = Py.ValueError.
Proof.
  unfold Py.int. destruct (Py.transform_decimal_and_space s) as [t|];
    [destruct (Py.int_of_str t)|]; congruence.
Qed.

Lemma scan_nonneg (s : string) :
  forall acc digits prev v n rest, 0 <= acc ->
  Py.scan_digits acc digits prev s = Some (v, n, rest) -> 0 <= v.
Proof.
  induction s as [|c s IH]; intros acc digits prev v n rest Hacc; simpl.
  - destruct prev; [discriminate|]. now intros [= <- _ _].
  - destruct (Py.is_underscore c).
    + destruct prev; [discriminate|]. intros H.
      now apply (IH _ _ _ _ _ _ Hacc H).
    + destruct (Py.digit_value c) as [d|] eqn:Ed.
      * apply digit_value_nonneg in Ed. intros H.
        apply (IH (10 * acc + d) (digits + 1) false v n rest); [lia|exact H].
      * destruct prev; [discriminate|]. now intros [= <- _ _].
Qed.

Lemma int_unsigned_nonneg (s : string) (v : Z) :
  Py.int_unsigned s = Some v -> 0 <= v.
Proof.
  unfold Py.int_unsigned. destruct s as [|c s]; [discriminate|].
  destruct (Py.digit_value c); [|discriminate].
  destruct (Py.scan_digits 0 0 false (String c s)) as [[[w n] rest]|] eqn:E;
    [|discriminate].
  destruct (Py.max_str_digits <? n); [discriminate|].
  destruct (Py.skip_spaces rest); [|discriminate].
  intros [= <-]. eapply scan_nonneg; [|exact E]. lia.
Qed.

Lemma occurs_skip_spaces (c : ascii) (s : string) :
  occurs c (Py.skip_spaces s) = true -> occurs c s = true.
Proof.
  induction s as [|d s IH]; simpl; [easy|].
  destruct (Py.is_space d); simpl; [|easy].
  intros H. rewrite (IH H). apply orb_true_r.
Qed.

(** What [PyLong_FromString] reads as negative has a minus sign. *)
Lemma int_of_str_without_minus (t : string) (z : Z) :
  occurs "-"%char t = false -> Py.int_of_str t = Some z -> 0 <= z.
Proof.
  intros Hminus. unfold Py.int_of_str.
  destruct (Py.skip_spaces t) as [|c u] eqn:E; [discriminate|].
  destruct (Ascii.eqb_spec c "+"%char) as [->|_].
  - apply int_unsigned_nonneg.
  - destruct (Ascii.eqb_spec c "-"%char) as [->|_].
    + assert (O : occurs "-"%char (Py.skip_spaces t) = true)
        by now rewrite E.
      apply occurs_skip_spaces in O. congruence.
    + apply int_unsigned_nonneg.
Qed.

Lemma todecimal_bound (ch d : N) :
  Py.unicode_todecimal ch = Some d -> (d <= 9)%N.
Proof.
  unfold Py.unicode_todecimal.
  destruct (find _ Py.unicode_zeros) as [zero|] eqn:F; [|discriminate].
  apply find_some in F as [_ F]. apply andb_true_iff in F as [F1 F2].
  apply N.leb_le in F1, F2. intros [= <-]. lia.
Qed.

Lemma ascii_of_N_minus (n : N) :
  (n < 256)%N -> ascii_of_N n = "-"%char -> n = 45%N.
Proof.
  intros Hn E. apply (f_equal N_of_ascii) in E.
  now rewrite N_ascii_embedding in E.
Qed.

(** The rewriting makes no minus sign of its own. *)
Lemma rewritten_minus (chars : list N) :
  occurs "-"%char (Py.decimal_and_space_to_ascii chars) = true ->
  In 45%N chars.
Proof.
  induction chars as [|ch chars IH]; cbn [Py.decimal_and_space_to_ascii];
    [discriminate|].
  destruct (N.ltb_spec ch 127) as [Hlow|Hhigh].
  - cbn [occurs]. destruct (Ascii.eqb_spec (ascii_of_N ch) "-"%char) as [E|_].
    + intros _. left. apply ascii_of_N_minus in E; [now symmetry|lia].
    + intros H. right. now apply IH.
  - destruct (Py.unicode_isspace ch).
    + cbn [occurs]. intros H. right. now apply IH.
    + destruct (Py.unicode_todecimal ch) as [d|] eqn:Ed; [|discriminate].
      apply todecimal_bound in Ed. cbn [occurs].
      destruct (Ascii.eqb_spec (ascii_of_N (48 + d)) "-"%char) as [E|_].
      * apply ascii_of_N_minus in E; lia.
      * intros H. right. now apply IH.
Qed.

(** An ASCII character of a str is a byte of its encoding. *)
Lemma code_points_ascii (c : N) :
  (c < 128)%N ->
  forall n s chars,
    (String.length s <= n)%nat ->
    Py.code_points s = Some chars -> In c chars ->
    occurs (ascii_of_N c) s = true.
Proof.
  intros Hc. induction n as [|n IH]; intros s chars Hlen.
  - destruct s; [|simpl in Hlen; lia]. now intros [= <-].
  - destruct s as [|b s1]; [now intros [= <-]|].
    simpl in Hlen. cbn [Py.code_points occurs].
    destruct (N.ltb_spec (N_of_ascii b) 128) as [Hb|Hb].
    { destruct (Py.code_points s1) as [rest|] eqn:E1; [|discriminate].
      intros [= <-] [<-|Hin].
      - now rewrite ascii_N_embedding, Ascii.eqb_refl.
      - rewrite (IH s1 rest); [apply orb_true_r|lia|exact E1|exact Hin]. }
    destruct (N_of_ascii b <? 224)%N.
    { destruct s1 as [|c1 s2]; [discriminate|].
      destruct (Py.continuation c1) as [x1|]; [|discriminate].
      destruct (_ && _)%bool eqn:Hv; [|discriminate].
      apply andb_true_iff in Hv as [_ Hv]. apply N.leb_le in Hv.
      destruct (Py.code_points s2) as [rest|] eqn:E2; [|discriminate].
      intros [= <-] [Heq|Hin]; [lia|].
      cbn [occurs]. simpl in Hlen.
      rewrite (IH s2 rest); [now rewrite !orb_true_r|lia|exact E2|exact Hin]. }
    destruct (N_of_ascii b <? 240)%N.
    { destruct s1 as [|c1 [|c2 s3]]; try discriminate.
      destruct (Py.continuation c1) as [x1|]; [|discriminate].
      destruct (Py.continuation c2) as [x2|]; [|discriminate].
      destruct (_ && _)%bool eqn:Hv; [|discriminate].
      apply andb_true_iff in Hv as [Hv _]. apply N.leb_le in Hv.
      destruct (Py.code_points s3) as [rest|] eqn:E3; [|discriminate].
      intros [= <-] [Heq|Hin]; [lia|].
      cbn [occurs]. simpl in Hlen.
      rewrite (IH s3 rest); [now rewrite !orb_true_r|lia|exact E3|exact Hin]. }
    destruct s1 as [|c1 [|c2 [|c3 s4]]]; try discriminate.
    destruct (Py.continuation c1) as [x1|]; [|discriminate].
    destruct (Py.continuation c2) as [x2|]; [|discriminate].
    destruct (Py.continuation c3) as [x3|]; [|discriminate].
    destruct (_ && _)%bool eqn:Hv; [|discriminate].
    apply andb_true_iff in Hv as [Hv _].
    apply andb_true_iff in Hv as [_ Hv]. apply N.leb_le in Hv.
    destruct (Py.code_points s4) as [rest|] eqn:E4; [|discriminate].
    intros [= <-] [Heq|Hin]; [lia|].
    cbn [occurs]. simpl in Hlen.
    rewrite (IH s4 rest); [now rewrite !orb_true_r|lia|exact E4|exact Hin].
Qed.

(** A minus sign in what [PyLong_FromString] reads is one of the str. *)
Lemma transform_minus (s t : string) :
  Py.transform_decimal_and_space s = Some t ->
  occurs "-"%char t = true -> occurs "-"%char s = true.
Proof.
  unfold Py.transform_decimal_and_space.
  destruct (Py.is_ascii s); [now intros [= <-]|].
  destruct (Py.code_points s) as [chars|] eqn:E; [|discriminate].
  intros [= <-] H. apply rewritten_minus in H.
  exact (code_points_ascii 45 ltac:(lia) _ s chars (le_n _) E H).
Qed.

Lemma int_without_minus_nonneg (s : string) (z : Z) :
  occurs "-"%char s = false -> Py.int s = inr z -> 0 <= z.
Proof.
  intros Hminus. unfold Py.int.
  destruct (Py.transform_decimal_and_space s) as [t|] eqn:Et; [|discriminate].
  destruct (Py.int_of_str t) as [v|] eqn:Ev; [|discriminate].
  intros [= <-]. apply (int_of_str_without_minus t); [|exact Ev].
  destruct (occurs "-"%char t) eqn:O; [|reflexivity].
  apply (transform_minus s t Et) in O. congruence.
Qed.

(** The model on literals of each kind: signs, underscores, white space,
    digits and blanks outside ASCII, and what [int] refuses. *)
Lemma int_examples :
  Py.int "42" = inr 42 /\ Py.int " -5 " = inr (-5) /\
  Py.int "+1_000" = inr 1000 /\ Py.int "٣" = inr 3 /\
  Py.int "１２" = inr 12 /\ Py.int "5　" = inr 5 /\
  Py.int "" = inl Py.ValueError /\ Py.int "1.0" = inl Py.ValueError /\
  Py.int "5_" = inl Py.ValueError /\ Py.int "- 5" = inl Py.ValueError /\
  Py.int "нет" = inl Py.ValueError /\ Py.int "٣½" = inl Py.ValueError.
Proof. repeat split; reflexivity. Qed.

(** The limit on the number of digits. *)
Lemma int_digit_limit :
  Py.int (Py.zeros 4300) = inr 0 /\
  Py.int (Py.zeros 4301) = inl Py.ValueError.
Proof. split; vm_compute; reflexivity. Qed.

(** ** Facts about [divide] *)

Lemma firstn_plus {A : Type} (a b : nat) (l : list A) :
  firstn (a + b) l = firstn a l ++ firstn b (skipn a l).
Proof.
  revert l. induction a as [|a IH]; intros [|x l]; simpl;
    rewrite ?firstn_nil; try reflexivity.
  now rewrite IH.
Qed.

Lemma firstn_min_length {A : Type} (a : nat) (l : list A) :
  firstn (Nat.min a (List.length l)) l = firstn a l.
Proof.
  destruct (Nat.le_gt_cases a (List.length l)) as [H|H].
  - now rewrite Nat.min_l.
  - rewrite Nat.min_r by lia. rewrite firstn_all.
    symmetry. apply firstn_all2. lia.
Qed.

(** The chunks of a list [s] for a chunk size [size]. *)
Section Chunks.

Context {A : Type}.
Variable s : list A.
Variable size : nat.

Lemma concat_chunks (m : nat) :
  List.concat (map (chunk_at size s) (seq 0 m)) = firstn (m * size) s.
Proof.
  induction m as [|m IH]; [reflexivity|].
  rewrite seq_S, map_app, concat_app, IH. simpl.
  rewrite app_nil_r. unfold chunk_at.
  replace (size + m * size)%nat with (m * size + size)%nat by lia.
  now rewrite firstn_plus.
Qed.

Lemma chunk_length (k : nat) :
  ((k + 1) * size <= List.length s)%nat ->
  List.length (chunk_at size s k) = size.
Proof.
  intros H. unfold chunk_at. rewrite length_firstn, length_skipn. lia.
Qed.

End Chunks.

Lemma slice_forward {A : Type} (l : list A) (i n : Z) :
  0 <= i -> 0 < n ->
  Py.slice l i (i + n) = firstn (Z.to_nat n) (skipn (Z.to_nat i) l).
Proof.
  intros Hi Hn. unfold Py.slice, Py.clip, Py.len.
  destruct (Z.ltb_spec i 0) as [?|_]; [lia|].
  destruct (Z.ltb_spec (i + n) 0) as [?|_]; [lia|].
  destruct (Nat.le_gt_cases (List.length l) (Z.to_nat i)) as [Hout|Hin].
  - rewrite (skipn_all2 (n := Z.to_nat i)) by exact Hout.
    rewrite skipn_all2 by lia. now rewrite !firstn_nil.
  - replace (Z.to_nat (Z.min i (Z.of_nat (List.length l)))) with (Z.to_nat i)
      by lia.
    rewrite <- (firstn_min_length (Z.to_nat n)).
    f_equal. rewrite length_skipn. lia.
Qed.

Lemma slice_is_chunk {A : Type} (l : list A) (k : nat) (n : Z) :
  0 < n ->
  Py.slice l (0 + Z.of_nat k * n) (0 + Z.of_nat k * n + n) =
  chunk_at (Z.to_nat n) l k.
Proof.
  intros Hn. rewrite slice_forward by lia. unfold chunk_at.
  rewrite Z.add_0_l, Z2Nat.inj_mul, Nat2Z.id by lia. reflexivity.
Qed.

Lemma range_from_zero (len n : Z) :
  0 < n -> 0 <= len ->
  let m := Z.to_nat (Py.range_length 0 len n) in
  (Z.to_nat len <= m * Z.to_nat n)%nat /\
  (forall k, (S k < m)%nat -> ((k + 1) * Z.to_nat n <= Z.to_nat len)%nat) /\
  (len = 0 -> m = O).
Proof.
  intros Hn Hlen. unfold Py.range_length.
  destruct (Z.ltb_spec 0 n) as [_|?]; [|lia].
  destruct (Z.ltb_spec 0 len) as [Hpos|Hzero]; cbn zeta.
  - rewrite Z.sub_0_r.
    pose proof (Z.div_mod (len - 1) n ltac:(lia)) as Hdm.
    pose proof (Z.mod_pos_bound (len - 1) n Hn) as Hmod.
    assert (Hq : 0 <= (len - 1) / n) by (apply Z.div_pos; lia).
    set (q := (len - 1) / n) in *.
    repeat split.
    + apply Nat2Z.inj_le. rewrite Nat2Z.inj_mul, !Z2Nat.id by lia. nia.
    + intros k Hk. apply Nat2Z.inj_le.
      rewrite Nat2Z.inj_mul, !Z2Nat.id by lia.
      assert (Z.of_nat (k + 1) <= q) by lia. nia.
    + lia.
  - repeat split; simpl; lia.
Qed.

Lemma divide_as_chunks {A : Type} (s : list A) (n : Z) :
  0 < n ->
  Seller.divide s n =
  inr (map (chunk_at (Z.to_nat n) s)
           (seq 0 (Z.to_nat (Py.range_length 0 (Py.len s) n)))).
Proof.
  intros Hn. unfold Seller.divide, Py.range.
  destruct (Z.eqb_spec n 0) as [?|_]; [lia|].
  rewrite map_map. f_equal. apply map_ext. intros k.
  now apply slice_is_chunk.
Qed.

(** ** The claims about the Chunker and the Price Normalizer *)

(** C4. For a chunk size [n > 0], [divide s n] returns chunks whose
    concatenation is [s]; every chunk but possibly the last holds exactly
    [n] items; the empty list gives no chunk at all. *)
Theorem divide_concat_and_sizes {A : Type} (s : list A) (n : Z) :
  0 < n ->
  exists chunks,
    Seller.divide s n = inr chunks /\
    List.concat chunks = s /\
    full_but_last n chunks /\
    (s = [] -> chunks = []).
Proof.
  intros Hn. rewrite (divide_as_chunks s n Hn).
  destruct (range_from_zero (Py.len s) n Hn) as (Hcover & Hfull & Hempty);
    [unfold Py.len; lia|].
  unfold Py.len in Hcover, Hfull. rewrite Nat2Z.id in Hcover, Hfull.
  set (m := Z.to_nat (Py.range_length 0 (Py.len s) n)) in *.
  eexists. split; [reflexivity|]. split; [|split].
  - rewrite concat_chunks. now apply firstn_all2.
  - intros k c Hk Hlast. rewrite length_map, length_seq in Hlast.
    rewrite nth_error_map in Hk.
    destruct (nth_error (seq 0 m) k) as [j|] eqn:Ej; [|discriminate].
    injection Hk as <-.
    assert (j = k) as ->.
    { apply nth_error_nth with (d := O) in Ej.
      rewrite seq_nth in Ej by lia. lia. }
    unfold Py.len. rewrite chunk_length by now apply Hfull. lia.
  - intros ->. rewrite Hempty by reflexivity. reflexivity.
Qed.

Lemma divide_concat_and_sizes_witness :
  0 < 2 /\
  exists chunks,
    Seller.divide [1; 2; 3; 4; 5] 2 = inr chunks /\
    List.concat chunks = [1; 2; 3; 4; 5] /\
    full_but_last 2 chunks /\
    ([1; 2; 3; 4; 5] = [] -> chunks = []).
Proof.
  split; [lia|]. apply (divide_concat_and_sizes [1; 2; 3; 4; 5] 2). lia.
Defined.

(** A negative chunk size gives an empty [range], hence no chunk and no
    exception, whatever the list. *)
Lemma divide_negative {A : Type} (s : list A) (n : Z) :
  n < 0 -> Seller.divide s n = inr [].
Proof.
  intros Hn. unfold Seller.divide, Py.range, Py.range_length, Py.len.
  destruct (Z.eqb_spec n 0) as [?|_]; [lia|].
  destruct (Z.ltb_spec 0 n) as [?|_]; [lia|].
  destruct (Z.ltb_spec (Z.of_nat (List.length s)) 0) as [?|_]; [lia|].
  reflexivity.
Qed.

(** A zero chunk size is rejected by [range]. *)
Lemma divide_zero {A : Type} (s : list A) :
  Seller.divide s 0 = inl Py.ValueError.
Proof. reflexivity. Qed.

(** C5. On the list [[1; 2; 3]] with the chunk size [-1], [divide] raises
    nothing and returns no chunk. *)
Theorem divide_negative_size_returns_nothing :
  Seller.divide [1; 2; 3] (-1) = inr [].
Proof. reflexivity. Qed.

(** C6. [price_conversion] never raises: it returns its input cut at the
    first decimal point and stripped of every character that is not an
    ASCII digit.  The three prices of the specification are normalized as
    it says. *)
Theorem price_conversion_truncates_and_strips :
  (forall price,
     Seller.price_conversion price =
     inr (only_digits (before_first_point price))) /\
  Seller.price_conversion "5'990.00 руб." = inr "5990" /\
  Seller.price_conversion "" = inr "" /\
  Seller.price_conversion "1'234.56 руб." = inr "1234".
Proof.
  split; [exact price_conversion_normalizes|].
  repeat split; reflexivity.
Qed.

(** ** Facts about the list operations *)

Lemma contains_In (x : string) (l : list string) :
  Py.contains x l = true <-> In x l.
Proof.
  unfold Py.contains. rewrite existsb_exists. split.
  - intros (y & Hy & E). apply String.eqb_eq in E. now subst.
  - intros H. exists x. split; [exact H|apply String.eqb_refl].
Qed.

Lemma contains_cons (x y : string) (l : list string) :
  Py.contains x (y :: l) = String.eqb x y || Py.contains x l.
Proof. reflexivity. Qed.

(** [remove] succeeds on an item of the list. *)
Lemma remove_present (x : string) (l : list string) :
  In x l -> exists l', Py.remove x l = inr l'.
Proof.
  induction l as [|y l IH]; simpl; [easy|]. intros H.
  destruct (String.eqb_spec y x) as [->|Hne]; [now eexists|].
  destruct IH as [l' ->]; [|now eexists].
  destruct H; congruence.
Qed.

Lemma remove_raises_value_error (x : string) (l : list string) (e : Py.exn) :
  Py.remove x l = inl e -> e = Py.ValueError.
Proof.
  induction l as [|y l IH]; simpl; [congruence|].
  destruct (String.eqb y x); [discriminate|].
  destruct (Py.remove x l); [|discriminate]. intros [= <-]. now apply IH.
Qed.

(** What [remove] takes away is one occurrence of its argument. *)
Lemma remove_permutation (x : string) (l l' : list string) :
  Py.remove x l = inr l' -> Permutation (x :: l') l.
Proof.
  revert l'. induction l as [|y l IH]; simpl; intros l'; [discriminate|].
  destruct (String.eqb_spec y x) as [->|Hne].
  - now intros [= ->].
  - destruct (Py.remove x l) as [e|r]; [discriminate|].
    intros [= <-]. rewrite perm_swap. constructor. now apply IH.
Qed.

(** On a list without duplicates, [remove] filters its argument out. *)
Lemma remove_NoDup (x : string) (l l' : list string) :
  NoDup l -> Py.remove x l = inr l' ->
  l' = filter (fun i => negb (String.eqb i x)) l.
Proof.
  intros Hl. revert l'. induction Hl as [|y l Hy Hl IH]; simpl; intros l';
    [discriminate|].
  destruct (String.eqb_spec y x) as [->|Hne]; simpl.
  - intros [= <-]. symmetry. apply forallb_filter_id.
    apply forallb_forall. intros i Hi.
    destruct (String.eqb_spec i x) as [->|_]; [contradiction|reflexivity].
  - destruct (Py.remove x l) as [e|r]; [discriminate|].
    intros [= <-]. f_equal. now apply IH.
Qed.

Lemma without_remove (x : string) (l l' : list string) :
  Py.remove x l = inr l' -> without x l = l'.
Proof. unfold without. now intros ->. Qed.

(** ** Facts about the quantity rule *)

Lemma resolve_quantity_resolves (count : string) (q : Z) :
  resolve_quantity count = inr q <-> resolves count q.
Proof.
  unfold resolve_quantity, resolves.
  destruct (String.eqb_spec count ">10") as [->|H10].
  - split; [intros [= <-]; now left|].
    intros [[_ ->]|[[E _]|(E & _)]]; [reflexivity|discriminate E|congruence].
  - destruct (String.eqb_spec count "1") as [->|H1].
    + split; [intros [= <-]; right; now left|].
      intros [[E _]|[[_ ->]|(_ & E & _)]];
        [discriminate E|reflexivity|congruence].
    + split; [intros E; right; right; now repeat split|].
      intros [[E _]|[[E _]|(_ & _ & E)]]; [contradiction..|exact E].
Qed.

Lemma resolve_quantity_invalid (count : string) (e : Py.exn) :
  resolve_quantity count = inl e <->
  invalid_quantity count /\ e = Py.ValueError.
Proof.
  unfold resolve_quantity, invalid_quantity.
  destruct (String.eqb_spec count ">10") as [->|H10].
  - split; [discriminate|]. now intros [[E _] _].
  - destruct (String.eqb_spec count "1") as [->|H1].
    + split; [discriminate|]. now intros [(_ & E & _) _].
    + split.
      * intros E. pose proof (int_raises_value_error _ _ E) as ->.
        now repeat split.
      * now intros [(_ & _ & E) ->].
Qed.

(** ** The matching pass as a function *)

(** The rows the pass takes are the matched rows, each with the quantity
    its count resolves to. *)
Lemma match_rows_taken (rows : list row) :
  forall ids taken rest,
    match_rows rows ids = (inr taken, rest) ->
    map fst taken = matched_rows rows ids /\
    Forall (fun p => resolve_quantity (Kolichestvo (fst p)) = inr (snd p))
           taken.
Proof.
  induction rows as [|r rows IH]; intros ids taken rest; simpl.
  - intros [= <- _]. now split.
  - destruct (Py.contains (Kod r) ids) eqn:Hin; [|apply IH].
    destruct (resolve_quantity (Kolichestvo r)) as [e|q] eqn:Hq;
      [discriminate|].
    destruct (Py.remove (Kod r) ids) as [e|ids'] eqn:Hrm; [discriminate|].
    rewrite (without_remove _ _ _ Hrm).
    destruct (match_rows rows ids') as [[e|taken'] rest'] eqn:Hrec;
      [discriminate|].
    intros [= <- <-]. destruct (IH _ _ _ Hrec) as [Hrows Hqs].
    split; simpl; [now rewrite Hrows|now constructor].
Qed.

(** The identifiers taken and the identifiers left make up the working
    list the pass started from. *)
Lemma match_rows_permutation (rows : list row) :
  forall ids taken rest,
    match_rows rows ids = (inr taken, rest) ->
    Permutation (map (fun p => Kod (fst p)) taken ++ rest) ids.
Proof.
  induction rows as [|r rows IH]; intros ids taken rest; simpl.
  - now intros [= <- <-].
  - destruct (Py.contains (Kod r) ids) eqn:Hin; [|apply IH].
    destruct (resolve_quantity (Kolichestvo r)) as [e|q]; [discriminate|].
    destruct (Py.remove (Kod r) ids) as [e|ids'] eqn:Hrm; [discriminate|].
    destruct (match_rows rows ids') as [[e|taken'] rest'] eqn:Hrec;
      [discriminate|].
    intros [= <- <-]. simpl.
    rewrite <- (remove_permutation _ _ _ Hrm). constructor.
    now apply IH.
Qed.

(** The pass fails exactly when a matched row has an invalid count, and
    then with a [ValueError]. *)
Lemma match_rows_fails (rows : list row) :
  forall ids,
    (exists r, In r (matched_rows rows ids) /\
               invalid_quantity (Kolichestvo r)) ->
    fst (match_rows rows ids) = inl Py.ValueError.
Proof.
  induction rows as [|r rows IH]; intros ids; simpl.
  - now intros (r & [] & _).
  - destruct (Py.contains (Kod r) ids) eqn:Hin; [|apply IH].
    intros (r' & Hr' & Hbad).
    destruct (resolve_quantity (Kolichestvo r)) as [e|q] eqn:Hq.
    + apply resolve_quantity_invalid in Hq as [_ ->]. reflexivity.
    + destruct (remove_present (Kod r) ids) as [ids' Hrm];
        [now apply contains_In|].
      rewrite Hrm. rewrite (without_remove _ _ _ Hrm) in Hr'.
      destruct Hr' as [<-|Hr'].
      * assert (resolve_quantity (Kolichestvo r) = inl Py.ValueError)
          by now apply resolve_quantity_invalid.
        congruence.
      * specialize (IH ids' (ex_intro _ r' (conj Hr' Hbad))).
        destruct (match_rows rows ids') as [[e|taken'] rest']; simpl in *;
          congruence.
Qed.

Lemma match_rows_succeeds (rows : list row) :
  forall ids,
    Forall (fun r => exists q, resolve_quantity (Kolichestvo r) = inr q)
           (matched_rows rows ids) ->
    exists taken rest, match_rows rows ids = (inr taken, rest).
Proof.
  induction rows as [|r rows IH]; intros ids; simpl.
  - intros _. now exists [], ids.
  - destruct (Py.contains (Kod r) ids) eqn:Hin; [|apply IH].
    intros H. inversion H as [|? ? [q Hq] Hrest]; subst. rewrite Hq.
    destruct (remove_present (Kod r) ids) as [ids' Hrm];
      [now apply contains_In|].
    rewrite Hrm. rewrite (without_remove _ _ _ Hrm) in Hrest.
    destruct (IH ids' Hrest) as (taken & rest & ->). now eexists _, _.
Qed.

Lemma match_rows_raises_value_error (rows : list row) :
  forall ids e, fst (match_rows rows ids) = inl e -> e = Py.ValueError.
Proof.
  induction rows as [|r rows IH]; intros ids e; simpl; [discriminate|].
  destruct (Py.contains (Kod r) ids); [|apply IH].
  destruct (resolve_quantity (Kolichestvo r)) as [e'|q] eqn:Hq.
  - simpl. intros [= <-]. now apply resolve_quantity_invalid in Hq.
  - destruct (Py.remove (Kod r) ids) as [e'|ids'] eqn:Hrm.
    + simpl. intros [= <-]. now apply remove_raises_value_error in Hrm.
    + specialize (IH ids' e).
      destruct (match_rows rows ids') as [[e'|taken'] rest']; simpl in *;
        [exact IH|discriminate].
Qed.

(** ** The matching pass on a list without duplicates *)

Lemma contains_filter (f : string -> bool) (x : string) (l : list string) :
  Py.contains x (filter f l) = Py.contains x l && f x.
Proof.
  apply eq_true_iff_eq.
  rewrite andb_true_iff, !contains_In, filter_In. reflexivity.
Qed.

Lemma filter_twice {A : Type} (f g : A -> bool) (l : list A) :
  filter f (filter g l) = filter (fun x => g x && f x) l.
Proof.
  induction l as [|x l IH]; simpl; [reflexivity|].
  destruct (g x); simpl; [destruct (f x)|]; now rewrite IH.
Qed.

(** The working list when the identifiers [seen] have been met. *)
Lemma unseen_step_taken (k : string) (seen ids working : list string) :
  NoDup ids ->
  Py.remove k (filter (fun i => negb (Py.contains i seen)) ids) = inr working ->
  working = filter (fun i => negb (Py.contains i (k :: seen))) ids.
Proof.
  intros Hids Hrm. apply remove_NoDup in Hrm; [|now apply NoDup_filter].
  rewrite Hrm, filter_twice. apply filter_ext. intros i.
  rewrite contains_cons. now destruct (String.eqb i k), (Py.contains i seen).
Qed.

Lemma unseen_step_skipped (k : string) (seen ids : list string) :
  Py.contains k (filter (fun i => negb (Py.contains i seen)) ids) = false ->
  filter (fun i => negb (Py.contains i seen)) ids =
  filter (fun i => negb (Py.contains i (k :: seen))) ids.
Proof.
  intros Hk. apply filter_ext_in. intros i Hi. rewrite contains_cons.
  destruct (String.eqb_spec i k) as [->|_]; [|reflexivity].
  rewrite contains_filter in Hk. apply contains_In in Hi. rewrite Hi in Hk.
  simpl in *. now rewrite Hk.
Qed.

Lemma match_rows_first_matches (rows : list row) :
  forall ids seen taken rest,
    NoDup ids ->
    match_rows rows (filter (fun i => negb (Py.contains i seen)) ids)
    = (inr taken, rest) ->
    map fst taken = first_matches seen rows ids /\
    rest = filter (fun i => negb (Py.contains i seen ||
                                  Py.contains i (map Kod rows))) ids.
Proof.
  induction rows as [|r rows IH]; intros ids seen taken rest Hids; simpl.
  - intros [= <- <-]. split; [reflexivity|].
    apply filter_ext. intros i. now rewrite orb_false_r.
  - assert (Hshift : forall l,
      filter (fun i => negb (Py.contains i (Kod r :: seen) ||
                             Py.contains i (map Kod rows))) l =
      filter (fun i => negb (Py.contains i seen ||
                             (String.eqb i (Kod r) ||
                              Py.contains i (map Kod rows)))) l).
    { intros l. apply filter_ext. intros i. rewrite contains_cons.
      now destruct (String.eqb i (Kod r)), (Py.contains i seen). }
    destruct (Py.contains (Kod r) (filter _ ids)) eqn:Hin.
    + pose proof Hin as Hin'. rewrite contains_filter in Hin'. rewrite Hin'.
      destruct (resolve_quantity (Kolichestvo r)) as [e|q]; [discriminate|].
      destruct (Py.remove (Kod r) _) as [e|working] eqn:Hrm; [discriminate|].
      apply unseen_step_taken in Hrm; [|exact Hids]. subst working.
      destruct (match_rows rows _) as [[e|taken'] rest'] eqn:Hrec;
        [discriminate|].
      intros [= <- <-]. destruct (IH _ _ _ _ Hids Hrec) as [Ht Hr].
      split; simpl; [now rewrite Ht|]. now rewrite Hr, Hshift.
    + pose proof Hin as Hin'. rewrite contains_filter in Hin'. rewrite Hin'.
      rewrite (unseen_step_skipped _ _ _ Hin). intros Hrec.
      destruct (IH _ _ _ _ Hids Hrec) as [Ht Hr].
      split; [exact Ht|]. now rewrite Hr, Hshift.
Qed.

Lemma filter_nothing_seen (ids : list string) :
  filter (fun i => negb (Py.contains i [])) ids = ids.
Proof. apply forallb_filter_id. now apply forallb_forall. Qed.

(** From a list without duplicates, the pass takes the first row of each
    known identifier and leaves the identifiers the feed never names. *)
Lemma match_rows_NoDup (rows : list row) (ids : list string)
  (taken : list (row * Z)) (rest : list string) :
  NoDup ids ->
  match_rows rows ids = (inr taken, rest) ->
  map fst taken = first_matches [] rows ids /\ rest = unmatched rows ids.
Proof.
  intros Hids Hrun. rewrite <- (filter_nothing_seen ids) in Hrun at 1.
  now apply match_rows_first_matches in Hrun.
Qed.

(** A permutation of a list without duplicates names each of its items
    once. *)
Lemma permutation_one_each (ids out : list string) :
  NoDup ids -> Permutation out ids -> one_record_per_identifier ids out.
Proof.
  intros Hids Hperm i Hi.
  rewrite (Permutation_count_occ string_dec) in Hperm. rewrite Hperm.
  rewrite (NoDup_count_occ string_dec) in Hids.
  apply (count_occ_In string_dec) in Hi. specialize (Hids i). lia.
Qed.

(** ** The loops of the reconcilers *)

(** A loop that only appends one record per item. *)
Lemma for_each_append {A R : Type} (f : A -> R) (xs : list A) :
  forall (acc : list R) (st : state),
    for_each xs (fun x acc => ret (acc ++ [f x])) acc st
    = (inr (acc ++ map f xs), st).
Proof.
  induction xs as [|x xs IH]; intros acc st; simpl.
  - unfold ret. now rewrite app_nil_r.
  - unfold bind at 1, ret at 1. rewrite IH. now rewrite <- app_assoc.
Qed.

Section MatchingLoop.

Context {R : Type}.

(** The record a matched row gives. *)
Variable item : row -> Z -> R.

(** The body of the matching loop, and what one round of it does. *)
Variable body : row -> list R -> M (list R).

Hypothesis body_step : forall watch acc st,
  body watch acc st =
  if Py.contains (Kod watch) (offer_ids st) then
    match resolve_quantity (Kolichestvo watch) with
    | inl e => (inl e, st)
    | inr q =>
        match Py.remove (Kod watch) (offer_ids st) with
        | inl e => (inl e, st)
        | inr ids => (inr (acc ++ [item watch q]), with_offer_ids st ids)
        end
    end
  else (inr acc, st).

Lemma matching_loop (rows : list row) :
  forall (acc : list R) (st : state),
    for_each rows body acc st =
    match match_rows rows (offer_ids st) with
    | (inr taken, rest) =>
        (inr (acc ++ map (fun p => item (fst p) (snd p)) taken),
         with_offer_ids st rest)
    | (inl e, rest) => (inl e, with_offer_ids st rest)
    end.
Proof.
  induction rows as [|r rows IH]; intros acc st; simpl.
  - unfold ret. now rewrite app_nil_r, with_offer_ids_same.
  - unfold bind. rewrite body_step.
    destruct (Py.contains (Kod r) (offer_ids st)); [|apply IH].
    destruct (resolve_quantity (Kolichestvo r)) as [e|q];
      [now rewrite with_offer_ids_same|].
    destruct (Py.remove (Kod r) (offer_ids st)) as [e|ids];
      [now rewrite with_offer_ids_same|].
    rewrite IH. simpl.
    destruct (match_rows rows ids) as [[e|taken] rest]; [reflexivity|].
    simpl. now rewrite <- app_assoc.
Qed.

End MatchingLoop.

(** [create_stocks] of seller.py, in one equation. *)
Lemma seller_create_stocks_eq (rows : list row) (st : state) :
  Seller.create_stocks rows st =
  match match_rows rows (offer_ids st) with
  | (inr taken, rest) =>
      (inr (map (fun p => {| Seller.offer_id := Kod (fst p);
                             Seller.stock := snd p |}) taken
            ++ map ozon_defaulted rest),
       with_offer_ids st rest)
  | (inl e, rest) => (inl e, with_offer_ids st rest)
  end.
Proof.
  unfold Seller.create_stocks. unfold bind at 1.
  rewrite (matching_loop
             (fun r q => {| Seller.offer_id := Kod r; Seller.stock := q |})).
  - destruct (match_rows rows (offer_ids st)) as [[e|taken] rest];
      [reflexivity|].
    unfold bind, offer_ids_items. cbn [offer_ids with_offer_ids].
    now rewrite (for_each_append ozon_defaulted).
  - intros watch acc st'. unfold bind, offer_ids_contains, offer_ids_remove.
    destruct (Py.contains (Kod watch) (offer_ids st')); [|reflexivity].
    unfold resolve_quantity, ret, lift.
    destruct (String.eqb (Kolichestvo watch) ">10");
      [|destruct (String.eqb (Kolichestvo watch) "1");
        [|destruct (Py.int (Kolichestvo watch)); [reflexivity|]]];
      now destruct (Py.remove (Kod watch) (offer_ids st')).
Qed.

(** [create_stocks] of market.py, in one equation: the clock is read once,
    before the passes. *)
Lemma market_create_stocks_eq (rows : list row) (w : string) (st : state) :
  Market.create_stocks rows w st =
  let st1 := {| offer_ids := offer_ids st; clock := clock st;
                reads := S (reads st) |} in
  match match_rows rows (offer_ids st) with
  | (inr taken, rest) =>
      (inr (map (fun p => market_record w (timestamp st) (Kod (fst p)) (snd p))
                taken
            ++ map (fun i => market_record w (timestamp st) i 0) rest),
       with_offer_ids st1 rest)
  | (inl e, rest) => (inl e, with_offer_ids st1 rest)
  end.
Proof.
  unfold Market.create_stocks. unfold bind at 1, utcnow. fold (timestamp st).
  unfold bind at 1.
  rewrite (matching_loop
             (fun r q => market_record w (timestamp st) (Kod r) q)).
  - cbn [offer_ids].
    destruct (match_rows rows (offer_ids st)) as [[e|taken] rest];
      [reflexivity|].
    unfold bind, offer_ids_items. cbn [offer_ids with_offer_ids].
    now rewrite
      (for_each_append (fun i => market_record w (timestamp st) i 0)).
  - intros watch acc st'. unfold bind, offer_ids_contains, offer_ids_remove.
    destruct (Py.contains (Kod watch) (offer_ids st')); [|reflexivity].
    unfold resolve_quantity, ret, lift.
    destruct (String.eqb (Kolichestvo watch) ">10");
      [|destruct (String.eqb (Kolichestvo watch) "1");
        [|destruct (Py.int (Kolichestvo watch)); [reflexivity|]]];
      now destruct (Py.remove (Kod watch) (offer_ids st')).
Qed.

(** [int] of a normalized price. *)
Lemma int_of_normalized_price (price : string) :
  Py.int (normalized_price price) =
  if is_empty (normalized_price price) then inl Py.ValueError
  else if Py.max_str_digits
          <? Z.of_nat (String.length (normalized_price price))
       then inl Py.ValueError
       else inr (decimal_value (normalized_price price)).
Proof.
  destruct (is_empty (normalized_price price)) eqn:E.
  - destruct (normalized_price price); [reflexivity|discriminate].
  - apply int_of_digits; [apply only_digits_all_digits|exact E].
Qed.

Section PriceLoop.

Context {R : Type}.

(** The record a known row gives, or the exception it raises. *)
Variable emit : row -> Py.result R.

(** The body of the price loop, and what one round of it does. *)
Variable body : row -> list R -> M (list R).

Hypothesis body_step : forall watch acc st,
  body watch acc st =
  if Py.contains (Kod watch) (offer_ids st) then
    match emit watch with
    | inl e => (inl e, st)
    | inr x => (inr (acc ++ [x]), st)
    end
  else (inr acc, st).

Lemma price_loop (rows : list row) :
  forall (acc : list R) (st : state),
    for_each rows body acc st =
    match emit_all emit (known_rows rows (offer_ids st)) with
    | inl e => (inl e, st)
    | inr xs => (inr (acc ++ xs), st)
    end.
Proof.
  induction rows as [|r rows IH]; intros acc st; cbn [for_each].
  - unfold ret. simpl. now rewrite app_nil_r.
  - unfold known_rows. cbn [filter]. fold (known_rows rows (offer_ids st)).
    unfold bind. rewrite body_step.
    destruct (Py.contains (Kod r) (offer_ids st)); [|apply IH].
    cbn [emit_all]. destruct (emit r) as [e|x]; [reflexivity|].
    rewrite IH. destruct (emit_all emit _); [reflexivity|].
    now rewrite <- app_assoc.
Qed.

End PriceLoop.

Lemma emit_all_total {R : Type} (f : row -> R) (rows : list row) :
  emit_all (fun r => inr (f r)) rows = inr (map f rows).
Proof.
  induction rows as [|r rows IH]; simpl; [reflexivity|]. now rewrite IH.
Qed.

Lemma seller_create_prices_eq (rows : list row) (st : state) :
  Seller.create_prices rows st
  = (inr (map ozon_price (known_rows rows (offer_ids st))), st).
Proof.
  unfold Seller.create_prices.
  rewrite (price_loop (fun r => inr (ozon_price r))).
  - now rewrite emit_all_total.
  - intros watch acc st'. unfold bind, offer_ids_contains, lift, ret.
    destruct (Py.contains (Kod watch) (offer_ids st')); [|reflexivity].
    now rewrite price_conversion_normalizes.
Qed.

Lemma is_empty_only_digits (s : string) :
  is_empty (only_digits s) = has_no_digit s.
Proof.
  induction s as [|c s IH]; simpl; [reflexivity|].
  now destruct (Py.is_ascii_digit c).
Qed.

Lemma price_is_int_spec (r : row) :
  price_is_int r =
  negb (is_empty (normalized_price (Tsena r))) &&
  negb (Py.max_str_digits
        <? Z.of_nat (String.length (normalized_price (Tsena r)))).
Proof.
  unfold price_is_int, has_price_digits. rewrite <- is_empty_only_digits.
  fold (normalized_price (Tsena r)). now rewrite Z.leb_antisym.
Qed.

(** What the text of [create_prices] of market.py makes of the known
    rows. *)
Lemma emit_all_market (rows : list row) :
  emit_all (fun r => if price_is_int r then inr (market_price r)
                     else inl Py.ValueError) rows
  = if forallb price_is_int rows then inr (map market_price rows)
    else inl Py.ValueError.
Proof.
  induction rows as [|r rows IH]; simpl; [reflexivity|].
  destruct (price_is_int r); [|reflexivity].
  rewrite IH. simpl. now destruct (forallb price_is_int rows).
Qed.

(** The text of [create_prices] of market.py stops at the first known row
    whose normalized price [int] does not read. *)
Lemma market_create_prices_eq (rows : list row) (st : state) :
  Market.create_prices rows st
  = if forallb price_is_int (known_rows rows (offer_ids st))
    then (inr (map market_price (known_rows rows (offer_ids st))), st)
    else (inl Py.ValueError, st).
Proof.
  unfold Market.create_prices.
  rewrite (price_loop
             (fun r => if price_is_int r then inr (market_price r)
                       else inl Py.ValueError)).
  - rewrite emit_all_market. now destruct (forallb price_is_int _).
  - intros watch acc st'. unfold bind, offer_ids_contains, lift, ret.
    destruct (Py.contains (Kod watch) (offer_ids st')); [|reflexivity].
    rewrite price_conversion_normalizes, int_of_normalized_price,
      price_is_int_spec.
    destruct (is_empty _); [reflexivity|].
    now destruct (Py.max_str_digits <? _).
Qed.

(** ** What a successful stock call returns *)

Lemma seller_create_stocks_returns (rows : list row) (st st' : state)
  (out : list Seller.StockItem) :
  Seller.create_stocks rows st = (inr out, st') ->
  exists taken rest,
    match_rows rows (offer_ids st) = (inr taken, rest) /\
    out = map (fun p => {| Seller.offer_id := Kod (fst p);
                           Seller.stock := snd p |}) taken
          ++ map ozon_defaulted rest /\
    offer_ids st' = rest.
Proof.
  rewrite seller_create_stocks_eq.
  destruct (match_rows rows (offer_ids st)) as [[e|taken] rest];
    [discriminate|].
  intros [= <- <-]. now exists taken, rest.
Qed.

Lemma market_create_stocks_returns (rows : list row) (w : string)
  (st st' : state) (out : list Market.Sku) :
  Market.create_stocks rows w st = (inr out, st') ->
  exists taken rest,
    match_rows rows (offer_ids st) = (inr taken, rest) /\
    out = map (fun p => market_record w (timestamp st) (Kod (fst p)) (snd p))
              taken
          ++ map (fun i => market_record w (timestamp st) i 0) rest /\
    offer_ids st' = rest /\
    reads st' = S (reads st).
Proof.
  rewrite market_create_stocks_eq. cbn zeta.
  destruct (match_rows rows (offer_ids st)) as [[e|taken] rest];
    [discriminate|].
  intros [= <- <-]. now exists taken, rest.
Qed.

Lemma seller_create_stocks_raises (rows : list row) (st : state) :
  fst (match_rows rows (offer_ids st)) = inl Py.ValueError ->
  fst (Seller.create_stocks rows st) = inl Py.ValueError.
Proof.
  rewrite seller_create_stocks_eq.
  destruct (match_rows rows (offer_ids st)) as [[e|taken] rest]; simpl;
    congruence.
Qed.

Lemma market_create_stocks_raises (rows : list row) (w : string)
  (st : state) :
  fst (match_rows rows (offer_ids st)) = inl Py.ValueError ->
  fst (Market.create_stocks rows w st) = inl Py.ValueError.
Proof.
  rewrite market_create_stocks_eq. cbn zeta.
  destruct (match_rows rows (offer_ids st)) as [[e|taken] rest]; simpl;
    congruence.
Qed.

(** The records of the rows taken, row by row. *)
Lemma taken_records {R : Type} (item : row -> Z -> R)
  (related : row -> R -> Prop) (taken : list (row * Z)) :
  (forall r q, resolve_quantity (Kolichestvo r) = inr q ->
               related r (item r q)) ->
  Forall (fun p => resolve_quantity (Kolichestvo (fst p)) = inr (snd p))
         taken ->
  Forall2 related (map fst taken)
          (map (fun p => item (fst p) (snd p)) taken).
Proof.
  intros Hitem. induction 1 as [|[r q] taken Hq _ IH]; simpl; constructor.
  - now apply Hitem.
  - exact IH.
Qed.

(** The identifiers of the records are those of the list the call was
    given, each as often as the list holds it. *)
Lemma seller_create_stocks_permutation (rows : list row) (st st' : state)
  (out : list Seller.StockItem) :
  Seller.create_stocks rows st = (inr out, st') ->
  Permutation (map Seller.offer_id out) (offer_ids st).
Proof.
  intros Hrun.
  apply seller_create_stocks_returns in Hrun as (taken & rest & Hrun & -> & _).
  rewrite map_app, !map_map. cbn [Seller.offer_id ozon_defaulted].
  rewrite map_id. exact (match_rows_permutation _ _ _ _ Hrun).
Qed.

Lemma market_create_stocks_permutation (rows : list row) (w : string)
  (st st' : state) (out : list Market.Sku) :
  Market.create_stocks rows w st = (inr out, st') ->
  Permutation (map Market.sku out) (offer_ids st).
Proof.
  intros Hrun.
  apply market_create_stocks_returns in Hrun as (taken & rest & Hrun & -> & _).
  rewrite map_app, !map_map. cbn [Market.sku market_record].
  rewrite map_id. exact (match_rows_permutation _ _ _ _ Hrun).
Qed.

(** ** When a stock call returns *)

Lemma matched_rows_unseen (rows : list row) :
  forall ids seen,
    NoDup ids ->
    matched_rows rows (filter (fun i => negb (Py.contains i seen)) ids)
    = first_matches seen rows ids.
Proof.
  induction rows as [|r rows IH]; intros ids seen Hids; simpl;
    [reflexivity|].
  destruct (Py.contains (Kod r) (filter _ ids)) eqn:Hin.
  - pose proof Hin as Hin'. rewrite contains_filter in Hin'. rewrite Hin'.
    destruct (remove_present
                (Kod r) (filter (fun i => negb (Py.contains i seen)) ids))
      as [working Hrm]; [now apply contains_In|].
    rewrite (without_remove _ _ _ Hrm).
    apply unseen_step_taken in Hrm; [|exact Hids]. subst working.
    f_equal. now apply IH.
  - pose proof Hin as Hin'. rewrite contains_filter in Hin'. rewrite Hin'.
    rewrite (unseen_step_skipped _ _ _ Hin). now apply IH.
Qed.

(** From a list without duplicates, the rows the pass takes are the first
    rows of the known identifiers. *)
Lemma matched_rows_NoDup (rows : list row) (ids : list string) :
  NoDup ids -> matched_rows rows ids = first_matches [] rows ids.
Proof.
  intros Hids. rewrite <- (filter_nothing_seen ids) at 1.
  now apply matched_rows_unseen.
Qed.

(** The matching pass goes through when every row it takes has a readable
    count. *)
Lemma match_rows_readable (rows : list row) (ids : list string) :
  Forall (fun r => readable_quantity (Kolichestvo r))
         (matched_rows rows ids) ->
  exists taken rest, match_rows rows ids = (inr taken, rest).
Proof.
  intros H. apply match_rows_succeeds.
  eapply Forall_impl; [|exact H]. intros r [q Hq]. exists q.
  now apply resolve_quantity_resolves.
Qed.

Lemma seller_create_stocks_readable (rows : list row) (st : state) :
  Forall (fun r => readable_quantity (Kolichestvo r))
         (matched_rows rows (offer_ids st)) ->
  exists out st', Seller.create_stocks rows st = (inr out, st').
Proof.
  intros (taken & rest & Hrun)%match_rows_readable.
  rewrite seller_create_stocks_eq, Hrun. now eexists _, _.
Qed.

Lemma market_create_stocks_readable (rows : list row) (w : string)
  (st : state) :
  Forall (fun r => readable_quantity (Kolichestvo r))
         (matched_rows rows (offer_ids st)) ->
  exists out st', Market.create_stocks rows w st = (inr out, st').
Proof.
  intros (taken & rest & Hrun)%match_rows_readable.
  rewrite market_create_stocks_eq, Hrun. now eexists _, _.
Qed.

(** What a call that returns has made of a list without duplicates. *)
Lemma returned_stocks_cover_identifiers (rows : list row) (st : state) :
  NoDup (offer_ids st) ->
  (forall out st',
     Seller.create_stocks rows st = (inr out, st') ->
     one_record_per_identifier (offer_ids st) (map Seller.offer_id out) /\
     exists matched,
       Forall2 ozon_matched (first_matches [] rows (offer_ids st)) matched /\
       out = matched ++ map ozon_defaulted (unmatched rows (offer_ids st))) /\
  (forall w out st',
     Market.create_stocks rows w st = (inr out, st') ->
     one_record_per_identifier (offer_ids st) (map Market.sku out) /\
     exists matched,
       Forall2 (market_matched w (timestamp st))
               (first_matches [] rows (offer_ids st)) matched /\
       out = matched ++ map (fun i => market_record w (timestamp st) i 0)
                            (unmatched rows (offer_ids st))).
Proof.
  intros Hids. split.
  - intros out st' Hrun. split.
    + apply permutation_one_each; [exact Hids|].
      now apply seller_create_stocks_permutation in Hrun.
    + apply seller_create_stocks_returns in Hrun
        as (taken & rest & Hrun & -> & _).
      destruct (match_rows_NoDup _ _ _ _ Hids Hrun) as [<- <-].
      eexists. split; [|reflexivity].
      apply taken_records with (item :=
        fun r q => {| Seller.offer_id := Kod r; Seller.stock := q |});
        [now split|].
      now apply match_rows_taken in Hrun.
  - intros w out st' Hrun. split.
    + apply permutation_one_each; [exact Hids|].
      now apply market_create_stocks_permutation in Hrun.
    + apply market_create_stocks_returns in Hrun
        as (taken & rest & Hrun & -> & _).
      destruct (match_rows_NoDup _ _ _ _ Hids Hrun) as [<- <-].
      eexists. split; [|reflexivity].
      apply taken_records with (item :=
        fun r q => market_record w (timestamp st) (Kod r) q);
        [intros r q Hq; now exists q|].
      now apply match_rows_taken in Hrun.
Qed.

(** ** The claims about the Stock Reconciler *)

(** C1, as the code has it.  When the identifier list holds no duplicate
    and the first row of every known identifier has a readable count, the
    call returns, and every identifier of the list names exactly one of
    its records; the records are those of the rows that are the first of
    the feed to carry a known identifier, in feed order, followed by a
    record with quantity 0 for each identifier the feed never names, in
    the order of the list. *)
Theorem create_stocks_one_record_per_identifier (rows : list row)
  (st : state) :
  NoDup (offer_ids st) ->
  Forall (fun r => readable_quantity (Kolichestvo r))
         (first_matches [] rows (offer_ids st)) ->
  (exists out st',
     Seller.create_stocks rows st = (inr out, st') /\
     one_record_per_identifier (offer_ids st) (map Seller.offer_id out) /\
     exists matched,
       Forall2 ozon_matched (first_matches [] rows (offer_ids st)) matched /\
       out = matched ++ map ozon_defaulted (unmatched rows (offer_ids st))) /\
  (forall w,
     exists out st',
       Market.create_stocks rows w st = (inr out, st') /\
       one_record_per_identifier (offer_ids st) (map Market.sku out) /\
       exists matched,
         Forall2 (market_matched w (timestamp st))
                 (first_matches [] rows (offer_ids st)) matched /\
         out = matched ++ map (fun i => market_record w (timestamp st) i 0)
                              (unmatched rows (offer_ids st))).
Proof.
  intros Hids Hreadable.
  rewrite <- (matched_rows_NoDup _ _ Hids) in Hreadable.
  destruct (returned_stocks_cover_identifiers rows st Hids)
    as [Hozon Hmarket].
  split.
  - destruct (seller_create_stocks_readable rows st Hreadable)
      as (out & st' & Hrun).
    exists out, st'. split; [exact Hrun|]. now apply (Hozon out st').
  - intros w.
    destruct (market_create_stocks_readable rows w st Hreadable)
      as (out & st' & Hrun).
    exists out, st'. split; [exact Hrun|]. now apply (Hmarket w out st').
Qed.

Lemma create_stocks_one_record_per_identifier_witness :
  NoDup ["A"; "B"; "C"] /\
  Forall (fun r => readable_quantity (Kolichestvo r))
         (first_matches [] [feed_row "A" "3" ""; feed_row "D" "7" ""]
                        ["A"; "B"; "C"]) /\
  exists out st',
    Seller.create_stocks [feed_row "A" "3" ""; feed_row "D" "7" ""]
                         (state_of ["A"; "B"; "C"]) = (inr out, st') /\
    one_record_per_identifier ["A"; "B"; "C"] (map Seller.offer_id out) /\
    exists matched,
      Forall2 ozon_matched
        (first_matches [] [feed_row "A" "3" ""; feed_row "D" "7" ""]
                       ["A"; "B"; "C"]) matched /\
      out = matched ++ map ozon_defaulted
                           (unmatched [feed_row "A" "3" ""; feed_row "D" "7" ""]
                                      ["A"; "B"; "C"]).
Proof.
  assert (Hids : NoDup ["A"; "B"; "C"])
    by (repeat constructor; simpl; intuition congruence).
  assert (Hreadable :
            Forall (fun r => readable_quantity (Kolichestvo r))
                   (first_matches [] [feed_row "A" "3" ""; feed_row "D" "7" ""]
                                  ["A"; "B"; "C"])).
  { repeat constructor. exists 3. right. right.
    split; [discriminate|split; [discriminate|reflexivity]]. }
  split; [exact Hids|]. split; [exact Hreadable|].
  exact (proj1 (create_stocks_one_record_per_identifier
                  [feed_row "A" "3" ""; feed_row "D" "7" ""]
                  (state_of ["A"; "B"; "C"]) Hids Hreadable)).
Defined.

(** C1, as it is worded, fails twice: an identifier the list holds twice
    gets two records, and a matched row with an unreadable count leaves
    every identifier without a record. *)
Lemma create_stocks_repeated_identifier_or_bad_count :
  ~ stocks_cover_once [] ["a"; "a"] /\
  ~ stocks_cover_once [feed_row "999" "нет" ""] ["999"].
Proof.
  split.
  - intros (out & st' & Hrun & Hone). vm_compute in Hrun.
    injection Hrun as <- _.
    specialize (Hone "a" (or_introl eq_refl)). vm_compute in Hone.
    discriminate Hone.
  - intros (out & st' & Hrun & _). vm_compute in Hrun. discriminate Hrun.
Qed.

Lemma taken_are_matched (rows : list row) (ids : list string)
  (taken : list (row * Z)) (rest : list string) :
  match_rows rows ids = (inr taken, rest) ->
  Forall2 (fun r p => fst p = r /\ resolves (Kolichestvo r) (snd p))
          (matched_rows rows ids) taken.
Proof.
  intros Hrun. destruct (match_rows_taken _ _ _ _ Hrun) as [<- Hqs].
  clear Hrun.
  induction Hqs as [|[r q] taken Hq _ IH]; simpl; constructor; [|exact IH].
  split; [reflexivity|]. now apply resolve_quantity_resolves.
Qed.

Lemma Forall2_map_right {A B C : Type} (P : A -> C -> Prop) (f : B -> C)
  (l : list A) (l' : list B) :
  Forall2 (fun a b => P a (f b)) l l' -> Forall2 P l (map f l').
Proof. induction 1; simpl; now constructor. Qed.

(** C2. In a call that returns, the record of every matched row reports
    100 for the count ">10", 0 for the count "1", and otherwise the
    integer the count is a base-10 literal of; the records of the matched
    rows come first, before those defaulted from the identifiers left.  A
    matched row whose count is neither a sentinel nor an integer literal
    makes the call raise [ValueError], so that no record is returned; when
    every matched row has a readable count the call returns. *)
Theorem create_stocks_quantity_rule (rows : list row) (st : state) :
  (forall out st',
     Seller.create_stocks rows st = (inr out, st') ->
     exists matched,
       out = matched ++ map ozon_defaulted (offer_ids st') /\
       Forall2 (fun r s => Seller.offer_id s = Kod r /\
                           resolves (Kolichestvo r) (Seller.stock s))
               (matched_rows rows (offer_ids st)) matched) /\
  (forall w out st',
     Market.create_stocks rows w st = (inr out, st') ->
     exists matched,
       out = matched ++ map (fun i => market_record w (timestamp st) i 0)
                            (offer_ids st') /\
       Forall2 (fun r s => Market.sku s = Kod r /\
                           exists q, market_quantities s = [q] /\
                                     resolves (Kolichestvo r) q)
               (matched_rows rows (offer_ids st)) matched) /\
  ((exists r, In r (matched_rows rows (offer_ids st)) /\
              invalid_quantity (Kolichestvo r)) ->
   fst (Seller.create_stocks rows st) = inl Py.ValueError /\
   forall w, fst (Market.create_stocks rows w st) = inl Py.ValueError) /\
  (Forall (fun r => readable_quantity (Kolichestvo r))
          (matched_rows rows (offer_ids st)) ->
   (exists out st', Seller.create_stocks rows st = (inr out, st')) /\
   forall w, exists out st', Market.create_stocks rows w st = (inr out, st')).
Proof.
  split; [|split; [|split]].
  - intros out st' Hrun.
    apply seller_create_stocks_returns in Hrun
      as (taken & rest & Hrun & -> & ->).
    eexists. split; [reflexivity|].
    apply Forall2_map_right. apply taken_are_matched in Hrun.
    eapply Forall2_impl; [|exact Hrun]. intros r [r' q] [<- Hq]. now split.
  - intros w out st' Hrun.
    apply market_create_stocks_returns in Hrun
      as (taken & rest & Hrun & -> & -> & _).
    eexists. split; [reflexivity|].
    apply Forall2_map_right. apply taken_are_matched in Hrun.
    eapply Forall2_impl; [|exact Hrun]. intros r [r' q] [<- Hq].
    split; [reflexivity|]. now exists q.
  - intros Hbad. apply match_rows_fails in Hbad. split.
    + now apply seller_create_stocks_raises.
    + intros w. now apply market_create_stocks_raises.
  - intros Hreadable. split.
    + now apply seller_create_stocks_readable.
    + intros w. now apply market_create_stocks_readable.
Qed.

Lemma create_stocks_quantity_rule_witness :
  (exists matched,
     [{| Seller.offer_id := "A"; Seller.stock := 100 |};
      {| Seller.offer_id := "B"; Seller.stock := 0 |};
      {| Seller.offer_id := "C"; Seller.stock := 42 |};
      ozon_defaulted "D"]
     = matched ++ map ozon_defaulted ["D"] /\
     Forall2 (fun r s => Seller.offer_id s = Kod r /\
                         resolves (Kolichestvo r) (Seller.stock s))
             (matched_rows [feed_row "A" ">10" ""; feed_row "B" "1" "";
                            feed_row "C" "42" ""]
                           ["A"; "B"; "C"; "D"]) matched) /\
  (exists matched,
     [market_record "fbs" "2024-01-15T10:30:00Z" "A" 100;
      market_record "fbs" "2024-01-15T10:30:00Z" "D" 0]
     = matched ++ map (fun i => market_record
                                  "fbs" (timestamp (state_of ["A"; "D"])) i 0)
                      ["D"] /\
     Forall2 (fun r s => Market.sku s = Kod r /\
                         exists q, market_quantities s = [q] /\
                                   resolves (Kolichestvo r) q)
             (matched_rows [feed_row "A" ">10" ""] ["A"; "D"]) matched) /\
  (fst (Seller.create_stocks [feed_row "A" "5" ""; feed_row "B" "abc" ""]
                             (state_of ["A"; "B"])) = inl Py.ValueError /\
   forall w,
     fst (Market.create_stocks [feed_row "A" "5" ""; feed_row "B" "abc" ""]
                               w (state_of ["A"; "B"])) = inl Py.ValueError) /\
  ((exists out st',
      Seller.create_stocks [feed_row "A" "5" ""] (state_of ["A"; "B"])
      = (inr out, st')) /\
   forall w, exists out st',
     Market.create_stocks [feed_row "A" "5" ""] w (state_of ["A"; "B"])
     = (inr out, st')).
Proof.
  split; [|split; [|split]].
  - apply (proj1 (create_stocks_quantity_rule
                    [feed_row "A" ">10" ""; feed_row "B" "1" "";
                     feed_row "C" "42" ""]
                    (state_of ["A"; "B"; "C"; "D"]))
                 _ (state_of ["D"])).
    reflexivity.
  - apply (proj1 (proj2 (create_stocks_quantity_rule
                           [feed_row "A" ">10" ""] (state_of ["A"; "D"])))
                 "fbs" _
                 {| offer_ids := ["D"]; clock := fun _ => epoch;
                    reads := 1 |}).
    reflexivity.
  - apply (proj1 (proj2 (proj2 (create_stocks_quantity_rule
                                  [feed_row "A" "5" ""; feed_row "B" "abc" ""]
                                  (state_of ["A"; "B"]))))).
    exists (feed_row "B" "abc" ""). split.
    + simpl. right. now left.
    + split; [discriminate|split; [discriminate|reflexivity]].
  - apply (proj2 (proj2 (proj2 (create_stocks_quantity_rule
                                  [feed_row "A" "5" ""]
                                  (state_of ["A"; "B"]))))).
    repeat constructor. exists 5. right. right.
    split; [discriminate|split; [discriminate|reflexivity]].
Defined.

Lemma resolve_quantity_nonneg (count : string) (q : Z) :
  occurs "-"%char count = false ->
  resolve_quantity count = inr q -> 0 <= q.
Proof.
  intros Hminus. unfold resolve_quantity.
  destruct (String.eqb count ">10"); [intros [= <-]; lia|].
  destruct (String.eqb count "1"); [intros [= <-]; lia|].
  now apply int_without_minus_nonneg.
Qed.

Lemma taken_nonneg (rows : list row) (ids : list string)
  (taken : list (row * Z)) (rest : list string) :
  (forall r, In r (matched_rows rows ids) ->
             occurs "-"%char (Kolichestvo r) = false) ->
  match_rows rows ids = (inr taken, rest) ->
  Forall (fun p => 0 <= snd p) taken.
Proof.
  intros Hminus Hrun. destruct (match_rows_taken _ _ _ _ Hrun) as [Hm Hqs].
  rewrite <- Hm in Hminus. apply Forall_forall. intros [r q] Hp.
  rewrite Forall_forall in Hqs. specialize (Hqs _ Hp). simpl in *.
  apply (resolve_quantity_nonneg (Kolichestvo r)); [|exact Hqs].
  apply Hminus. now apply (in_map fst) in Hp.
Qed.

(** C3, as the code has it.  The records of a call that returns report
    integers; none is negative when no matched row has a minus sign in its
    count. *)
Theorem create_stocks_nonnegative_without_minus (rows : list row)
  (st : state) :
  (forall r, In r (matched_rows rows (offer_ids st)) ->
             occurs "-"%char (Kolichestvo r) = false) ->
  (forall out st',
     Seller.create_stocks rows st = (inr out, st') ->
     quantities_nonnegative out) /\
  (forall w out st',
     Market.create_stocks rows w st = (inr out, st') ->
     Forall (fun s => Forall (fun q => 0 <= q) (market_quantities s)) out).
Proof.
  intros Hminus. split.
  - intros out st' Hrun.
    apply seller_create_stocks_returns in Hrun
      as (taken & rest & Hrun & -> & _).
    apply (taken_nonneg _ _ _ _ Hminus) in Hrun.
    apply Forall_app. split; apply Forall_map.
    + exact Hrun.
    + apply Forall_forall. intros i _. simpl. lia.
  - intros w out st' Hrun.
    apply market_create_stocks_returns in Hrun
      as (taken & rest & Hrun & -> & _).
    apply (taken_nonneg _ _ _ _ Hminus) in Hrun.
    apply Forall_app. split; apply Forall_map.
    + eapply Forall_impl; [|exact Hrun]. intros p Hp. now repeat constructor.
    + apply Forall_forall. intros i _. repeat constructor. simpl. lia.
Qed.

Lemma create_stocks_nonnegative_without_minus_witness :
  (forall r,
     In r (matched_rows [feed_row "123" "5" ""] ["123"; "456"]) ->
     occurs "-"%char (Kolichestvo r) = false) /\
  quantities_nonnegative
    [{| Seller.offer_id := "123"; Seller.stock := 5 |};
     ozon_defaulted "456"] /\
  Forall (fun s => Forall (fun q => 0 <= q) (market_quantities s))
    [market_record "fbs" "2024-01-15T10:30:00Z" "123" 5;
     market_record "fbs" "2024-01-15T10:30:00Z" "456" 0].
Proof.
  assert (Hminus : forall r,
             In r (matched_rows [feed_row "123" "5" ""] ["123"; "456"]) ->
             occurs "-"%char (Kolichestvo r) = false).
  { intros r [<-|[]]. reflexivity. }
  split; [exact Hminus|]. split.
  - apply (proj1 (create_stocks_nonnegative_without_minus
                    [feed_row "123" "5" ""] (state_of ["123"; "456"]) Hminus)
                 _ (state_of ["456"])).
    reflexivity.
  - apply (proj2 (create_stocks_nonnegative_without_minus
                    [feed_row "123" "5" ""] (state_of ["123"; "456"]) Hminus)
                 "fbs" _
                 {| offer_ids := ["456"]; clock := fun _ => epoch;
                    reads := 1 |}).
    reflexivity.
Defined.

(** C3, as it is worded, fails: the count "-5" is an integer literal, and
    the record reports -5. *)
Lemma create_stocks_negative_quantity :
  exists out st',
    Seller.create_stocks [feed_row "A" "-5" ""] (state_of ["A"])
    = (inr out, st') /\
    ~ quantities_nonnegative out.
Proof.
  exists [{| Seller.offer_id := "A"; Seller.stock := -5 |}], (state_of []).
  split; [reflexivity|].
  intros H. inversion H as [|s l Hs _]. simpl in Hs. lia.
Qed.

(** ** The claims about the Price Reconciler *)



Lemma match_rows_remaining (rows : list row) :
  forall ids taken rest,
    match_rows rows ids = (inr taken, rest) -> rest = remaining rows ids.
Proof.
  induction rows as [|r rows IH]; intros ids taken rest; simpl.
  - now intros [= _ <-].
  - destruct (Py.contains (Kod r) ids) eqn:Hin; [|apply IH].
    destruct (resolve_quantity (Kolichestvo r)) as [e|q]; [discriminate|].
    destruct (Py.remove (Kod r) ids) as [e|ids'] eqn:Hrm; [discriminate|].
    rewrite (without_remove _ _ _ Hrm).
    destruct (match_rows rows ids') as [[e|taken'] rest'] eqn:Hrec;
      [discriminate|].
    intros [= _ <-]. now apply (IH _ _ _ Hrec).
Qed.

(** C8. [create_prices] returns and leaves the list of identifiers, and
    all of the state, as it found it.  [create_stocks] does not: whether
    it returns or raises, the list it leaves is the working list of its
    matching pass; and when every row the pass takes has a readable
    count, it returns and has removed from the list one occurrence of the
    identifier of each of these rows, so that the list has lost as many
    entries as rows were matched. *)
Theorem create_prices_keeps_offer_ids (rows : list row) (st : state) :
  (exists prices, Seller.create_prices rows st = (inr prices, st)) /\
  snd (Seller.create_stocks rows st)
  = with_offer_ids st (snd (match_rows rows (offer_ids st))) /\
  (Forall (fun r => readable_quantity (Kolichestvo r))
          (matched_rows rows (offer_ids st)) ->
   (exists stocks,
      Seller.create_stocks rows st
      = (inr stocks, with_offer_ids st (remaining rows (offer_ids st)))) /\
   Permutation (map Kod (matched_rows rows (offer_ids st))
                ++ remaining rows (offer_ids st))
               (offer_ids st) /\
   (List.length (remaining rows (offer_ids st))
    + List.length (matched_rows rows (offer_ids st))
    = List.length (offer_ids st))%nat).
Proof.
  split; [eexists; apply seller_create_prices_eq|].
  split.
  { rewrite seller_create_stocks_eq.
    now destruct (match_rows rows (offer_ids st)) as [[e|taken] rest]. }
  intros (taken & rest & Hrun)%match_rows_readable.
  pose proof (match_rows_remaining _ _ _ _ Hrun) as Hrest.
  destruct (match_rows_taken _ _ _ _ Hrun) as [Htaken _].
  pose proof (match_rows_permutation _ _ _ _ Hrun) as Hperm.
  rewrite <- map_map, Htaken, Hrest in Hperm.
  split; [|split].
  - rewrite seller_create_stocks_eq, Hrun, Hrest. now eexists.
  - exact Hperm.
  - apply Permutation_length in Hperm.
    rewrite length_app, length_map in Hperm. lia.
Qed.

Lemma create_prices_keeps_offer_ids_witness :
  Forall (fun r => readable_quantity (Kolichestvo r))
         (matched_rows [feed_row "123" "5" "5'990.00 руб."]
                       ["123"; "456"]) /\
  (exists stocks,
     Seller.create_stocks [feed_row "123" "5" "5'990.00 руб."]
                          (state_of ["123"; "456"])
     = (inr stocks, state_of ["456"])) /\
  (exists prices,
     Seller.create_prices [feed_row "123" "5" "5'990.00 руб."]
                          (state_of ["123"; "456"])
     = (inr prices, state_of ["123"; "456"])).
Proof.
  assert (Hreadable :
            Forall (fun r => readable_quantity (Kolichestvo r))
                   (matched_rows [feed_row "123" "5" "5'990.00 руб."]
                                 ["123"; "456"])).
  { repeat constructor. exists 5. right. right.
    split; [discriminate|split; [discriminate|reflexivity]]. }
  split; [exact Hreadable|]. split.
  - exact (proj1 (proj2 (proj2 (create_prices_keeps_offer_ids
                                  [feed_row "123" "5" "5'990.00 руб."]
                                  (state_of ["123"; "456"])))
                        Hreadable)).
  - exact (proj1 (create_prices_keeps_offer_ids
                    [feed_row "123" "5" "5'990.00 руб."]
                    (state_of ["123"; "456"]))).
Defined.




(** ** market.py as it is shipped *)


(** What the text of [create_stocks] of market.py says: the clock is read
    exactly once, whether the call returns or raises, and every record
    returned, matched or defaulted, holds one item whose [updatedAt] is
    the timestamp made from that reading. *)
Lemma market_create_stocks_timestamp (rows : list row) (w : string)
  (st : state) :
  reads (snd (Market.create_stocks rows w st)) = S (reads st) /\
  forall out,
    fst (Market.create_stocks rows w st) = inr out ->
    Forall (fun s => exists q,
              Market.items s = [{| Market.count := q;
                                   Market.type_ := "FIT";
                                   Market.updatedAt := timestamp st |}]) out.
Proof.
  rewrite market_create_stocks_eq. cbn zeta.
  destruct (match_rows rows (offer_ids st)) as [[e|taken] rest];
    (split; [reflexivity|]); simpl; intros out; [discriminate|].
  intros [= <-].
  apply Forall_app. split; apply Forall_map, Forall_forall.
  - intros p _. now exists (snd p).
  - intros i _. now exists 0.
Qed.

(** * Beyond the claims *)

(** ** The Price Normalizer, again *)

Lemma digit_is_not_point (c : ascii) :
  Py.is_ascii_digit c = true -> Ascii.eqb c "."%char = false.
Proof.
  destruct c as [[] [] [] [] [] [] [] []]; cbv; intros H;
    try discriminate H; reflexivity.
Qed.

Lemma digits_have_no_point (s : string) :
  all_digits s = true -> before_first_point s = s.
Proof.
  induction s as [|c s IH]; simpl; [reflexivity|].
  intros [Hc Hs]%andb_true_iff.
  rewrite (digit_is_not_point c Hc). now rewrite IH.
Qed.

Lemma digits_are_kept (s : string) :
  all_digits s = true -> only_digits s = s.
Proof.
  induction s as [|c s IH]; simpl; [reflexivity|].
  intros [Hc Hs]%andb_true_iff. rewrite Hc. now rewrite IH.
Qed.

(** X1. [price_conversion] always returns a string of ASCII digits, and
    converting that string again changes nothing. *)
Theorem price_conversion_idempotent (price : string) :
  exists digits,
    Seller.price_conversion price = inr digits /\
    all_digits digits = true /\
    Seller.price_conversion digits = inr digits.
Proof.
  exists (normalized_price price).
  pose proof (only_digits_all_digits (before_first_point price)) as Hd.
  fold (normalized_price price) in Hd.
  split; [apply price_conversion_normalizes|]. split; [exact Hd|].
  rewrite price_conversion_normalizes. unfold normalized_price at 1.
  now rewrite (digits_have_no_point _ Hd), (digits_are_kept _ Hd).
Qed.

(** ** The Chunker, again *)

Lemma range_length_ceiling (len n : Z) :
  0 < n -> 0 <= len -> Py.range_length 0 len n = (len + n - 1) / n.
Proof.
  intros Hn Hlen. unfold Py.range_length.
  destruct (Z.ltb_spec 0 n) as [_|?]; [|lia].
  destruct (Z.ltb_spec 0 len) as [Hpos|Hzero].
  - rewrite Z.sub_0_r.
    replace (len + n - 1) with (len - 1 + 1 * n) by lia.
    now rewrite Z.div_add by lia.
  - assert (len = 0) as -> by lia. simpl.
    symmetry. apply Z.div_small. lia.
Qed.

Lemma range_starts_inside (len n : Z) (k : nat) :
  0 < n -> 0 <= len ->
  (k < Z.to_nat (Py.range_length 0 len n))%nat ->
  (k * Z.to_nat n < Z.to_nat len)%nat.
Proof.
  intros Hn Hlen. unfold Py.range_length.
  destruct (Z.ltb_spec 0 n) as [_|?]; [|lia].
  destruct (Z.ltb_spec 0 len) as [Hpos|Hzero]; [|simpl; lia].
  rewrite Z.sub_0_r. intros Hk.
  pose proof (Z.div_mod (len - 1) n ltac:(lia)) as Hdm.
  pose proof (Z.mod_pos_bound (len - 1) n Hn) as Hmod.
  assert (Hq : 0 <= (len - 1) / n) by (apply Z.div_pos; lia).
  set (q := (len - 1) / n) in *.
  apply Nat2Z.inj_lt. rewrite Nat2Z.inj_mul, !Z2Nat.id by lia.
  assert (Z.of_nat k <= q) by lia. nia.
Qed.

(** The chunks of a list: how many, how large, and what they hold. *)
Lemma divide_batches {A : Type} (lst : list A) (n : Z) :
  0 < n ->
  exists chunks,
    Seller.divide lst n = inr chunks /\
    List.concat chunks = lst /\
    Py.len chunks = (Py.len lst + n - 1) / n /\
    Forall (fun c => 1 <= Py.len c <= n) chunks.
Proof.
  intros Hn. rewrite (divide_as_chunks lst n Hn). eexists.
  split; [reflexivity|].
  assert (Hlen : 0 <= Py.len lst) by (unfold Py.len; lia).
  split; [|split].
  - destruct (range_from_zero (Py.len lst) n Hn Hlen) as (Hcover & _).
    unfold Py.len in Hcover. rewrite Nat2Z.id in Hcover.
    rewrite concat_chunks. now apply firstn_all2.
  - unfold Py.len at 1. rewrite length_map, length_seq, Z2Nat.id.
    + now apply range_length_ceiling.
    + rewrite range_length_ceiling by assumption. apply Z.div_pos; lia.
  - apply Forall_map, Forall_forall. intros k Hk.
    apply in_seq in Hk as [_ Hk]. simpl in Hk.
    apply (range_starts_inside _ _ _ Hn Hlen) in Hk.
    unfold Py.len in *. rewrite Nat2Z.id in Hk.
    unfold chunk_at. rewrite length_firstn, length_skipn. lia.
Qed.

(** X2. For a chunk size [n > 0], [divide] returns the ceiling of
    [len(lst) / n] chunks, and every chunk holds at least one and at most
    [n] items. *)
Theorem divide_count_and_bounds {A : Type} (lst : list A) (n : Z) :
  0 < n ->
  exists chunks,
    Seller.divide lst n = inr chunks /\
    Py.len chunks = (Py.len lst + n - 1) / n /\
    Forall (fun c => 1 <= Py.len c <= n) chunks.
Proof.
  intros Hn. destruct (divide_batches lst n Hn) as (chunks & H & _ & Hc & Hb).
  now exists chunks.
Qed.

Lemma divide_count_and_bounds_witness :
  0 < 100 /\
  exists chunks,
    Seller.divide (repeat tt 250) 100 = inr chunks /\
    Py.len chunks = (Py.len (repeat tt 250) + 100 - 1) / 100 /\
    Forall (fun c => 1 <= Py.len c <= 100) chunks.
Proof.
  split; [lia|]. apply (divide_count_and_bounds (repeat tt 250) 100). lia.
Defined.

(** ** The reconcilers, again *)

Lemma remove_subset (x : string) (l l' : list string) :
  Py.remove x l = inr l' -> forall i, In i l' -> In i l.
Proof.
  intros Hrm i Hi. apply remove_permutation in Hrm.
  apply (Permutation_in _ Hrm). now right.
Qed.

(** The matching pass never looks at a row whose identifier the list it
    started from does not hold. *)
Lemma match_rows_known_rows (rows : list row) (ids : list string) :
  forall working,
    (forall i, In i working -> In i ids) ->
    match_rows (known_rows rows ids) working = match_rows rows working.
Proof.
  induction rows as [|r rows IH]; intros working Hsub; [reflexivity|].
  unfold known_rows. cbn [filter]. fold (known_rows rows ids).
  destruct (Py.contains (Kod r) ids) eqn:Hknown; cbn [match_rows].
  - destruct (Py.contains (Kod r) working); [|now apply IH].
    destruct (resolve_quantity (Kolichestvo r)); [reflexivity|].
    destruct (Py.remove (Kod r) working) as [e|working'] eqn:Hrm;
      [reflexivity|].
    rewrite IH; [reflexivity|].
    intros i Hi. apply Hsub. now apply (remove_subset _ _ _ Hrm).
  - destruct (Py.contains (Kod r) working) eqn:Hin; [|now apply IH].
    apply contains_In, Hsub, contains_In in Hin. congruence.
Qed.

Lemma known_rows_twice (rows : list row) (ids : list string) :
  known_rows (known_rows rows ids) ids = known_rows rows ids.
Proof.
  unfold known_rows. rewrite filter_twice. apply filter_ext.
  intros r. now destruct (Py.contains (Kod r) ids).
Qed.

(** X3. The rows whose identifier is not in the list have no influence:
    two feeds with the same rows of known identifiers give the same
    outcome, records or exception, and leave the same list, for both
    reconcilers of both files.  In particular a count or a price that
    cannot be read harms only in a row of a known identifier. *)
Theorem unknown_rows_have_no_influence (rows rows' : list row) (st : state) :
  known_rows rows (offer_ids st) = known_rows rows' (offer_ids st) ->
  Seller.create_stocks rows st = Seller.create_stocks rows' st /\
  (forall w,
     Market.create_stocks rows w st = Market.create_stocks rows' w st) /\
  Seller.create_prices rows st = Seller.create_prices rows' st /\
  Market.create_prices rows st = Market.create_prices rows' st.
Proof.
  intros Hknown.
  assert (Hmatch : match_rows rows (offer_ids st)
                   = match_rows rows' (offer_ids st)).
  { rewrite <- (match_rows_known_rows rows (offer_ids st)) by auto.
    rewrite <- (match_rows_known_rows rows' (offer_ids st)) by auto.
    now rewrite Hknown. }
  split; [now rewrite !seller_create_stocks_eq, Hmatch|].
  split; [intros w; now rewrite !market_create_stocks_eq, Hmatch|].
  split; [now rewrite !seller_create_prices_eq, Hknown|].
  now rewrite !market_create_prices_eq, Hknown.
Qed.

Lemma unknown_rows_have_no_influence_witness :
  known_rows [feed_row "A" "3" "1.00"; feed_row "D" "abc" "?"] ["A"; "B"]
  = known_rows [feed_row "A" "3" "1.00"] ["A"; "B"] /\
  Seller.create_stocks [feed_row "A" "3" "1.00"; feed_row "D" "abc" "?"]
                       (state_of ["A"; "B"])
  = Seller.create_stocks [feed_row "A" "3" "1.00"] (state_of ["A"; "B"]).
Proof.
  split; [reflexivity|].
  apply (unknown_rows_have_no_influence
           [feed_row "A" "3" "1.00"; feed_row "D" "abc" "?"]
           [feed_row "A" "3" "1.00"] (state_of ["A"; "B"])).
  reflexivity.
Defined.

(** X4. A feed that names no identifier of the list, an empty feed among
    them, makes [create_stocks] report the quantity 0 for every
    identifier, in the order of the list, which it leaves as it is; and
    [create_prices] returns no record.  Neither raises. *)
Theorem feed_without_known_rows (rows : list row) (st : state) :
  known_rows rows (offer_ids st) = [] ->
  Seller.create_stocks rows st
  = (inr (map ozon_defaulted (offer_ids st)), st) /\
  (forall w,
     fst (Market.create_stocks rows w st)
     = inr (map (fun i => market_record w (timestamp st) i 0)
                (offer_ids st)) /\
     offer_ids (snd (Market.create_stocks rows w st)) = offer_ids st) /\
  Seller.create_prices rows st = (inr [], st) /\
  Market.create_prices rows st = (inr [], st).
Proof.
  intros Hnone.
  assert (Hmatch : match_rows rows (offer_ids st) = (inr [], offer_ids st)).
  { rewrite <- (match_rows_known_rows rows (offer_ids st)) by auto.
    now rewrite Hnone. }
  split; [|split; [|split]].
  - rewrite seller_create_stocks_eq, Hmatch. simpl.
    now rewrite with_offer_ids_same.
  - intros w. rewrite market_create_stocks_eq, Hmatch. now split.
  - now rewrite seller_create_prices_eq, Hnone.
  - now rewrite market_create_prices_eq, Hnone.
Qed.

Lemma feed_without_known_rows_witness :
  known_rows [feed_row "D" "7" "1.00"] ["A"; "B"] = [] /\
  Seller.create_stocks [feed_row "D" "7" "1.00"] (state_of ["A"; "B"])
  = (inr (map ozon_defaulted ["A"; "B"]), state_of ["A"; "B"]).
Proof.
  split; [reflexivity|].
  apply (feed_without_known_rows [feed_row "D" "7" "1.00"]
                                 (state_of ["A"; "B"])).
  reflexivity.
Defined.

(** X5. [create_stocks] returns one record per entry of the list it is
    given, duplicates included: the identifiers of the records are the
    entries of the list in some order, so that there are as many records
    as entries, whatever the feed. *)
Theorem create_stocks_one_record_per_entry (rows : list row) (st : state) :
  (forall out st',
     Seller.create_stocks rows st = (inr out, st') ->
     Permutation (map Seller.offer_id out) (offer_ids st) /\
     List.length out = List.length (offer_ids st)) /\
  (forall w out st',
     Market.create_stocks rows w st = (inr out, st') ->
     Permutation (map Market.sku out) (offer_ids st) /\
     List.length out = List.length (offer_ids st)).
Proof.
  split.
  - intros out st' Hrun.
    apply seller_create_stocks_permutation in Hrun.
    split; [exact Hrun|].
    apply Permutation_length in Hrun. now rewrite length_map in Hrun.
  - intros w out st' Hrun.
    apply market_create_stocks_permutation in Hrun.
    split; [exact Hrun|].
    apply Permutation_length in Hrun. now rewrite length_map in Hrun.
Qed.

Lemma create_stocks_one_record_per_entry_witness :
  Permutation
    (map Seller.offer_id
       [{| Seller.offer_id := "a"; Seller.stock := 5 |};
        {| Seller.offer_id := "a"; Seller.stock := 6 |};
        ozon_defaulted "b"])
    ["a"; "b"; "a"] /\
  List.length
    [{| Seller.offer_id := "a"; Seller.stock := 5 |};
     {| Seller.offer_id := "a"; Seller.stock := 6 |};
     ozon_defaulted "b"]
  = List.length ["a"; "b"; "a"].
Proof.
  apply (proj1 (create_stocks_one_record_per_entry
                  [feed_row "a" "5" ""; feed_row "a" "6" ""]
                  (state_of ["a"; "b"; "a"]))
               _ (state_of ["b"])).
  reflexivity.
Defined.

Lemma known_rows_of_unmatched (rows : list row) (ids : list string) :
  known_rows rows (unmatched rows ids) = [].
Proof.
  unfold known_rows, unmatched.
  assert (H : forall l, (forall r, In r l -> In (Kod r) (map Kod rows)) ->
    filter (fun r => Py.contains (Kod r)
                       (filter (fun i => negb (Py.contains i (map Kod rows)))
                               ids)) l = []).
  { induction l as [|r l IH]; intros Hl; simpl; [reflexivity|].
    rewrite contains_filter.
    assert (Hr : Py.contains (Kod r) (map Kod rows) = true)
      by (apply contains_In, Hl; now left).
    rewrite Hr, andb_false_r. apply IH. intros r' Hr'. apply Hl. now right. }
  apply H. intros r Hr. now apply in_map.
Qed.

(** X6. The list [create_stocks] has worked on is of no use to
    [create_prices]: when it held no duplicate, what is left of it after
    a call that returns are the identifiers the feed does not name, and
    [create_prices] on that list returns no record at all.  This is the
    order [main] of seller.py calls them in, on one list. *)
Theorem create_prices_after_create_stocks (rows : list row) (st st' : state)
  (stocks : list Seller.StockItem) :
  NoDup (offer_ids st) ->
  Seller.create_stocks rows st = (inr stocks, st') ->
  offer_ids st' = unmatched rows (offer_ids st) /\
  Seller.create_prices rows st' = (inr [], st').
Proof.
  intros Hids Hrun.
  apply seller_create_stocks_returns in Hrun
    as (taken & rest & Hrun & _ & Hrest).
  destruct (match_rows_NoDup _ _ _ _ Hids Hrun) as [_ ->].
  split; [exact Hrest|].
  rewrite seller_create_prices_eq, Hrest.
  now rewrite known_rows_of_unmatched.
Qed.

Lemma create_prices_after_create_stocks_witness :
  NoDup ["123"; "456"] /\
  offer_ids (state_of ["456"])
  = unmatched [feed_row "123" "5" "5'990.00 руб."] ["123"; "456"] /\
  Seller.create_prices [feed_row "123" "5" "5'990.00 руб."]
                       (state_of ["456"])
  = (inr [], state_of ["456"]).
Proof.
  assert (Hids : NoDup ["123"; "456"])
    by (repeat constructor; simpl; intuition congruence).
  split; [exact Hids|].
  apply (create_prices_after_create_stocks
           [feed_row "123" "5" "5'990.00 руб."] (state_of ["123"; "456"])
           (state_of ["456"])
           [{| Seller.offer_id := "123"; Seller.stock := 5 |};
            ozon_defaulted "456"] Hids).
  reflexivity.
Defined.

(** ** Facts about the computations *)

Lemma with_sent_twice (w : Net.world) (s s' : list Net.request) :
  Net.with_sent (Net.with_sent w s) s' = Net.with_sent w s'.
Proof. reflexivity. Qed.

Lemma with_sent_same (w : Net.world) : Net.with_sent w (Net.sent w) = w.
Proof. now destruct w. Qed.

(** ** Listing the identifiers of a shop *)

(** The loop of seller.py gathers the pages it is served, up to the first
    page whose total is the number of products gathered. *)
Lemma ozon_loop_returns (client_id seller_token : string)
  (pages : list Net.ozon_result) :
  forall fuel last_id acc w,
    ozon_serves (Net.outside w) client_id seller_token (Net.sent w) last_id
      pages ->
    ozon_complete acc pages ->
    (List.length pages <= fuel)%nat ->
    SellerSync.get_offer_ids_loop fuel client_id seller_token last_id acc w
    = Some (inr (acc ++ ozon_products pages),
            Net.with_sent w
              (Net.sent w ++
               map (Net.OzonProductList client_id seller_token)
                   (ozon_tokens last_id pages))).
Proof.
  induction pages as [|p ps IH]; intros fuel last_id acc w Hserved Hdone Hfuel;
    [contradiction|].
  destruct fuel as [|fuel]; [simpl in Hfuel; lia|].
  destruct Hserved as [Hp Hps].
  cbn [SellerSync.get_offer_ids_loop]. unfold Net.bind at 1.
  unfold SellerSync.get_product_list, Net.exchange. rewrite Hp.
  cbn [ozon_complete] in Hdone. destruct ps as [|p' ps].
  - rewrite Hdone, Z.eqb_refl. unfold Net.ret, ozon_products. simpl.
    now rewrite app_nil_r.
  - destruct Hdone as [Hmore Hdone].
    apply Z.eqb_neq in Hmore. rewrite Hmore.
    rewrite (IH fuel (Net.result_last_id p) (acc ++ Net.result_items p)
                (Net.with_sent w
                   (Net.sent w ++
                    [Net.OzonProductList client_id seller_token last_id])));
      [|exact Hps|exact Hdone|simpl in Hfuel |- *; lia].
    rewrite with_sent_twice. cbn [Net.sent Net.with_sent].
    unfold ozon_products. cbn [map List.concat ozon_tokens].
    now rewrite <- !app_assoc.
Qed.

Lemma ozon_loop_returned (client_id seller_token : string) :
  forall fuel last_id acc w out w',
    SellerSync.get_offer_ids_loop fuel client_id seller_token last_id acc w
    = Some (inr out, w') ->
    exists pages,
      (List.length pages <= fuel)%nat /\
      ozon_serves (Net.outside w) client_id seller_token (Net.sent w)
        last_id pages /\
      ozon_complete acc pages /\
      out = acc ++ ozon_products pages /\
      w' = Net.with_sent w
             (Net.sent w ++
              map (Net.OzonProductList client_id seller_token)
                  (ozon_tokens last_id pages)).
Proof.
  induction fuel as [|fuel IH]; intros last_id acc w out w'; [discriminate|].
  cbn [SellerSync.get_offer_ids_loop]. unfold Net.bind at 1.
  unfold SellerSync.get_product_list, Net.exchange.
  destruct (Net.ozon_listing (Net.outside w) (Net.sent w)
              (Net.OzonProductList client_id seller_token last_id))
    as [e|p] eqn:Hp; [discriminate|].
  destruct (Z.eqb_spec (Net.result_total p)
                       (Py.len (acc ++ Net.result_items p))) as [Hdone|Hmore].
  - intros [= <- <-]. exists [p]. repeat split; simpl; try lia; auto.
    unfold ozon_products. simpl. now rewrite app_nil_r.
  - intros Hrun. apply IH in Hrun
      as (pages & Hlen & Hserved & Hdone & -> & ->).
    exists (p :: pages). repeat split.
    + simpl. lia.
    + exact Hp.
    + exact Hserved.
    + destruct pages as [|p' pages]; [contradiction|]. now split.
    + unfold ozon_products. cbn [map List.concat].
      now rewrite <- !app_assoc.
    + rewrite with_sent_twice. cbn [Net.sent Net.with_sent ozon_tokens map].
      now rewrite <- !app_assoc.
Qed.

(** X7. [get_offer_ids] of seller.py returns exactly when the outside
    serves, within the fuel, a run of pages, each asked for with the
    [last_id] of the page before and the first with the empty string,
    whose last page is the first to report a total equal to the number of
    products gathered.  It then returns the [offer_id] of the products of
    these pages, in order, and has sent these requests and no other. *)
Theorem seller_get_offer_ids_pages (fuel : nat)
  (client_id seller_token : string) (w w' : Net.world)
  (ids : list string) :
  SellerSync.get_offer_ids fuel client_id seller_token w = Some (inr ids, w')
  <->
  exists pages,
    (List.length pages <= fuel)%nat /\
    ozon_serves (Net.outside w) client_id seller_token (Net.sent w) ""
      pages /\
    ozon_complete [] pages /\
    ids = map Net.product_offer_id (ozon_products pages) /\
    w' = Net.with_sent w
           (Net.sent w ++
            map (Net.OzonProductList client_id seller_token)
                (ozon_tokens "" pages)).
Proof.
  unfold SellerSync.get_offer_ids, Net.bind. split.
  - destruct (SellerSync.get_offer_ids_loop fuel client_id seller_token
                "" [] w) as [[[e|out] w1]|] eqn:Hloop; try discriminate.
    intros [= <- <-]. apply ozon_loop_returned in Hloop
      as (pages & Hlen & Hserved & Hdone & -> & ->).
    now exists pages.
  - intros (pages & Hlen & Hserved & Hdone & -> & ->).
    now rewrite (ozon_loop_returns _ _ pages fuel "" [] w Hserved Hdone Hlen).
Qed.

Lemma ozon_loop_overshoot (client_id seller_token : string) (rm : Net.remote)
  (limit : Z) :
  (forall sent q, exists p,
      Net.ozon_listing rm sent q = inr p /\ Net.result_total p <= limit) ->
  forall fuel last_id acc w,
    Net.outside w = rm ->
    limit < Py.len acc ->
    SellerSync.get_offer_ids_loop fuel client_id seller_token last_id acc w
    = None.
Proof.
  intros Hanswers. induction fuel as [|fuel IH]; intros last_id acc w Hrm Hacc;
    [reflexivity|].
  cbn [SellerSync.get_offer_ids_loop]. unfold Net.bind at 1.
  unfold SellerSync.get_product_list, Net.exchange. rewrite Hrm.
  destruct (Hanswers (Net.sent w)
              (Net.OzonProductList client_id seller_token last_id))
    as (p & -> & Htotal).
  assert (Hgrown : limit < Py.len (acc ++ Net.result_items p)).
  { unfold Py.len in *. rewrite length_app. lia. }
  destruct (Z.eqb_spec (Net.result_total p)
                       (Py.len (acc ++ Net.result_items p))); [lia|].
  now apply IH.
Qed.

(** X8. [get_offer_ids] of seller.py stops only on a total equal to the
    number of products gathered.  When every answer reports a total of at
    most [limit] and the first page alone holds more products than that,
    the count has passed every total it will be compared with, and the
    call never returns, whatever the fuel. *)
Theorem seller_get_offer_ids_never_returns (client_id seller_token : string)
  (w : Net.world) (limit : Z) :
  (forall sent q, exists p,
      Net.ozon_listing (Net.outside w) sent q = inr p /\
      Net.result_total p <= limit) ->
  (forall p,
      Net.ozon_listing (Net.outside w) (Net.sent w)
        (Net.OzonProductList client_id seller_token "") = inr p ->
      limit < Py.len (Net.result_items p)) ->
  forall fuel,
    SellerSync.get_offer_ids fuel client_id seller_token w = None.
Proof.
  intros Hanswers Hfirst fuel. unfold SellerSync.get_offer_ids, Net.bind.
  destruct fuel as [|fuel]; [reflexivity|].
  cbn [SellerSync.get_offer_ids_loop]. unfold Net.bind at 1.
  unfold SellerSync.get_product_list, Net.exchange.
  destruct (Hanswers (Net.sent w)
              (Net.OzonProductList client_id seller_token ""))
    as (p & Hp & Htotal).
  rewrite Hp. specialize (Hfirst p Hp). cbn [app].
  destruct (Z.eqb_spec (Net.result_total p) (Py.len (Net.result_items p)));
    [lia|].
  now rewrite (ozon_loop_overshoot client_id seller_token (Net.outside w)
                 limit Hanswers).
Qed.

Lemma seller_get_offer_ids_pages_witness :
  SellerSync.get_offer_ids 2 "id" "token" (fresh_world shop)
  = Some (inr ["a"; "b"; "c"],
          Net.with_sent (fresh_world shop)
            [Net.OzonProductList "id" "token" "";
             Net.OzonProductList "id" "token" "b"]).
Proof.
  apply (proj2 (seller_get_offer_ids_pages 2 "id" "token" (fresh_world shop)
                  _ ["a"; "b"; "c"])).
  exists [{| Net.result_items := [{| Net.product_offer_id := "a" |};
                                  {| Net.product_offer_id := "b" |}];
             Net.result_total := 3; Net.result_last_id := "b" |};
          {| Net.result_items := [{| Net.product_offer_id := "c" |}];
             Net.result_total := 3; Net.result_last_id := "" |}].
  repeat split; simpl; try reflexivity; try lia. discriminate.
Defined.

Lemma seller_get_offer_ids_never_returns_witness :
  (forall sent q, exists p,
      Net.ozon_listing endless_shop sent q = inr p /\
      Net.result_total p <= 1) /\
  (forall p,
      Net.ozon_listing endless_shop []
        (Net.OzonProductList "id" "token" "") = inr p ->
      1 < Py.len (Net.result_items p)) /\
  forall fuel,
    SellerSync.get_offer_ids fuel "id" "token" (fresh_world endless_shop)
    = None.
Proof.
  assert (H1 : forall sent q, exists p,
             Net.ozon_listing endless_shop sent q = inr p /\
             Net.result_total p <= 1).
  { intros sent q. eexists. split; [reflexivity|]. simpl. lia. }
  assert (H2 : forall p,
             Net.ozon_listing endless_shop []
               (Net.OzonProductList "id" "token" "") = inr p ->
             1 < Py.len (Net.result_items p)).
  { intros p [= <-]. reflexivity. }
  split; [exact H1|]. split; [exact H2|].
  exact (seller_get_offer_ids_never_returns "id" "token"
           (fresh_world endless_shop) 1 H1 H2).
Defined.

(** The loop of seller.py raises as soon as a page is refused: the pages
    served before have not completed the listing, and the refused request
    is the last one sent. *)
Lemma ozon_loop_raises (client_id seller_token : string) (e : Net.exc)
  (pages : list Net.ozon_result) :
  forall fuel last_id acc w,
    ozon_serves (Net.outside w) client_id seller_token (Net.sent w) last_id
      pages ->
    ozon_incomplete acc pages ->
    Net.ozon_listing (Net.outside w)
      (Net.sent w ++
       map (Net.OzonProductList client_id seller_token)
           (ozon_tokens last_id pages))
      (Net.OzonProductList client_id seller_token (ozon_next last_id pages))
    = inl e ->
    (List.length pages < fuel)%nat ->
    SellerSync.get_offer_ids_loop fuel client_id seller_token last_id acc w
    = Some (inl e,
            Net.with_sent w
              (Net.sent w ++
               map (Net.OzonProductList client_id seller_token)
                   (ozon_tokens last_id pages
                    ++ [ozon_next last_id pages]))).
Proof.
  induction pages as [|p ps IH];
    intros fuel last_id acc w Hserved Hmore Hrefused Hfuel;
    (destruct fuel as [|fuel]; [simpl in Hfuel; lia|]);
    cbn [SellerSync.get_offer_ids_loop]; unfold Net.bind at 1;
    unfold SellerSync.get_product_list, Net.exchange.
  - cbn [ozon_tokens ozon_next map] in Hrefused.
    rewrite app_nil_r in Hrefused. now rewrite Hrefused.
  - destruct Hserved as [Hp Hps]. destruct Hmore as [Hmore Hrest].
    rewrite Hp. apply Z.eqb_neq in Hmore. rewrite Hmore.
    rewrite (IH fuel (Net.result_last_id p) (acc ++ Net.result_items p)
                (Net.with_sent w
                   (Net.sent w ++
                    [Net.OzonProductList client_id seller_token last_id]))).
    + rewrite with_sent_twice.
      cbn [Net.sent Net.with_sent ozon_tokens ozon_next map app].
      now rewrite <- !app_assoc.
    + exact Hps.
    + exact Hrest.
    + cbn [Net.outside Net.sent Net.with_sent].
      cbn [ozon_tokens ozon_next map] in Hrefused.
      rewrite <- app_assoc. exact Hrefused.
    + simpl in Hfuel. lia.
Qed.

Lemma ozon_loop_raised (client_id seller_token : string) :
  forall fuel last_id acc w e w',
    SellerSync.get_offer_ids_loop fuel client_id seller_token last_id acc w
    = Some (inl e, w') ->
    exists pages,
      (List.length pages < fuel)%nat /\
      ozon_serves (Net.outside w) client_id seller_token (Net.sent w)
        last_id pages /\
      ozon_incomplete acc pages /\
      Net.ozon_listing (Net.outside w)
        (Net.sent w ++
         map (Net.OzonProductList client_id seller_token)
             (ozon_tokens last_id pages))
        (Net.OzonProductList client_id seller_token
           (ozon_next last_id pages))
      = inl e /\
      w' = Net.with_sent w
             (Net.sent w ++
              map (Net.OzonProductList client_id seller_token)
                  (ozon_tokens last_id pages
                   ++ [ozon_next last_id pages])).
Proof.
  induction fuel as [|fuel IH]; intros last_id acc w e w'; [discriminate|].
  cbn [SellerSync.get_offer_ids_loop]. unfold Net.bind at 1.
  unfold SellerSync.get_product_list, Net.exchange.
  destruct (Net.ozon_listing (Net.outside w) (Net.sent w)
              (Net.OzonProductList client_id seller_token last_id))
    as [e'|p] eqn:Hp.
  - intros [= <- <-]. exists []. cbn [ozon_tokens ozon_next map app].
    rewrite app_nil_r. repeat split; [simpl; lia|exact Hp].
  - destruct (Z.eqb_spec (Net.result_total p)
                         (Py.len (acc ++ Net.result_items p)))
      as [Hdone|Hmore]; [discriminate|].
    intros Hrun. apply IH in Hrun
      as (pages & Hlen & Hserved & Hinc & Hrefused & ->).
    exists (p :: pages). repeat split.
    + simpl. lia.
    + exact Hp.
    + exact Hserved.
    + exact Hmore.
    + exact Hinc.
    + cbn [Net.outside Net.sent Net.with_sent] in Hrefused.
      cbn [ozon_tokens ozon_next map]. rewrite <- app_assoc in Hrefused.
      exact Hrefused.
    + rewrite with_sent_twice.
      cbn [Net.sent Net.with_sent ozon_tokens ozon_next map app].
      now rewrite <- !app_assoc.
Qed.

(** X11. [get_offer_ids] of seller.py neither asks again for a page that
    failed nor returns what it has gathered.  It raises exactly when the
    outside serves, within the fuel, a run of pages none of which
    completes the listing and answers the request that follows them with
    an exception: it raises that exception, and has sent the requests of
    these pages and the refused one, each once and nothing after. *)
Theorem seller_get_offer_ids_raises (fuel : nat)
  (client_id seller_token : string) (w w' : Net.world) (e : Net.exc) :
  SellerSync.get_offer_ids fuel client_id seller_token w = Some (inl e, w')
  <->
  exists pages,
    (List.length pages < fuel)%nat /\
    ozon_serves (Net.outside w) client_id seller_token (Net.sent w) ""
      pages /\
    ozon_incomplete [] pages /\
    Net.ozon_listing (Net.outside w)
      (Net.sent w ++
       map (Net.OzonProductList client_id seller_token)
           (ozon_tokens "" pages))
      (Net.OzonProductList client_id seller_token (ozon_next "" pages))
    = inl e /\
    w' = Net.with_sent w
           (Net.sent w ++
            map (Net.OzonProductList client_id seller_token)
                (ozon_tokens "" pages ++ [ozon_next "" pages])).
Proof.
  unfold SellerSync.get_offer_ids, Net.bind. split.
  - destruct (SellerSync.get_offer_ids_loop fuel client_id seller_token
                "" [] w) as [[[e'|out] w1]|] eqn:Hloop; try discriminate.
    intros [= <- <-]. now apply ozon_loop_raised in Hloop.
  - intros (pages & Hlen & Hserved & Hmore & Hrefused & ->).
    now rewrite (ozon_loop_raises _ _ e pages fuel "" [] w Hserved Hmore
                   Hrefused Hlen).
Qed.

Lemma seller_get_offer_ids_raises_witness :
  SellerSync.get_offer_ids 3 "id" "token" (fresh_world shop_losing_a_page)
  = Some (inl Net.ReadTimeout,
          Net.with_sent (fresh_world shop_losing_a_page)
            [Net.OzonProductList "id" "token" "";
             Net.OzonProductList "id" "token" "b"]).
Proof.
  apply (proj2 (seller_get_offer_ids_raises 3 "id" "token"
                  (fresh_world shop_losing_a_page) _ Net.ReadTimeout)).
  exists [{| Net.result_items := [{| Net.product_offer_id := "a" |};
                                  {| Net.product_offer_id := "b" |}];
             Net.result_total := 3; Net.result_last_id := "b" |}].
  repeat split; simpl; try reflexivity; try lia. discriminate.
Defined.

(** ** Submitting in batches *)

Section Submission.

Context {A : Type}.

(** The request a batch is sent as. *)
Variable mk : A -> Net.request.

(** The body of the submission loop, and what one round of it does. *)
Variable body : A -> Net.IO unit.

Hypothesis body_step : forall c w,
  body c w =
  Some (match Net.acknowledge (Net.outside w) (Net.sent w) (mk c) with
        | inl e => inl e
        | inr _ => inr tt
        end,
        Net.with_sent w (Net.sent w ++ [mk c])).

(** The batches accepted after an accepted first one. *)
Lemma accepted_next (c : A) (chunks : list A) (w : Net.world) (ack : string)
  (j : nat) :
  Net.acknowledge (Net.outside w) (Net.sent w) (mk c) = inr ack ->
  accepted mk chunks (Net.with_sent w (Net.sent w ++ [mk c])) j ->
  accepted mk (c :: chunks) w (S j).
Proof.
  intros Hack Hj [|i] c' Hi Hc'.
  - injection Hc' as <-. exists ack. simpl. now rewrite app_nil_r.
  - destruct (Hj i c' ltac:(lia) Hc') as [ack' Hack']. exists ack'.
    cbn [Net.outside Net.sent Net.with_sent firstn map] in *.
    now rewrite <- app_assoc in Hack'.
Qed.

Lemma submission_loop (chunks : list A) :
  forall w,
    exists k failure w',
      Net.for_ chunks body w = Some (outcome failure tt, w') /\
      submitted mk chunks w k failure w'.
Proof.
  induction chunks as [|c chunks IH]; intros w.
  - exists O, None, w. split; [reflexivity|].
    split; [simpl; lia|].
    split; [simpl; now rewrite app_nil_r, with_sent_same|].
    split; [reflexivity|]. intros i c' Hi. lia.
  - cbn [Net.for_]. unfold Net.bind. rewrite body_step.
    destruct (Net.acknowledge (Net.outside w) (Net.sent w) (mk c))
      as [e|ack] eqn:Hack.
    + exists 1%nat, (Some e), (Net.with_sent w (Net.sent w ++ [mk c])).
      split; [reflexivity|]. split; [simpl; lia|]. split; [reflexivity|].
      split; [lia|]. split; [intros i c' Hi; simpl in Hi; lia|].
      exists c. split; [reflexivity|]. simpl. now rewrite app_nil_r.
    + destruct (IH (Net.with_sent w (Net.sent w ++ [mk c])))
        as (k & failure & w' & Hrun & Hk & -> & Hend).
      exists (S k), failure,
        (Net.with_sent w (Net.sent w ++ map mk (firstn (S k) (c :: chunks)))).
      split; [|split; [|split]].
      * rewrite Hrun, with_sent_twice. cbn [Net.sent Net.with_sent firstn map].
        now rewrite <- app_assoc.
      * simpl. lia.
      * reflexivity.
      * destruct failure as [e|].
        -- destruct Hend as (Hpos & Hacc & c' & Hc' & Hanswer).
           split; [lia|]. destruct k as [|k]; [lia|]. cbn [pred] in *.
           split; [now apply (accepted_next c chunks w ack)|].
           exists c'. split; [exact Hc'|].
           cbn [Net.outside Net.sent Net.with_sent firstn map] in *.
           now rewrite <- app_assoc in Hanswer.
        -- destruct Hend as [-> Hacc]. split; [reflexivity|].
           now apply (accepted_next c chunks w ack).
Qed.

(** Batches that are all accepted are all sent, and the loop returns. *)
Lemma submission_accepted (chunks : list A) :
  forall w,
    accepted mk chunks w (List.length chunks) ->
    Net.for_ chunks body w
    = Some (inr tt, Net.with_sent w (Net.sent w ++ map mk chunks)).
Proof.
  induction chunks as [|c chunks IH]; intros w Hall.
  - simpl. unfold Net.ret. now rewrite app_nil_r, with_sent_same.
  - cbn [Net.for_]. unfold Net.bind. rewrite body_step.
    destruct (Hall O c ltac:(simpl; lia) eq_refl) as [ack Hack].
    simpl in Hack. rewrite app_nil_r in Hack. rewrite Hack.
    rewrite IH.
    + rewrite with_sent_twice. cbn [Net.sent Net.with_sent map].
      now rewrite <- app_assoc.
    + intros i c' Hi Hc'.
      destruct (Hall (S i) c' ltac:(simpl; lia) Hc') as [ack' Hack'].
      exists ack'. cbn [Net.outside Net.sent Net.with_sent firstn map] in *.
      now rewrite <- app_assoc.
Qed.

End Submission.

Lemma with_ticks_same (w : Net.world) : Net.with_ticks w (Net.ticks w) = w.
Proof. now destruct w. Qed.

(** A reconciler that returns in the world returns on the state made of
    the list and the clock of the world. *)
Lemma reconcile_returned {A : Type} (m : M A) (ids rest : list string)
  (w w' : Net.world) (a : A) :
  Net.reconcile m ids w = Some (inr (a, rest), w') ->
  exists st',
    m {| offer_ids := ids; clock := Net.now w; reads := Net.ticks w |}
    = (inr a, st') /\
    rest = offer_ids st' /\ w' = Net.with_ticks w (reads st').
Proof.
  unfold Net.reconcile.
  destruct (m _) as [[e|a'] st']; [discriminate|].
  intros [= <- <- <-]. now exists st'.
Qed.

Lemma reconcile_seller_prices (rows : list row) (ids : list string)
  (w : Net.world) :
  Net.reconcile (Seller.create_prices rows) ids w
  = Some (inr (map ozon_price (known_rows rows ids), ids), w).
Proof.
  unfold Net.reconcile. rewrite seller_create_prices_eq. simpl.
  now rewrite with_ticks_same.
Qed.

Lemma seller_create_stocks_reads (rows : list row) (st : state) :
  reads (snd (Seller.create_stocks rows st)) = reads st.
Proof.
  rewrite seller_create_stocks_eq.
  now destruct (match_rows rows (offer_ids st)) as [[e|taken] rest].
Qed.

Lemma reconcile_seller_stocks_world (rows : list row) (ids rest : list string)
  (w w' : Net.world) (stocks : list Seller.StockItem) :
  Net.reconcile (Seller.create_stocks rows) ids w
  = Some (inr (stocks, rest), w') ->
  w' = w.
Proof.
  intros Hrun. apply reconcile_returned in Hrun as (st' & Hrun & _ & ->).
  pose proof (seller_create_stocks_reads rows
                {| offer_ids := ids; clock := Net.now w;
                   reads := Net.ticks w |}) as Hreads.
  rewrite Hrun in Hreads. simpl in Hreads. rewrite Hreads.
  apply with_ticks_same.
Qed.

(** One round of each submission loop. *)
Lemma seller_update_stocks_step (client_id seller_token : string)
  (c : list Seller.StockItem) (w : Net.world) :
  (_ <~ SellerSync.update_stocks c client_id seller_token ;; Net.ret tt) w =
  Some (match Net.acknowledge (Net.outside w) (Net.sent w)
                (Net.OzonImportStocks client_id seller_token c) with
        | inl e => inl e
        | inr _ => inr tt
        end,
        Net.with_sent w
          (Net.sent w ++ [Net.OzonImportStocks client_id seller_token c])).
Proof.
  unfold Net.bind, SellerSync.update_stocks, Net.exchange, Net.ret.
  now destruct (Net.acknowledge _ _ _).
Qed.

Lemma seller_update_price_step (client_id seller_token : string)
  (c : list Seller.PriceItem) (w : Net.world) :
  (_ <~ SellerSync.update_price c client_id seller_token ;; Net.ret tt) w =
  Some (match Net.acknowledge (Net.outside w) (Net.sent w)
                (Net.OzonImportPrices client_id seller_token c) with
        | inl e => inl e
        | inr _ => inr tt
        end,
        Net.with_sent w
          (Net.sent w ++ [Net.OzonImportPrices client_id seller_token c])).
Proof.
  unfold Net.bind, SellerSync.update_price, Net.exchange, Net.ret.
  now destruct (Net.acknowledge _ _ _).
Qed.

(** ** The coroutines of seller.py *)

(** X12. When the listing returns [ids] and [create_stocks] returns
    [stocks], awaiting [upload_stocks] of seller.py submits [stocks] in
    batches of at least one and at most 100 records that together are
    [stocks]: the batches are sent in order, one request each, as long as
    they are accepted; the first batch that is refused is the last one
    sent.  When every batch is accepted it returns the records of
    quantity other than 0 with [stocks]; otherwise it raises the
    exception of the refusal. *)
Theorem seller_upload_stocks_batches (fuel : nat) (rows : list row)
  (client_id seller_token : string) (w w1 w2 : Net.world)
  (ids rest : list string) (stocks : list Seller.StockItem) :
  SellerSync.get_offer_ids fuel client_id seller_token w
  = Some (inr ids, w1) ->
  Net.reconcile (Seller.create_stocks rows) ids w1
  = Some (inr (stocks, rest), w2) ->
  exists chunks k failure w',
    Seller.divide stocks 100 = inr chunks /\
    List.concat chunks = stocks /\
    Forall (fun c => 1 <= Py.len c <= 100) chunks /\
    submitted (Net.OzonImportStocks client_id seller_token) chunks w2 k
      failure w' /\
    SellerSync.upload_stocks fuel rows client_id seller_token w
    = Some (outcome failure
              (filter (fun s => negb (Seller.stock s =? 0)) stocks, stocks),
            w').
Proof.
  intros Hids Hstocks.
  destruct (divide_batches stocks 100 ltac:(lia))
    as (chunks & Hdivide & Hconcat & _ & Hbounds).
  destruct (submission_loop
              (Net.OzonImportStocks client_id seller_token)
              (fun some_stock =>
                 _ <~ SellerSync.update_stocks some_stock client_id
                        seller_token ;;
                 Net.ret tt)
              (seller_update_stocks_step client_id seller_token)
              chunks w2)
    as (k & failure & w' & Hrun & Hsubmitted).
  exists chunks, k, failure, w'.
  split; [exact Hdivide|]. split; [exact Hconcat|].
  split; [exact Hbounds|]. split; [exact Hsubmitted|].
  unfold SellerSync.upload_stocks. unfold Net.bind at 1. rewrite Hids.
  unfold Net.bind at 1. rewrite Hstocks. cbn [fst].
  unfold Net.bind at 1, Net.lift. rewrite Hdivide.
  unfold Net.bind at 1. rewrite Hrun.
  now destruct failure.
Qed.

Lemma seller_upload_stocks_batches_witness :
  exists chunks k failure w',
    Seller.divide [{| Seller.offer_id := "a"; Seller.stock := 5 |};
                   ozon_defaulted "b"; ozon_defaulted "c"] 100
    = inr chunks /\
    List.concat chunks
    = [{| Seller.offer_id := "a"; Seller.stock := 5 |};
       ozon_defaulted "b"; ozon_defaulted "c"] /\
    Forall (fun c => 1 <= Py.len c <= 100) chunks /\
    submitted (Net.OzonImportStocks "id" "token") chunks
      (Net.with_sent (fresh_world shop)
         [Net.OzonProductList "id" "token" "";
          Net.OzonProductList "id" "token" "b"])
      k failure w' /\
    SellerSync.upload_stocks 2 [feed_row "a" "5" "1.00"] "id" "token"
      (fresh_world shop)
    = Some (outcome failure
              (filter (fun s => negb (Seller.stock s =? 0))
                 [{| Seller.offer_id := "a"; Seller.stock := 5 |};
                  ozon_defaulted "b"; ozon_defaulted "c"],
               [{| Seller.offer_id := "a"; Seller.stock := 5 |};
                ozon_defaulted "b"; ozon_defaulted "c"]),
            w').
Proof.
  apply (seller_upload_stocks_batches 2 [feed_row "a" "5" "1.00"]
           "id" "token" (fresh_world shop)
           (Net.with_sent (fresh_world shop)
              [Net.OzonProductList "id" "token" "";
               Net.OzonProductList "id" "token" "b"])
           (Net.with_sent (fresh_world shop)
              [Net.OzonProductList "id" "token" "";
               Net.OzonProductList "id" "token" "b"])
           ["a"; "b"; "c"] ["b"; "c"]); reflexivity.
Defined.

(** X13. When the listing returns [ids], awaiting [upload_prices] of
    seller.py never fails in the reconciliation: it submits the price
    records of the rows whose identifier is in [ids], in feed order, in
    batches of at least one and at most 1000 records that together are
    these records, each batch in one request and in order, as long as
    they are accepted; the first batch that is refused is the last one
    sent.  When every batch is accepted it returns the records;
    otherwise it raises the exception of the refusal. *)
Theorem seller_upload_prices_batches (fuel : nat) (rows : list row)
  (client_id seller_token : string) (w w1 : Net.world) (ids : list string) :
  SellerSync.get_offer_ids fuel client_id seller_token w
  = Some (inr ids, w1) ->
  exists chunks k failure w',
    Seller.divide (map ozon_price (known_rows rows ids)) 1000 = inr chunks /\
    List.concat chunks = map ozon_price (known_rows rows ids) /\
    Forall (fun c => 1 <= Py.len c <= 1000) chunks /\
    submitted (Net.OzonImportPrices client_id seller_token) chunks w1 k
      failure w' /\
    SellerSync.upload_prices fuel rows client_id seller_token w
    = Some (outcome failure (map ozon_price (known_rows rows ids)), w').
Proof.
  intros Hids.
  destruct (divide_batches (map ozon_price (known_rows rows ids)) 1000
              ltac:(lia))
    as (chunks & Hdivide & Hconcat & _ & Hbounds).
  destruct (submission_loop
              (Net.OzonImportPrices client_id seller_token)
              (fun some_price =>
                 _ <~ SellerSync.update_price some_price client_id
                        seller_token ;;
                 Net.ret tt)
              (seller_update_price_step client_id seller_token)
              chunks w1)
    as (k & failure & w' & Hrun & Hsubmitted).
  exists chunks, k, failure, w'.
  split; [exact Hdivide|]. split; [exact Hconcat|].
  split; [exact Hbounds|]. split; [exact Hsubmitted|].
  unfold SellerSync.upload_prices. unfold Net.bind at 1. rewrite Hids.
  unfold Net.bind at 1. rewrite reconcile_seller_prices. cbn [fst].
  unfold Net.bind at 1, Net.lift. rewrite Hdivide.
  unfold Net.bind at 1. rewrite Hrun.
  now destruct failure.
Qed.

Lemma seller_upload_prices_batches_witness :
  exists chunks k failure w',
    Seller.divide
      (map ozon_price
         (known_rows [feed_row "a" "5" "5'990.00 руб."] ["a"; "b"; "c"]))
      1000 = inr chunks /\
    List.concat chunks
    = map ozon_price
        (known_rows [feed_row "a" "5" "5'990.00 руб."] ["a"; "b"; "c"]) /\
    Forall (fun c => 1 <= Py.len c <= 1000) chunks /\
    submitted (Net.OzonImportPrices "id" "token") chunks
      (Net.with_sent (fresh_world refusing_shop)
         [Net.OzonProductList "id" "token" "";
          Net.OzonProductList "id" "token" "b"])
      k failure w' /\
    SellerSync.upload_prices 2 [feed_row "a" "5" "5'990.00 руб."]
      "id" "token" (fresh_world refusing_shop)
    = Some (outcome failure
              (map ozon_price
                 (known_rows [feed_row "a" "5" "5'990.00 руб."]
                             ["a"; "b"; "c"])),
            w').
Proof.
  apply (seller_upload_prices_batches 2 [feed_row "a" "5" "5'990.00 руб."]
           "id" "token" (fresh_world refusing_shop)
           (Net.with_sent (fresh_world refusing_shop)
              [Net.OzonProductList "id" "token" "";
               Net.OzonProductList "id" "token" "b"])
           ["a"; "b"; "c"]).
  reflexivity.
Defined.

(** ** The records of market.py's [create_stocks] *)

Lemma market_create_stocks_single_item (rows : list row) (w : string)
  (st st' : state) (out : list Market.Sku) :
  Market.create_stocks rows w st = (inr out, st') ->
  Forall (fun s => exists item, Market.items s = [item]) out.
Proof.
  intros Hrun. apply market_create_stocks_returns in Hrun
    as (taken & rest & _ & -> & _).
  apply Forall_app. split; apply Forall_map, Forall_forall; intros x _;
    now eexists.
Qed.

(** On records of one item each, the filter of [upload_stocks] cannot
    raise. *)
Lemma filter_count_not_zero (stocks : list Market.Sku) :
  Forall (fun s => exists item, Market.items s = [item]) stocks ->
  Net.filter_raising MarketSync.count_not_zero stocks
  = inr (filter (fun s => existsb (fun q => negb (q =? 0))
                                  (market_quantities s)) stocks).
Proof.
  induction 1 as [|s stocks [item Hs] _ IH]; [reflexivity|].
  cbn [Net.filter_raising filter].
  unfold MarketSync.count_not_zero at 1, market_quantities at 1.
  rewrite Hs, IH. simpl. now rewrite orb_false_r.
Qed.

(** ** What a computation sends *)

Lemma sends_only_ret {A : Type} (a : A) (allowed : Net.request -> Prop) :
  sends_only (Net.ret a) allowed.
Proof.
  intros w r w' [= <- <-]. repeat split. exists []. now rewrite app_nil_r.
Qed.

Lemma sends_only_lift {A : Type} (x : Py.result A)
  (allowed : Net.request -> Prop) :
  sends_only (Net.lift x) allowed.
Proof.
  intros w r w'. unfold Net.lift. destruct x; intros [= <- <-];
    repeat split; exists []; now rewrite app_nil_r.
Qed.

Lemma sends_only_reconcile {A : Type} (m : M A) (ids : list string)
  (allowed : Net.request -> Prop) :
  sends_only (Net.reconcile m ids) allowed.
Proof.
  intros w r w'. unfold Net.reconcile.
  destruct (m _) as [[e|a] st]; intros [= <- <-]; repeat split;
    exists []; simpl; now rewrite app_nil_r.
Qed.

Lemma sends_only_exchange {A : Type}
  (answer : Net.remote -> list Net.request -> Net.request -> Net.exc + A)
  (q : Net.request) (allowed : Net.request -> Prop) :
  allowed q -> sends_only (Net.exchange answer q) allowed.
Proof.
  intros Hq w r w' [= <- <-]. repeat split. exists [q]. split; [reflexivity|].
  now constructor.
Qed.

Lemma sends_only_download (allowed : Net.request -> Prop) :
  allowed Net.GetOstatki -> sends_only download_stock allowed.
Proof.
  intros Hq w r w' [= <- <-]. repeat split. exists [Net.GetOstatki].
  split; [reflexivity|]. now constructor.
Qed.

Lemma sends_only_bind {A B : Type} (m : Net.IO A) (k : A -> Net.IO B)
  (allowed : Net.request -> Prop) :
  sends_only m allowed -> (forall a, sends_only (k a) allowed) ->
  sends_only (Net.bind m k) allowed.
Proof.
  intros Hm Hk w r w'. unfold Net.bind.
  destruct (m w) as [[[e|a] w1]|] eqn:Hrun; [| |discriminate].
  - intros [= <- <-]. now apply (Hm _ _ _ Hrun).
  - intros Hrest.
    destruct (Hm _ _ _ Hrun) as (Ho & Hp & new & Hs & Hnew).
    destruct (Hk a _ _ _ Hrest) as (Ho' & Hp' & new' & Hs' & Hnew').
    repeat split; [congruence..|].
    exists (new ++ new'). split; [|now apply Forall_app].
    now rewrite Hs', Hs, app_assoc.
Qed.

Lemma sends_only_for {A : Type} (xs : list A) (body : A -> Net.IO unit)
  (allowed : Net.request -> Prop) :
  (forall x, sends_only (body x) allowed) ->
  sends_only (Net.for_ xs body) allowed.
Proof.
  intros Hbody. induction xs as [|x xs IH]; cbn [Net.for_].
  - apply sends_only_ret.
  - apply sends_only_bind; [apply Hbody|intros _; exact IH].
Qed.

Lemma sends_only_seller_listing (fuel : nat) (client_id seller_token : string)
  (allowed : Net.request -> Prop) :
  (forall last_id,
      allowed (Net.OzonProductList client_id seller_token last_id)) ->
  sends_only (SellerSync.get_offer_ids fuel client_id seller_token) allowed.
Proof.
  intros Hq. unfold SellerSync.get_offer_ids.
  apply sends_only_bind; [|intros; apply sends_only_ret].
  generalize (@nil Net.ozon_product). generalize ""%string.
  induction fuel as [|fuel IH]; intros last_id acc; [discriminate|].
  cbn [SellerSync.get_offer_ids_loop].
  apply sends_only_bind; [now apply sends_only_exchange|].
  intros p. destruct (_ =? _); [apply sends_only_ret|apply IH].
Qed.

(** [report] prints its line and nothing else. *)
Lemma report_prints (e : Net.exc) (w : Net.world) :
  report e w
  = Some (inr tt, Net.with_printed w (Net.printed w ++ [report_line e])).
Proof. now destruct e. Qed.

(** A continuation needs to behave only on the values that reach it. *)
Lemma sends_only_bind_after {A B : Type} (m : Net.IO A) (k : A -> Net.IO B)
  (allowed : Net.request -> Prop) (reached : A -> Prop) :
  sends_only m allowed ->
  (forall w a w', m w = Some (inr a, w') -> reached a) ->
  (forall a, reached a -> sends_only (k a) allowed) ->
  sends_only (Net.bind m k) allowed.
Proof.
  intros Hm Hreached Hk w r w'. unfold Net.bind.
  destruct (m w) as [[[e|a] w1]|] eqn:Hrun; [| |discriminate].
  - intros [= <- <-]. now apply (Hm _ _ _ Hrun).
  - intros Hrest.
    destruct (Hm _ _ _ Hrun) as (Ho & Hp & new & Hs & Hnew).
    destruct (Hk a (Hreached _ _ _ Hrun) _ _ _ Hrest)
      as (Ho' & Hp' & new' & Hs' & Hnew').
    repeat split; [congruence..|].
    exists (new ++ new'). split; [|now apply Forall_app].
    now rewrite Hs', Hs, app_assoc.
Qed.

(** A body under the handlers of [main]: the whole never raises; it ends
    as the body does, or with one more line when the body raised. *)
Lemma try_report (body : Net.IO unit) (w w' : Net.world)
  (r : Net.exc + unit) :
  Net.try_except body report w = Some (r, w') ->
  r = inr tt /\
  (body w = Some (inr tt, w') \/
   exists e w1,
     body w = Some (inl e, w1) /\
     w' = Net.with_printed w1 (Net.printed w1 ++ [report_line e])).
Proof.
  unfold Net.try_except.
  destruct (body w) as [[[e|[]] w1]|] eqn:Hrun; [| |discriminate].
  - rewrite report_prints. intros [= <- <-].
    split; [reflexivity|]. right. now exists e, w1.
  - intros [= <- <-]. split; [reflexivity|]. now left.
Qed.

Lemma env_str_set (name value : string) (w : Net.world) :
  Net.environ (Net.outside w) name = Some value ->
  Net.env_str name w = Some (inr value, w).
Proof. unfold Net.env_str. now intros ->. Qed.

(** The statements of [main] of seller.py between [try] and [except]. *)
Lemma seller_main_body_sends (fuel : nat) (client_id seller_token : string)
  (allowed : Net.request -> Prop) :
  (forall last_id,
      allowed (Net.OzonProductList client_id seller_token last_id)) ->
  allowed Net.GetOstatki ->
  (forall c, allowed (Net.OzonImportStocks client_id seller_token c)) ->
  (forall c, allowed (Net.OzonImportPrices client_id seller_token c)) ->
  sends_only
    (offer_ids <~ SellerSync.get_offer_ids fuel client_id seller_token ;;
     watch_remnants <~ download_stock ;;
     reconciled <~ Net.reconcile (Seller.create_stocks watch_remnants)
                                 offer_ids ;;
     chunks <~ Net.lift (Seller.divide (fst reconciled) 100) ;;
     _ <~ Net.for_ chunks
            (fun some_stock =>
               _ <~ SellerSync.update_stocks some_stock client_id
                      seller_token ;;
               Net.ret tt) ;;
     reconciled0 <~ Net.reconcile (Seller.create_prices watch_remnants)
                                  (snd reconciled) ;;
     chunks0 <~ Net.lift (Seller.divide (fst reconciled0) 900) ;;
     Net.for_ chunks0
       (fun some_price =>
          _ <~ SellerSync.update_price some_price client_id seller_token ;;
          Net.ret tt))
    allowed.
Proof.
  intros Hlist Hfeed Hstocks Hprices.
  apply sends_only_bind; [now apply sends_only_seller_listing|]. intros ids.
  apply sends_only_bind; [now apply sends_only_download|]. intros rows.
  apply sends_only_bind; [apply sends_only_reconcile|]. intros [stocks rest].
  apply sends_only_bind; [apply sends_only_lift|]. intros chunks.
  apply sends_only_bind.
  { apply sends_only_for. intros c.
    apply sends_only_bind; [|intros; apply sends_only_ret].
    apply sends_only_exchange, Hstocks. }
  intros _.
  apply sends_only_bind; [apply sends_only_reconcile|]. intros [prices rest'].
  apply sends_only_bind; [apply sends_only_lift|]. intros chunks'.
  apply sends_only_for. intros c.
  apply sends_only_bind; [|intros; apply sends_only_ret].
  apply sends_only_exchange, Hprices.
Qed.

(** ** Computations that come to an end *)

Lemma ends_ret {A : Type} (a : A) : ends (Net.ret a).
Proof. intros w. now eexists _, _. Qed.

Lemma ends_lift {A : Type} (x : Py.result A) : ends (Net.lift x).
Proof. intros w. unfold Net.lift. destruct x; now eexists _, _. Qed.

Lemma ends_reconcile {A : Type} (m : M A) (ids : list string) :
  ends (Net.reconcile m ids).
Proof.
  intros w. unfold Net.reconcile. destruct (m _) as [[e|a] st];
    now eexists _, _.
Qed.

Lemma ends_exchange {A : Type}
  (answer : Net.remote -> list Net.request -> Net.request -> Net.exc + A)
  (q : Net.request) :
  ends (Net.exchange answer q).
Proof. intros w. now eexists _, _. Qed.

Lemma ends_download : ends download_stock.
Proof. intros w. now eexists _, _. Qed.

Lemma ends_bind {A B : Type} (m : Net.IO A) (k : A -> Net.IO B) :
  ends m -> (forall a, ends (k a)) -> ends (Net.bind m k).
Proof.
  intros Hm Hk w. unfold Net.bind.
  destruct (Hm w) as ([e|a] & w1 & ->); [now eexists _, _|apply Hk].
Qed.

Lemma ends_for {A : Type} (xs : list A) (body : A -> Net.IO unit) :
  (forall x, ends (body x)) -> ends (Net.for_ xs body).
Proof.
  intros Hbody. induction xs as [|x xs IH]; cbn [Net.for_].
  - apply ends_ret.
  - apply ends_bind; [apply Hbody|intros _; exact IH].
Qed.

(** What follows a computation that has come to an end. *)
Lemma bind_ends_after {A B : Type} (m : Net.IO A) (k : A -> Net.IO B)
  (w w1 : Net.world) (x : Net.exc + A) :
  m w = Some (x, w1) -> (forall a, ends (k a)) ->
  exists r w', Net.bind m k w = Some (r, w').
Proof.
  intros Hm Hk. unfold Net.bind. rewrite Hm.
  destruct x as [e|a]; [now eexists _, _|apply Hk].
Qed.

(** Under the handlers of [main], a body that comes to an end makes the
    whole return. *)
Lemma try_report_returns (body : Net.IO unit) (w : Net.world) :
  (exists r w1, body w = Some (r, w1)) ->
  exists w', Net.try_except body report w = Some (inr tt, w').
Proof.
  intros (r & w1 & Hbody). unfold Net.try_except. rewrite Hbody.
  destruct r as [e|[]]; [rewrite report_prints|]; now eexists.
Qed.

(** ** [main] of seller.py *)

(** What [main] of seller.py has done when it has come to an end. *)
Lemma seller_main_outcome (fuel : nat) (w w' : Net.world)
  (seller_token client_id : string) (r : Net.exc + unit) :
  Net.environ (Net.outside w) "SELLER_TOKEN" = Some seller_token ->
  Net.environ (Net.outside w) "CLIENT_ID" = Some client_id ->
  SellerSync.main fuel w = Some (r, w') ->
  r = inr tt /\
  (Net.printed w' = Net.printed w \/
   exists e, Net.printed w' = Net.printed w ++ [report_line e]).
Proof.
  intros Htoken Hclient. unfold SellerSync.main.
  unfold Net.bind at 1. rewrite (env_str_set _ _ _ Htoken).
  unfold Net.bind at 1. rewrite (env_str_set _ _ _ Hclient).
  intros Hrun. apply try_report in Hrun as [-> Hbody].
  split; [reflexivity|].
  assert (Hquiet := seller_main_body_sends fuel client_id seller_token
                      (fun _ => True)
                      (fun _ => I) I (fun _ => I) (fun _ => I)).
  destruct Hbody as [Hbody|(e & w1 & Hbody & ->)].
  - left. now apply Hquiet in Hbody.
  - right. exists e. apply Hquiet in Hbody as (_ & -> & _). reflexivity.
Qed.

(** X16. Once its two variables are set and the listing has come to an
    end, with the identifiers or with an exception, [main] of seller.py
    returns, and returns normally: the download, the reconciliation and
    the submissions all come to an end, and whatever one of them or the
    listing raises is caught.  It has then printed nothing, or one line,
    the report of an exception; an exception of the listing is reported
    right after the listing. *)
Theorem seller_main_never_raises (fuel : nat) (w w1 : Net.world)
  (seller_token client_id : string) (listing : Net.exc + list string) :
  Net.environ (Net.outside w) "SELLER_TOKEN" = Some seller_token ->
  Net.environ (Net.outside w) "CLIENT_ID" = Some client_id ->
  SellerSync.get_offer_ids fuel client_id seller_token w
  = Some (listing, w1) ->
  exists w',
    SellerSync.main fuel w = Some (inr tt, w') /\
    (Net.printed w' = Net.printed w \/
     exists e, Net.printed w' = Net.printed w ++ [report_line e]) /\
    (forall e, listing = inl e ->
               w' = Net.with_printed w1 (Net.printed w1 ++ [report_line e])).
Proof.
  intros Htoken Hclient Hlisting.
  assert (Hmain : exists w', SellerSync.main fuel w = Some (inr tt, w')).
  { unfold SellerSync.main.
    unfold Net.bind at 1. rewrite (env_str_set _ _ _ Htoken).
    unfold Net.bind at 1. rewrite (env_str_set _ _ _ Hclient).
    apply try_report_returns.
    apply (bind_ends_after _ _ _ _ _ Hlisting). intros ids.
    apply ends_bind; [apply ends_download|]. intros rows.
    apply ends_bind; [apply ends_reconcile|]. intros [stocks rest].
    cbv zeta.
    apply ends_bind; [apply ends_lift|]. intros chunks.
    apply ends_bind.
    { apply ends_for. intros c.
      apply ends_bind; [apply ends_exchange|intros; apply ends_ret]. }
    intros _.
    apply ends_bind; [apply ends_reconcile|]. intros [prices rest'].
    cbv zeta.
    apply ends_bind; [apply ends_lift|]. intros chunks'.
    apply ends_for. intros c.
    apply ends_bind; [apply ends_exchange|intros; apply ends_ret]. }
  destruct Hmain as [w' Hmain]. exists w'. split; [exact Hmain|].
  split; [exact (proj2 (seller_main_outcome _ _ _ _ _ _ Htoken Hclient
                           Hmain))|].
  intros e ->. revert Hmain. unfold SellerSync.main.
  unfold Net.bind at 1. rewrite (env_str_set _ _ _ Htoken).
  unfold Net.bind at 1. rewrite (env_str_set _ _ _ Hclient).
  unfold Net.try_except. unfold Net.bind at 1. rewrite Hlisting.
  rewrite report_prints. now intros [= <-].
Qed.

Lemma seller_main_never_raises_witness :
  Net.environ shop_losing_a_page "SELLER_TOKEN" = Some "SELLER_TOKEN" /\
  Net.environ shop_losing_a_page "CLIENT_ID" = Some "CLIENT_ID" /\
  SellerSync.get_offer_ids 2 "CLIENT_ID" "SELLER_TOKEN"
    (fresh_world shop_losing_a_page)
  = Some (inl Net.ReadTimeout,
          Net.with_sent (fresh_world shop_losing_a_page)
            [Net.OzonProductList "CLIENT_ID" "SELLER_TOKEN" "";
             Net.OzonProductList "CLIENT_ID" "SELLER_TOKEN" "b"]) /\
  exists w',
    SellerSync.main 2 (fresh_world shop_losing_a_page) = Some (inr tt, w') /\
    (Net.printed w' = Net.printed (fresh_world shop_losing_a_page) \/
     exists e,
       Net.printed w'
       = Net.printed (fresh_world shop_losing_a_page) ++ [report_line e]) /\
    (forall e,
       inl Net.ReadTimeout = inl e :> Net.exc + list string ->
       w' = Net.with_printed
              (Net.with_sent (fresh_world shop_losing_a_page)
                 [Net.OzonProductList "CLIENT_ID" "SELLER_TOKEN" "";
                  Net.OzonProductList "CLIENT_ID" "SELLER_TOKEN" "b"])
              (Net.printed
                 (Net.with_sent (fresh_world shop_losing_a_page)
                    [Net.OzonProductList "CLIENT_ID" "SELLER_TOKEN" "";
                     Net.OzonProductList "CLIENT_ID" "SELLER_TOKEN" "b"])
               ++ [report_line e])).
Proof.
  split; [reflexivity|]. split; [reflexivity|]. split; [reflexivity|].
  apply (seller_main_never_raises 2 (fresh_world shop_losing_a_page)
           _ "SELLER_TOKEN" "CLIENT_ID" (inl Net.ReadTimeout)
           eq_refl eq_refl).
  reflexivity.
Defined.

Lemma reconcile_seller_stocks_rest (rows : list row) (ids rest : list string)
  (w w' : Net.world) (stocks : list Seller.StockItem) :
  NoDup ids ->
  Net.reconcile (Seller.create_stocks rows) ids w
  = Some (inr (stocks, rest), w') ->
  rest = unmatched rows ids.
Proof.
  intros Hids Hrun. apply reconcile_returned in Hrun as (st' & Hrun & -> & _).
  apply seller_create_stocks_returns in Hrun
    as (taken & rest & Hrun & _ & ->).
  now destruct (match_rows_NoDup _ _ _ _ Hids Hrun) as [_ ->].
Qed.

(** What follows the listing in [main] of seller.py, when the listing has
    returned a list without duplicates: no price is submitted. *)
Lemma seller_main_after_listing (client_id seller_token : string)
  (ids : list string) :
  NoDup ids ->
  sends_only
    (watch_remnants <~ download_stock ;;
     reconciled <~ Net.reconcile (Seller.create_stocks watch_remnants) ids ;;
     chunks <~ Net.lift (Seller.divide (fst reconciled) 100) ;;
     _ <~ Net.for_ chunks
            (fun some_stock =>
               _ <~ SellerSync.update_stocks some_stock client_id
                      seller_token ;;
               Net.ret tt) ;;
     reconciled0 <~ Net.reconcile (Seller.create_prices watch_remnants)
                                  (snd reconciled) ;;
     chunks0 <~ Net.lift (Seller.divide (fst reconciled0) 900) ;;
     Net.for_ chunks0
       (fun some_price =>
          _ <~ SellerSync.update_price some_price client_id seller_token ;;
          Net.ret tt))
    (fun q => is_price_request q = false).
Proof.
  intros Hids.
  apply sends_only_bind; [now apply sends_only_download|]. intros rows.
  apply sends_only_bind_after
    with (reached := fun reconciled => snd reconciled = unmatched rows ids).
  { apply sends_only_reconcile. }
  { intros w [stocks rest] w' Hrun.
    exact (reconcile_seller_stocks_rest _ _ _ _ _ _ Hids Hrun). }
  intros [stocks rest] Hrest. cbn [fst snd] in *. subst rest.
  apply sends_only_bind; [apply sends_only_lift|]. intros chunks.
  apply sends_only_bind.
  { apply sends_only_for. intros c.
    apply sends_only_bind; [|intros; apply sends_only_ret].
    now apply sends_only_exchange. }
  intros _.
  apply sends_only_bind_after with (reached := fun reconciled =>
                                                 fst reconciled = []).
  { apply sends_only_reconcile. }
  { intros w [prices rest] w'. rewrite reconcile_seller_prices.
    rewrite known_rows_of_unmatched. now intros [= <- _ _]. }
  intros [prices rest] Hprices. cbn [fst] in *. subst prices.
  apply sends_only_bind_after with (reached := fun chunks => chunks = []).
  { apply sends_only_lift. }
  { intros w chunks' w'. now intros [= <- _]. }
  intros chunks' ->. apply sends_only_ret.
Qed.

(** X17. [main] of seller.py gives [create_prices] the list that
    [create_stocks] has just consumed.  When the listing returns a list
    without duplicates, [main] therefore submits no price at all: the
    requests it sends are the listing, the download and the stock
    batches, whatever the feed holds. *)
Theorem seller_main_submits_no_price (fuel : nat) (w w' : Net.world)
  (seller_token client_id : string) (r : Net.exc + unit) :
  Net.environ (Net.outside w) "SELLER_TOKEN" = Some seller_token ->
  Net.environ (Net.outside w) "CLIENT_ID" = Some client_id ->
  (forall ids w1,
      SellerSync.get_offer_ids fuel client_id seller_token w
      = Some (inr ids, w1) -> NoDup ids) ->
  SellerSync.main fuel w = Some (r, w') ->
  exists new,
    Net.sent w' = Net.sent w ++ new /\
    Forall (fun q => is_price_request q = false) new.
Proof.
  intros Htoken Hclient Hids. unfold SellerSync.main.
  unfold Net.bind at 1. rewrite (env_str_set _ _ _ Htoken).
  unfold Net.bind at 1. rewrite (env_str_set _ _ _ Hclient).
  intros Hrun. apply try_report in Hrun as [_ Hbody].
  assert (Hsends : forall r1 w1,
             (offer_ids <~ SellerSync.get_offer_ids fuel client_id
                             seller_token ;;
              watch_remnants <~ download_stock ;;
              reconciled <~ Net.reconcile
                              (Seller.create_stocks watch_remnants)
                              offer_ids ;;
              chunks <~ Net.lift (Seller.divide (fst reconciled) 100) ;;
              _ <~ Net.for_ chunks
                     (fun some_stock =>
                        _ <~ SellerSync.update_stocks some_stock client_id
                               seller_token ;;
                        Net.ret tt) ;;
              reconciled0 <~ Net.reconcile
                               (Seller.create_prices watch_remnants)
                               (snd reconciled) ;;
              chunks0 <~ Net.lift (Seller.divide (fst reconciled0) 900) ;;
              Net.for_ chunks0
                (fun some_price =>
                   _ <~ SellerSync.update_price some_price client_id
                          seller_token ;;
                   Net.ret tt)) w = Some (r1, w1) ->
             exists new,
               Net.sent w1 = Net.sent w ++ new /\
               Forall (fun q => is_price_request q = false) new).
  { intros r1 w1. unfold Net.bind at 1.
    pose proof (sends_only_seller_listing fuel client_id seller_token
                  (fun q => is_price_request q = false)
                  (fun _ => eq_refl)) as Hlisting.
    destruct (SellerSync.get_offer_ids fuel client_id seller_token w)
      as [[[e|ids] w0]|] eqn:Hlist; [| |discriminate].
    - intros [= <- <-]. now apply Hlisting in Hlist.
    - intros Hrest.
      apply Hlisting in Hlist as Hfirst.
      destruct Hfirst as (_ & _ & new & Hs & Hnew).
      apply (seller_main_after_listing client_id seller_token ids
               (Hids _ _ eq_refl)) in Hrest
        as (_ & _ & new' & Hs' & Hnew').
      exists (new ++ new'). split; [|now apply Forall_app].
      now rewrite Hs', Hs, app_assoc. }
  destruct Hbody as [Hbody|(e & w1 & Hbody & ->)];
    now apply Hsends in Hbody.
Qed.

Lemma seller_main_submits_no_price_witness :
  Net.environ shop "SELLER_TOKEN" = Some "SELLER_TOKEN" /\
  Net.environ shop "CLIENT_ID" = Some "CLIENT_ID" /\
  (forall ids w1,
      SellerSync.get_offer_ids 2 "CLIENT_ID" "SELLER_TOKEN" (fresh_world shop)
      = Some (inr ids, w1) -> NoDup ids) /\
  exists r w',
    SellerSync.main 2 (fresh_world shop) = Some (r, w') /\
    exists new,
      Net.sent w' = Net.sent (fresh_world shop) ++ new /\
      Forall (fun q => is_price_request q = false) new.
Proof.
  assert (Hids : forall ids w1,
             SellerSync.get_offer_ids 2 "CLIENT_ID" "SELLER_TOKEN"
               (fresh_world shop) = Some (inr ids, w1) -> NoDup ids).
  { intros ids w1 H. vm_compute in H. injection H as <- _.
    repeat constructor; simpl; intuition congruence. }
  split; [reflexivity|]. split; [reflexivity|]. split; [exact Hids|].
  eexists _, _. split; [vm_compute; reflexivity|].
  eapply (seller_main_submits_no_price 2 (fresh_world shop) _
            "SELLER_TOKEN" "CLIENT_ID" _ eq_refl eq_refl Hids).
  vm_compute. reflexivity.
Defined.

(** X18. In [main] of seller.py the download of the feed is inside
    [try], after the listing.  When the listing has returned and the
    download fails, [main] sends nothing more, prints the line that
    reports the exception of the download, and returns normally. *)
Theorem seller_main_reports_download_failure (fuel : nat)
  (w w1 : Net.world) (seller_token client_id : string) (ids : list string)
  (e : Net.exc) :
  Net.environ (Net.outside w) "SELLER_TOKEN" = Some seller_token ->
  Net.environ (Net.outside w) "CLIENT_ID" = Some client_id ->
  SellerSync.get_offer_ids fuel client_id seller_token w
  = Some (inr ids, w1) ->
  Net.ostatki (Net.outside w1) (Net.sent w1) = inl e ->
  SellerSync.main fuel w
  = Some (inr tt,
          Net.with_printed
            (Net.with_sent w1 (Net.sent w1 ++ [Net.GetOstatki]))
            (Net.printed w1 ++ [report_line e])).
Proof.
  intros Htoken Hclient Hids Hfeed. unfold SellerSync.main.
  unfold Net.bind at 1. rewrite (env_str_set _ _ _ Htoken).
  unfold Net.bind at 1. rewrite (env_str_set _ _ _ Hclient).
  unfold Net.try_except. unfold Net.bind at 1. rewrite Hids.
  unfold Net.bind at 1, download_stock. rewrite Hfeed.
  now rewrite report_prints.
Qed.

Lemma seller_main_reports_download_failure_witness :
  SellerSync.main 2 (fresh_world shop_without_feed)
  = Some (inr tt,
          Net.with_printed
            (Net.with_sent (fresh_world shop_without_feed)
               [Net.OzonProductList "CLIENT_ID" "SELLER_TOKEN" "";
                Net.OzonProductList "CLIENT_ID" "SELLER_TOKEN" "b";
                Net.GetOstatki])
            [report_line Net.ConnectionError]).
Proof.
  apply (seller_main_reports_download_failure
           2 (fresh_world shop_without_feed)
           (Net.with_sent (fresh_world shop_without_feed)
              [Net.OzonProductList "CLIENT_ID" "SELLER_TOKEN" "";
               Net.OzonProductList "CLIENT_ID" "SELLER_TOKEN" "b"])
           "SELLER_TOKEN" "CLIENT_ID" ["a"; "b"; "c"] Net.ConnectionError);
    reflexivity.
Defined.

(** X21. [main] of seller.py reads its two variables before [try]: when
    [SELLER_TOKEN] is not set, or [CLIENT_ID] is not, it raises the error
    of the environment for that variable, and has sent nothing and
    printed nothing. *)
Theorem seller_main_needs_its_variables (fuel : nat) (w : Net.world) :
  (Net.environ (Net.outside w) "SELLER_TOKEN" = None ->
   SellerSync.main fuel w = Some (inl (Net.EnvError "SELLER_TOKEN"), w)) /\
  (forall seller_token,
     Net.environ (Net.outside w) "SELLER_TOKEN" = Some seller_token ->
     Net.environ (Net.outside w) "CLIENT_ID" = None ->
     SellerSync.main fuel w = Some (inl (Net.EnvError "CLIENT_ID"), w)).
Proof.
  split.
  - intros Htoken. unfold SellerSync.main, Net.bind at 1, Net.env_str.
    now rewrite Htoken.
  - intros seller_token Htoken Hclient. unfold SellerSync.main.
    unfold Net.bind at 1. rewrite (env_str_set _ _ _ Htoken).
    unfold Net.bind at 1, Net.env_str. now rewrite Hclient.
Qed.

Lemma seller_main_needs_its_variables_witness :
  SellerSync.main 2 (fresh_world shop_without_variables)
  = Some (inl (Net.EnvError "SELLER_TOKEN"),
          fresh_world shop_without_variables) /\
  SellerSync.main 2 (fresh_world shop_without_client_id)
  = Some (inl (Net.EnvError "CLIENT_ID"),
          fresh_world shop_without_client_id).
Proof.
  split.
  - apply (proj1 (seller_main_needs_its_variables
                    2 (fresh_world shop_without_variables))).
    reflexivity.
  - apply (proj2 (seller_main_needs_its_variables
                    2 (fresh_world shop_without_client_id))
                 "SELLER_TOKEN"); reflexivity.
Defined.

(** The stock call of [main], on a list without duplicates. *)
Lemma reconcile_seller_stocks (rows : list row) (ids : list string)
  (w : Net.world) (stocks : list Seller.StockItem) :
  NoDup ids ->
  fst (Seller.create_stocks rows
         {| offer_ids := ids; clock := Net.now w; reads := Net.ticks w |})
  = inr stocks ->
  Net.reconcile (Seller.create_stocks rows) ids w
  = Some (inr (stocks, unmatched rows ids), w).
Proof.
  intros Hids Hstocks. unfold Net.reconcile.
  rewrite seller_create_stocks_eq in *. cbn [offer_ids] in *.
  destruct (match_rows rows ids) as [[e|taken] rest] eqn:Hrun;
    [discriminate|].
  destruct (match_rows_NoDup _ _ _ _ Hids Hrun) as [_ ->].
  simpl in *. injection Hstocks as <-. now rewrite with_ticks_same.
Qed.

(** X22. [main] of seller.py when nothing fails.  The listing returns a
    list without duplicates, the download returns the feed,
    [create_stocks] returns [stocks], and the batches of 100 that [stocks]
    is divided in are all accepted.  Then [main] returns normally and
    prints nothing; what it has sent after the listing is the download and
    then the stock batches, in order, one request each, and nothing else:
    [create_prices] is given the list that [create_stocks] has consumed
    and finds no price to submit. *)
Theorem seller_main_uploads_the_stocks (fuel : nat) (w w1 : Net.world)
  (seller_token client_id : string) (ids : list string) (rows : list row)
  (stocks : list Seller.StockItem) (chunks : list (list Seller.StockItem)) :
  Net.environ (Net.outside w) "SELLER_TOKEN" = Some seller_token ->
  Net.environ (Net.outside w) "CLIENT_ID" = Some client_id ->
  SellerSync.get_offer_ids fuel client_id seller_token w
  = Some (inr ids, w1) ->
  NoDup ids ->
  Net.ostatki (Net.outside w1) (Net.sent w1) = inr rows ->
  fst (Seller.create_stocks rows
         {| offer_ids := ids; clock := Net.now w1; reads := Net.ticks w1 |})
  = inr stocks ->
  Seller.divide stocks 100 = inr chunks ->
  accepted (Net.OzonImportStocks client_id seller_token) chunks
    (Net.with_sent w1 (Net.sent w1 ++ [Net.GetOstatki]))
    (List.length chunks) ->
  SellerSync.main fuel w
  = Some (inr tt,
          Net.with_sent w1
            (Net.sent w1 ++
             Net.GetOstatki
             :: map (Net.OzonImportStocks client_id seller_token) chunks)).
Proof.
  intros Htoken Hclient Hlist Hids Hfeed Hstocks Hdivide Hall.
  unfold SellerSync.main.
  unfold Net.bind at 1. rewrite (env_str_set _ _ _ Htoken).
  unfold Net.bind at 1. rewrite (env_str_set _ _ _ Hclient).
  unfold Net.try_except. unfold Net.bind at 1. rewrite Hlist.
  unfold Net.bind at 1, download_stock. rewrite Hfeed.
  unfold Net.bind at 1.
  rewrite (reconcile_seller_stocks rows ids
             (Net.with_sent w1 (Net.sent w1 ++ [Net.GetOstatki]))
             stocks Hids Hstocks).
  cbn [fst snd]. unfold Net.bind at 1, Net.lift. rewrite Hdivide.
  unfold Net.bind at 1.
  rewrite (submission_accepted
             (Net.OzonImportStocks client_id seller_token)
             (fun some_stock =>
                _ <~ SellerSync.update_stocks some_stock client_id
                       seller_token ;;
                Net.ret tt)
             (seller_update_stocks_step client_id seller_token)
             chunks _ Hall).
  unfold Net.bind at 1. rewrite reconcile_seller_prices.
  rewrite known_rows_of_unmatched. cbn [fst map].
  unfold Net.bind at 1, Net.lift.
  change (Seller.divide (@nil Seller.PriceItem) 900) with
    (@inr Py.exn (list (list Seller.PriceItem)) []).
  cbn [Net.for_]. unfold Net.ret. rewrite with_sent_twice.
  cbn [Net.sent Net.with_sent]. now rewrite <- app_assoc.
Qed.

Lemma seller_main_uploads_the_stocks_witness :
  SellerSync.main 2 (fresh_world shop)
  = Some (inr tt,
          Net.with_sent (fresh_world shop)
            [Net.OzonProductList "CLIENT_ID" "SELLER_TOKEN" "";
             Net.OzonProductList "CLIENT_ID" "SELLER_TOKEN" "b";
             Net.GetOstatki;
             Net.OzonImportStocks "CLIENT_ID" "SELLER_TOKEN"
               [{| Seller.offer_id := "a"; Seller.stock := 5 |};
                ozon_defaulted "b"; ozon_defaulted "c"]]).
Proof.
  apply (seller_main_uploads_the_stocks
           2 (fresh_world shop)
           (Net.with_sent (fresh_world shop)
              [Net.OzonProductList "CLIENT_ID" "SELLER_TOKEN" "";
               Net.OzonProductList "CLIENT_ID" "SELLER_TOKEN" "b"])
           "SELLER_TOKEN" "CLIENT_ID" ["a"; "b"; "c"]
           [feed_row "a" "5" "5'990.00 руб."; feed_row "z" "1" "1.00 руб."]
           [{| Seller.offer_id := "a"; Seller.stock := 5 |};
            ozon_defaulted "b"; ozon_defaulted "c"]
           [[{| Seller.offer_id := "a"; Seller.stock := 5 |};
             ozon_defaulted "b"; ozon_defaulted "c"]]);
    try reflexivity.
  - repeat constructor; simpl; intuition congruence.
  - intros i c Hi Hc. now exists "{}"%string.
Defined.

(** ** What [upload_stocks] reports as not empty *)

Lemma bind_returned {A B : Type} (m : Net.IO A) (k : A -> Net.IO B)
  (w w' : Net.world) (b : B) :
  Net.bind m k w = Some (inr b, w') ->
  exists a w1, m w = Some (inr a, w1) /\ k a w1 = Some (inr b, w').
Proof.
  unfold Net.bind. destruct (m w) as [[[e|a] w1]|]; try discriminate.
  intros H. now exists a, w1.
Qed.

Lemma matched_rows_in_feed (rows : list row) :
  forall ids r, In r (matched_rows rows ids) -> In r rows.
Proof.
  induction rows as [|r0 rows IH]; intros ids r; simpl; [easy|].
  destruct (Py.contains (Kod r0) ids).
  - intros [<-|H]; [now left|right; now apply IH in H].
  - intros H. right. now apply IH in H.
Qed.

(** A row whose count resolves to a quantity other than 0. *)
Lemma taken_not_zero (rows : list row) (ids rest : list string)
  (taken : list (row * Z)) (p : row * Z) :
  match_rows rows ids = (inr taken, rest) ->
  In p taken -> snd p <> 0 ->
  In (fst p) rows /\ Kolichestvo (fst p) <> "1" /\
  resolves (Kolichestvo (fst p)) (snd p).
Proof.
  intros Hrun Hp Hq. destruct (match_rows_taken _ _ _ _ Hrun) as [Hm Hqs].
  rewrite Forall_forall in Hqs. specialize (Hqs p Hp).
  split; [|split].
  - apply (matched_rows_in_feed rows ids). rewrite <- Hm. now apply in_map.
  - intros H1. rewrite H1 in Hqs.
    change (resolve_quantity "1") with (@inr Py.exn Z 0) in Hqs.
    congruence.
  - now apply resolve_quantity_resolves.
Qed.

(** X20. What [upload_stocks] returns as not empty, in both files, are
    records of rows of the feed: each has the identifier of a row whose
    count is not the sentinel "1" and resolves to the quantity of the
    record, which is not 0.  An identifier the feed does not name, or
    names with the count "1" or "0" only, is never among them. *)
Theorem upload_stocks_not_empty (fuel : nat) (rows : list row)
  (account token warehouse_id : string) (w w' : Net.world) :
  (forall not_empty stocks s,
     SellerSync.upload_stocks fuel rows account token w
     = Some (inr (not_empty, stocks), w') ->
     In s not_empty ->
     In s stocks /\
     exists r, In r rows /\ Kod r = Seller.offer_id s /\
               Kolichestvo r <> "1" /\ Seller.stock s <> 0 /\
               resolves (Kolichestvo r) (Seller.stock s)) /\
  (forall not_empty stocks s,
     MarketSync.upload_stocks fuel rows account token warehouse_id w
     = Some (inr (not_empty, stocks), w') ->
     In s not_empty ->
     In s stocks /\
     exists r q, In r rows /\ Kod r = Market.sku s /\
                 Kolichestvo r <> "1" /\ market_quantities s = [q] /\
                 q <> 0 /\ resolves (Kolichestvo r) q).
Proof.
  split.
  - intros not_empty stocks s Hrun Hs. unfold SellerSync.upload_stocks in Hrun.
    apply bind_returned in Hrun as (ids & w1 & _ & Hrun).
    apply bind_returned in Hrun as ([stocks' rest] & w2 & Hcreate & Hrun).
    apply bind_returned in Hrun as (chunks & w3 & _ & Hrun).
    apply bind_returned in Hrun as ([] & w4 & _ & Hrun).
    injection Hrun as <- <- _. cbn [fst] in *.
    apply filter_In in Hs as [Hs Hq]. split; [exact Hs|].
    apply reconcile_returned in Hcreate as (st' & Hcreate & _).
    apply seller_create_stocks_returns in Hcreate
      as (taken & left & Hmatch & -> & _).
    apply in_app_or in Hs as [Hs|Hs]; apply in_map_iff in Hs as (x & <- & Hx).
    + simpl in Hq. apply negb_true_iff, Z.eqb_neq in Hq.
      destruct (taken_not_zero _ _ _ _ _ Hmatch Hx Hq) as (Hr & H1 & Hres).
      exists (fst x). now repeat split.
    + discriminate Hq.
  - intros not_empty stocks s Hrun Hs. unfold MarketSync.upload_stocks in Hrun.
    apply bind_returned in Hrun as (ids & w1 & _ & Hrun).
    apply bind_returned in Hrun as ([stocks' rest] & w2 & Hcreate & Hrun).
    apply bind_returned in Hrun as (chunks & w3 & _ & Hrun).
    apply bind_returned in Hrun as ([] & w4 & _ & Hrun).
    apply bind_returned in Hrun as (kept & w5 & Hfilter & Hrun).
    injection Hrun as <- <- _. cbn [fst] in *.
    apply reconcile_returned in Hcreate as (st' & Hcreate & _).
    pose proof (market_create_stocks_single_item _ _ _ _ _ Hcreate) as Hone.
    unfold Net.lift in Hfilter.
    rewrite (filter_count_not_zero _ Hone) in Hfilter.
    injection Hfilter as <- _.
    apply filter_In in Hs as [Hs Hq]. split; [exact Hs|].
    apply market_create_stocks_returns in Hcreate
      as (taken & left & Hmatch & -> & _).
    apply in_app_or in Hs as [Hs|Hs]; apply in_map_iff in Hs as (x & <- & Hx).
    + simpl in Hq. rewrite orb_false_r in Hq.
      apply negb_true_iff, Z.eqb_neq in Hq.
      destruct (taken_not_zero _ _ _ _ _ Hmatch Hx Hq) as (Hr & H1 & Hres).
      exists (fst x), (snd x). now repeat split.
    + discriminate Hq.
Qed.

Lemma upload_stocks_not_empty_witness :
  In {| Seller.offer_id := "a"; Seller.stock := 5 |}
     [{| Seller.offer_id := "a"; Seller.stock := 5 |};
      ozon_defaulted "b"; ozon_defaulted "c"] /\
  exists r,
    In r [feed_row "a" "5" "1.00"; feed_row "b" "1" "2.00"] /\
    Kod r = Seller.offer_id {| Seller.offer_id := "a"; Seller.stock := 5 |} /\
    Kolichestvo r <> "1" /\
    Seller.stock {| Seller.offer_id := "a"; Seller.stock := 5 |} <> 0 /\
    resolves (Kolichestvo r)
      (Seller.stock {| Seller.offer_id := "a"; Seller.stock := 5 |}).
Proof.
  eapply (proj1 (upload_stocks_not_empty
                   2 [feed_row "a" "5" "1.00"; feed_row "b" "1" "2.00"]
                   "id" "token" "" (fresh_world shop) _)
                [{| Seller.offer_id := "a"; Seller.stock := 5 |}]).
  - vm_compute. reflexivity.
  - now left.
Defined.
